(** * NUMA vm-stat toolkit: the policy invocation tool, the statistics logger
      and the benchmark driver, embedded from their sources.

    - [ChangePolicy]   : inference_engine/change_policy.c
    - [NumaStatLogger] : numa_stat_logger.c (the logger with its parsers)
    - [BenchmarkScript]: data_collection/rocksdb/benchmark_script.sh

    C [int] and [unsigned] are 32 bits, [long] and [unsigned long] are
    [word_bits] wide (64 on the LP64 Linux targets the tools are written
    for).  Integers are [Z] with the wrap-around written out, [double] is
    IEEE-754 binary64 through the executable specification [SpecFloat]. *)

From Corelib Require Import SpecFloat.
From Stdlib Require Import ZArith List String Ascii Bool Lia.
From stdpp Require Import base list.
Import ListNotations.

Local Open Scope string_scope.
Local Open Scope Z_scope.

(** ** C scalars *)

Module CInt.

Definition INT_MAX : Z := 2147483647.
Definition INT_MIN : Z := -2147483648.
Definition UINT_MOD : Z := 4294967296.
Definition LONG_MAX : Z := 9223372036854775807.
Definition LONG_MIN : Z := -9223372036854775808.
Definition ULONG_MOD : Z := 18446744073709551616.

Definition in_int (z : Z) : bool := (INT_MIN <=? z) && (z <=? INT_MAX).
Definition in_long (z : Z) : bool := (LONG_MIN <=? z) && (z <=? LONG_MAX).

(** Conversion of a [long] to [int]: the low 32 bits, read as signed. *)
Definition long_to_int (z : Z) : Z :=
  let r := z mod UINT_MOD in
  if r <=? INT_MAX then r else r - UINT_MOD.

(** Storing into an [unsigned]. *)
Definition to_unsigned (z : Z) : Z := z mod UINT_MOD.

End CInt.

(** ** Characters and C strings (no embedded NUL bytes) *)

Module CStr.

Definition nl : ascii := "010"%char.

(** [isspace] in the C locale. *)
Definition is_space (c : ascii) : bool :=
  let n := nat_of_ascii c in
  (Nat.eqb n 32 || (Nat.leb 9 n && Nat.leb n 13))%bool.

Definition is_digit (c : ascii) : bool :=
  let n := nat_of_ascii c in (Nat.leb 48 n && Nat.leb n 57)%bool.

Definition digit_val (c : ascii) : Z := Z.of_nat (nat_of_ascii c) - 48.

Fixpoint skip_space (s : string) : string :=
  match s with
  | String c s' => if is_space c then skip_space s' else s
  | EmptyString => s
  end.

(** The longest run of decimal digits at the head of [s]: how many there
    are, their value, and what follows. *)
Fixpoint read_digits (acc : Z) (count : nat) (s : string) : nat * Z * string :=
  match s with
  | String c s' =>
      if is_digit c then read_digits (10 * acc + digit_val c) (S count) s'
      else (count, acc, s)
  | EmptyString => (count, acc, s)
  end.

(** An optional sign, as [strtol] and the scanf conversions take it. *)
Definition read_sign (s : string) : bool * string :=
  match s with
  | String "-" s' => (true, s')
  | String "+" s' => (false, s')
  | _ => (false, s)
  end.

(** [atoi]: [(int) strtol (s, NULL, 10)].  No digits give 0; a value out of
    the range of [long] is clamped by [strtol] and then cut to 32 bits. *)
Definition atoi (s : string) : Z :=
  let '(neg, s1) := read_sign (skip_space s) in
  let '(cnt, v, _) := read_digits 0 0 s1 in
  let signed := if neg then - v else v in
  let clamped := Z.max CInt.LONG_MIN (Z.min CInt.LONG_MAX signed) in
  CInt.long_to_int clamped.

(** The [%u] conversion of the scanf family: blanks, an optional sign, at
    least one digit.  The value is what [strtoul] returns (clamped at
    [ULONG_MAX], negated in [unsigned long] after a minus sign) stored into
    an [unsigned].  Gives the value and the unread rest. *)
Definition scan_u (s : string) : option (Z * string) :=
  let '(neg, s1) := read_sign (skip_space s) in
  let '(cnt, v, rest) := read_digits 0 0 s1 in
  match cnt with
  | O => None
  | S _ =>
      let ul := if CInt.ULONG_MOD <=? v then CInt.ULONG_MOD - 1
                else if neg then - v else v in
      Some (CInt.to_unsigned ul, rest)
  end.

(** How often [c] occurs in [s]. *)
Fixpoint count_char (c : ascii) (s : string) : nat :=
  match s with
  | EmptyString => O
  | String c' s' => if Ascii.eqb c' c then S (count_char c s') else count_char c s'
  end.

Fixpoint drop (n : nat) (s : string) : string :=
  match n, s with
  | S n', String _ s' => drop n' s'
  | _, _ => s
  end.

Fixpoint take (n : nat) (s : string) : string :=
  match n, s with
  | S n', String c s' => String c (take n' s')
  | _, _ => EmptyString
  end.

(** [s] starts with [p]. *)
Fixpoint has_prefix (p s : string) : bool :=
  match p, s with
  | EmptyString, _ => true
  | String a p', String b s' => (Ascii.eqb a b && has_prefix p' s')%bool
  | String _ _, EmptyString => false
  end.

(** [strstr (hay, needle) != NULL]. *)
Fixpoint strstr (hay needle : string) : bool :=
  (has_prefix needle hay
   || match hay with
      | EmptyString => false
      | String _ hay' => strstr hay' needle
      end)%bool.

(** [snprintf (buf, size, ...)] keeps at most [size - 1] characters. *)
Definition snprintf (size : nat) (formatted : string) : string :=
  take (Nat.pred size) formatted.

(** *** Decimal output *)

Definition digit_char (d : Z) : ascii := ascii_of_nat (Z.to_nat (48 + d)).

(** Digits of [n], most significant first; [fuel] bounds their number. *)
Fixpoint dec_digits (fuel : nat) (n : Z) (tail : string) : string :=
  match fuel with
  | O => tail
  | S fuel' =>
      let tail' := String (digit_char (n mod 10)) tail in
      if n <? 10 then tail' else dec_digits fuel' (n / 10) tail'
  end.

(** A non-negative number has at most as many decimal digits as bits. *)
Definition dec_fuel (n : Z) : nat := S (Z.to_nat (Z.log2 n)).

Definition fmt_nat (n : Z) : string := dec_digits (dec_fuel n) n EmptyString.

(** [%u] *)
Definition fmt_u (v : Z) : string := fmt_nat (CInt.to_unsigned v).

(** [%d] and [%ld] *)
Definition fmt_d (v : Z) : string :=
  if v <? 0 then String "-" (fmt_nat (- v)) else fmt_nat v.

Fixpoint zeros (n : nat) (s : string) : string :=
  match n with
  | O => s
  | S n' => String "0" (zeros n' s)
  end.

(** [%0<width>ld]: zero padding up to a minimum width, after the sign. *)
Definition fmt_0d (width : nat) (v : Z) : string :=
  if v <? 0 then
    let body := fmt_nat (- v) in
    String "-" (zeros (Nat.sub (Nat.pred width) (String.length body)) body)
  else
    let body := fmt_nat v in
    zeros (Nat.sub width (String.length body)) body.

(** The number a string of decimal digits stands for. *)
Fixpoint dec_value (s : string) : Z :=
  match s with
  | EmptyString => 0
  | String c s' => digit_val c * 10 ^ Z.of_nat (String.length s') + dec_value s'
  end.

End CStr.

(** ** IEEE-754 binary64 *)

Module Double.

Definition prec : Z := 53.
Definition emax : Z := 1024.

Definition double := spec_float.

(** Conversion of an integer to [double], rounding to nearest even. *)
Definition of_int (z : Z) : double := binary_normalize prec emax z 0 false.

Definition div : double -> double -> double := SFdiv prec emax.
Definition mul : double -> double -> double := SFmul prec emax.

(** [x <= y], false when either is a NaN. *)
Definition le : double -> double -> bool := SFleb.

Definition zero : double := S754_zero false.

(** The integral part, toward zero; nothing for infinities and NaN. *)
Definition trunc (x : double) : option Z :=
  match x with
  | S754_zero _ => Some 0
  | S754_finite s m e =>
      Some (match e with
            | Zneg k => Z.quot (cond_Zopp s (Zpos m)) (2 ^ Zpos k)
            | _ => cond_Zopp s (Zpos m) * 2 ^ e
            end)
  | _ => None
  end.

(** Conversion to [int] and to [long]: the truncated value when the type
    can hold it, undefined (here [None]) otherwise. *)
Definition to_int (x : double) : option Z :=
  match trunc x with
  | Some z => if CInt.in_int z then Some z else None
  | None => None
  end.

Definition to_long (x : double) : option Z :=
  match trunc x with
  | Some z => if CInt.in_long z then Some z else None
  | None => None
  end.

(** The mathematical floor of a finite value [(-1)^s * m * 2^e]. *)
Definition floor (x : double) : option Z :=
  match x with
  | S754_zero _ => Some 0
  | S754_finite s m e =>
      Some (match e with
            | Zneg k => Z.div (cond_Zopp s (Zpos m)) (2 ^ Zpos k)
            | _ => cond_Zopp s (Zpos m) * 2 ^ e
            end)
  | _ => None
  end.

(** Some values by their bits. *)
Definition d_0_1 : double := S754_finite false 7205759403792794 (-56).
Definition d_0_25 : double := S754_finite false 4503599627370496 (-54).
Definition d_0_07 : double := S754_finite false 5044031582654956 (-56).
Definition d_1e9 : double := of_int 1000000000.

End Double.

(** ** The policy invocation tool: inference_engine/change_policy.c *)

Module ChangePolicy.

Definition __NR_my_new_syscall : Z := 470.

(** What the process does that can be seen from outside, in order. *)
Inductive event :=
| Stderr (text : string)
| Stdout (text : string)
| Perror (prefix : string)   (* "<prefix>: <description of errno>\n" on stderr *)
| Syscall (nr pid mode : Z) (nmask : list Z) (nodecount : Z)
| Free.

Record result := { trace : list event; exit_code : Z }.

(** The kernel and the allocator. *)
Record os := {
  calloc_ok : Z -> bool;                       (* by number of words *)
  syscall : Z -> Z -> Z -> list Z -> Z -> Z    (* the value returned *)
}.

Section Tool.

(** [sizeof (unsigned long) * 8]; [size_t] has the same width. *)
Variable word_bits : Z.

(** [(nodecount + sizeof (unsigned long) * 8 - 1) / (sizeof (unsigned long) * 8)],
    computed in [size_t] after the conversion of [nodecount]. *)
Definition mask_words (nodecount : Z) : Z :=
  ((nodecount + word_bits - 1) mod 2 ^ word_bits) / word_bits.

(** [calloc (n, sizeof (unsigned long))] *)
Definition calloc (o : os) (n : Z) : option (list Z) :=
  if calloc_ok o n then Some (replicate (Z.to_nat n) 0) else None.

(** [nmask[i / word_bits] |= 1UL << (i % word_bits)] *)
Definition set_node (nmask : list Z) (i : Z) : list Z :=
  alter (fun w => Z.lor w (Z.shiftl 1 (i mod word_bits)))
        (Z.to_nat (i / word_bits)) nmask.

(** [for (int i = ...; i < nodecount; i++)], with [todo] rounds left. *)
Fixpoint set_nodes (todo : nat) (i : Z) (nmask : list Z) : list Z :=
  match todo with
  | O => nmask
  | S todo' => set_nodes todo' (i + 1) (set_node nmask i)
  end.

Definition fill_mask (nodecount : Z) (nmask : list Z) : list Z :=
  set_nodes (Z.to_nat nodecount) 0 nmask.

Definition main (o : os) (argv : list string) : result :=
  let argc := Z.of_nat (length argv) in
  if argc <? 4 then
    {| trace := [Stderr ("Usage: " ++ nth 0 argv EmptyString ++ " <pid> <mode> <nodecount> "
                         ++ String CStr.nl EmptyString)];
       exit_code := 1 |}
  else
    let pid := CStr.atoi (nth 1 argv EmptyString) in
    let mode := CStr.atoi (nth 2 argv EmptyString) in
    let nodecount := CStr.atoi (nth 3 argv EmptyString) in
    match calloc o (mask_words nodecount) with
    | None => {| trace := [Perror "calloc"]; exit_code := 1 |}
    | Some zeroed =>
        let nmask := fill_mask nodecount zeroed in
        let ret := syscall o __NR_my_new_syscall pid mode nmask nodecount in
        let report :=
          if negb (ret =? 0) then Perror "syscall"
          else Stdout ("Syscall succeeded" ++ String CStr.nl EmptyString) in
        {| trace := [Syscall __NR_my_new_syscall pid mode nmask nodecount;
                     report; Free];
           exit_code := 0 |}
    end.

(** Bit [b] of a mask, counting through its words; clear beyond its end. *)
Definition mask_bit (nmask : list Z) (b : Z) : bool :=
  Z.testbit (nth (Z.to_nat (b / word_bits)) nmask 0) (b mod word_bits).

End Tool.

End ChangePolicy.

(** ** The statistics logger: numa_stat_logger.c *)

Module NumaStatLogger.

Import CStr.

(** All counters are C [unsigned]: values in [0, 2^32). *)
Record node_meminfo := { mem_total : Z; mem_used : Z }.

Record node_vmstat := {
  nr_free_pages : Z; numa_hit : Z; numa_miss : Z; numa_foreign : Z;
  numa_interleave : Z; numa_local : Z; numa_other : Z
}.

Record sys_vmstat := {
  numa_pte_updates : Z; numa_huge_pte_updates : Z; numa_pages_migrated : Z;
  pgmigrate_success : Z; pgmigrate_fail : Z; thp_migration_success : Z;
  thp_migration_fail : Z; thp_migration_split : Z
}.

(** *** Reading text files *)

(** What [fopen (path, "r")] finds: the text of the file, or nothing when
    it cannot be opened. *)
Definition reader := string -> option string.

(** The successive results of [fgets (line, size, fp)] until end of file,
    where [room] characters still fit into the current line: a line ends
    after a newline or when the buffer is full. *)
Fixpoint fgets_lines (size room : nat) (text : string) : list string :=
  match text with
  | EmptyString => []
  | String c rest =>
      if (Ascii.eqb c nl || Nat.eqb room 1)%bool then
        String c EmptyString :: fgets_lines size (Nat.pred size) rest
      else
        match fgets_lines size (Nat.pred room) rest with
        | [] => [String c EmptyString]
        | line :: lines => String c line :: lines
        end
  end.

(** At most [room] characters up to the next blank: the [%<room>s]
    conversion, after blanks were skipped. *)
Fixpoint read_word (room : nat) (s : string) : string * string :=
  match room, s with
  | S room', String c s' =>
      if is_space c then (EmptyString, s)
      else let '(w, rest) := read_word room' s' in (String c w, rest)
  | _, _ => (EmptyString, s)
  end.

(** [fscanf (fp, "%127s %u", key, &val) == 2]: the pair read and the rest
    of the stream, or nothing when fewer than two items match. *)
Definition fscanf_key_val (stream : string) : option (string * Z * string) :=
  let '(key, after_key) := read_word 127 (skip_space stream) in
  match key with
  | EmptyString => None
  | _ =>
      match scan_u after_key with
      | Some (val, rest) => Some (key, val, rest)
      | None => None
      end
  end.

(** *** parse_node_meminfo *)

Definition memtotal_key (nodeID : Z) : string :=
  snprintf 32 ("Node " ++ fmt_d nodeID ++ " MemTotal:").
Definition memfree_key (nodeID : Z) : string :=
  snprintf 32 ("Node " ++ fmt_d nodeID ++ " MemFree:").

(** The body of the [while (fgets ...)] loop over the lines still to come,
    with the two flags [found_total] and [found_free]. *)
Fixpoint scan_meminfo (lines : list string) (nodeID : Z)
         (found_total found_free : bool) (nm : node_meminfo) : node_meminfo :=
  match lines with
  | [] => nm
  | line :: lines' =>
      let '(nm1, ft1, ff1) :=
        if (negb found_total && strstr line (memtotal_key nodeID))%bool then
          match scan_u (drop (String.length (memtotal_key nodeID)) line) with
          | Some (val, _) =>
              ({| mem_total := val; mem_used := mem_used nm |}, true, found_free)
          | None => (nm, found_total, found_free)
          end
        else if (negb found_free && strstr line (memfree_key nodeID))%bool then
          match scan_u (drop (String.length (memfree_key nodeID)) line) with
          | Some (val, _) =>
              ({| mem_total := mem_total nm;
                  mem_used := CInt.to_unsigned (mem_total nm - val) |},
               found_total, true)
          | None => (nm, found_total, found_free)
          end
        else (nm, found_total, found_free) in
      if (ft1 && ff1)%bool then nm1
      else scan_meminfo lines' nodeID ft1 ff1 nm1
  end.

Definition parse_node_meminfo (fopen : reader) (nm : node_meminfo)
           (path : string) (nodeID : Z) : node_meminfo :=
  match fopen path with
  | None => nm
  | Some text => scan_meminfo (fgets_lines 256 255 text) nodeID false false nm
  end.

(** *** parse_node_vmstat *)

Record node_found := {
  f_nr_free_pages : bool; f_numa_hit : bool; f_numa_miss : bool;
  f_numa_foreign : bool; f_numa_interleave : bool; f_numa_local : bool;
  f_numa_other : bool
}.

Definition node_none : node_found :=
  Build_node_found false false false false false false false.

(** One round of the loop body: the record, the flags, [found_count]. *)
Definition node_vmstat_step (key : string) (val : Z)
           (st : node_vmstat * node_found * Z) : node_vmstat * node_found * Z :=
  let '(nv, f, found_count) := st in
  let '(Build_node_vmstat a b c d e g h) := nv in
  let '(Build_node_found fa fb fc fd fe fg fh) := f in
  if (negb fa && String.eqb key "nr_free_pages")%bool then
    (Build_node_vmstat val b c d e g h,
     Build_node_found true fb fc fd fe fg fh, found_count + 1)
  else if (negb fb && String.eqb key "numa_hit")%bool then
    (Build_node_vmstat a val c d e g h,
     Build_node_found fa true fc fd fe fg fh, found_count + 1)
  else if (negb fc && String.eqb key "numa_miss")%bool then
    (Build_node_vmstat a b val d e g h,
     Build_node_found fa fb true fd fe fg fh, found_count + 1)
  else if (negb fd && String.eqb key "numa_foreign")%bool then
    (Build_node_vmstat a b c val e g h,
     Build_node_found fa fb fc true fe fg fh, found_count + 1)
  else if (negb fe && String.eqb key "numa_interleave")%bool then
    (Build_node_vmstat a b c d val g h,
     Build_node_found fa fb fc fd true fg fh, found_count + 1)
  else if (negb fg && String.eqb key "numa_local")%bool then
    (Build_node_vmstat a b c d e val h,
     Build_node_found fa fb fc fd fe true fh, found_count + 1)
  else if (negb fh && String.eqb key "numa_other")%bool then
    (Build_node_vmstat a b c d e g val,
     Build_node_found fa fb fc fd fe fg true, found_count + 1)
  else st.

(** [while (fscanf (...) == 2) { ...; if (found_count == TOTAL_FIELDS) break; }].
    Every round consumes input, so [fuel] above the length of the text is
    never used up. *)
Fixpoint scan_node_vmstat (fuel : nat) (stream : string)
         (st : node_vmstat * node_found * Z) : node_vmstat :=
  match fuel with
  | O => fst (fst st)
  | S fuel' =>
      match fscanf_key_val stream with
      | None => fst (fst st)
      | Some (key, val, rest) =>
          let st' := node_vmstat_step key val st in
          if snd st' =? 7 then fst (fst st')
          else scan_node_vmstat fuel' rest st'
      end
  end.

Definition parse_node_vmstat (fopen : reader) (nv : node_vmstat)
           (path : string) : node_vmstat :=
  match fopen path with
  | None => nv
  | Some text => scan_node_vmstat (S (String.length text)) text (nv, node_none, 0)
  end.

(** *** parse_sys_vmstat *)

Record sys_found := {
  f_numa_pte_updates : bool; f_numa_huge_pte_updates : bool;
  f_numa_pages_migrated : bool; f_pgmigrate_success : bool;
  f_pgmigrate_fail : bool; f_thp_migration_success : bool;
  f_thp_migration_fail : bool; f_thp_migration_split : bool
}.

Definition sys_none : sys_found :=
  Build_sys_found false false false false false false false false.

Definition sys_vmstat_step (key : string) (val : Z)
           (st : sys_vmstat * sys_found * Z) : sys_vmstat * sys_found * Z :=
  let '(sv, f, found_count) := st in
  let '(Build_sys_vmstat a b c d e g h i) := sv in
  let '(Build_sys_found fa fb fc fd fe fg fh fi) := f in
  if (negb fa && String.eqb key "numa_pte_updates")%bool then
    (Build_sys_vmstat val b c d e g h i,
     Build_sys_found true fb fc fd fe fg fh fi, found_count + 1)
  else if (negb fb && String.eqb key "numa_huge_pte_updates")%bool then
    (Build_sys_vmstat a val c d e g h i,
     Build_sys_found fa true fc fd fe fg fh fi, found_count + 1)
  else if (negb fc && String.eqb key "numa_pages_migrated")%bool then
    (Build_sys_vmstat a b val d e g h i,
     Build_sys_found fa fb true fd fe fg fh fi, found_count + 1)
  else if (negb fd && String.eqb key "pgmigrate_success")%bool then
    (Build_sys_vmstat a b c val e g h i,
     Build_sys_found fa fb fc true fe fg fh fi, found_count + 1)
  else if (negb fe && String.eqb key "pgmigrate_fail")%bool then
    (Build_sys_vmstat a b c d val g h i,
     Build_sys_found fa fb fc fd true fg fh fi, found_count + 1)
  else if (negb fg && String.eqb key "thp_migration_success")%bool then
    (Build_sys_vmstat a b c d e val h i,
     Build_sys_found fa fb fc fd fe true fh fi, found_count + 1)
  else if (negb fh && String.eqb key "thp_migration_fail")%bool then
    (Build_sys_vmstat a b c d e g val i,
     Build_sys_found fa fb fc fd fe fg true fi, found_count + 1)
  else if (negb fi && String.eqb key "thp_migration_split")%bool then
    (Build_sys_vmstat a b c d e g h val,
     Build_sys_found fa fb fc fd fe fg fh true, found_count + 1)
  else st.

Fixpoint scan_sys_vmstat (fuel : nat) (stream : string)
         (st : sys_vmstat * sys_found * Z) : sys_vmstat :=
  match fuel with
  | O => fst (fst st)
  | S fuel' =>
      match fscanf_key_val stream with
      | None => fst (fst st)
      | Some (key, val, rest) =>
          let st' := sys_vmstat_step key val st in
          if snd st' =? 8 then fst (fst st')
          else scan_sys_vmstat fuel' rest st'
      end
  end.

Definition parse_sys_vmstat (fopen : reader) (sv : sys_vmstat)
           (path : string) : sys_vmstat :=
  match fopen path with
  | None => sv
  | Some text => scan_sys_vmstat (S (String.length text)) text (sv, sys_none, 0)
  end.

(** *** The CSV file *)

Definition csv_file : string := "numa_stat_log.csv".

Definition endl : string := String nl EmptyString.

(** [for (int i = ...; i < numa_count; i++) fprintf (fp, ",node_%d_mem_total,node_%d_mem_used", i, i);] *)
Fixpoint header_mem (todo : nat) (i : Z) : string :=
  match todo with
  | O => EmptyString
  | S todo' =>
      ",node_" ++ fmt_d i ++ "_mem_total,node_" ++ fmt_d i ++ "_mem_used"
      ++ header_mem todo' (i + 1)
  end.

Fixpoint header_vm (todo : nat) (i : Z) : string :=
  match todo with
  | O => EmptyString
  | S todo' =>
      ",node_" ++ fmt_d i ++ "_nr_free_pages,node_" ++ fmt_d i ++ "_numa_hit,node_"
      ++ fmt_d i ++ "_numa_miss,node_" ++ fmt_d i ++ "_numa_foreign,node_"
      ++ fmt_d i ++ "_numa_interleave,node_" ++ fmt_d i ++ "_numa_local,node_"
      ++ fmt_d i ++ "_numa_other"
      ++ header_vm todo' (i + 1)
  end.

Definition sys_cols : list string :=
  ["numa_pte_updates"; "numa_huge_pte_updates"; "numa_pages_migrated";
   "pgmigrate_success"; "pgmigrate_fail"; "thp_migration_success";
   "thp_migration_fail"; "thp_migration_split"].

Fixpoint header_sys (cols : list string) : string :=
  match cols with
  | [] => EmptyString
  | c :: cols' => "," ++ c ++ header_sys cols'
  end.

(** The header without its newline. *)
Definition header_fields (numa_count : Z) : string :=
  "timestamp" ++ header_mem (Z.to_nat numa_count) 0
  ++ header_vm (Z.to_nat numa_count) 0 ++ header_sys sys_cols.

(** The output file as [write_csv_header] and [main] meet it: its text
    when it exists, whether a file that exists can be opened for reading
    (the process may lack the permission), and whether opening the path
    for writing and for appending succeeds. *)
Record disk := {
  csv_text : option string;
  fopen_r_ok : bool;
  fopen_w_ok : bool;
  fopen_a_ok : bool
}.

(** [fopen (filename, "r")]: what can be read, when the file exists and
    may be read. *)
Definition fopen_r (d : disk) : option string :=
  match csv_text d with
  | Some text => if fopen_r_ok d then Some text else None
  | None => None
  end.

(** [write_csv_header]: the text of the file afterwards and whether a
    header went out, or nothing when it ends the process by [exit (1)].
    [fopen (filename, "w")] empties a file that exists. *)
Definition write_csv_header (d : disk) (filename : string) (numa_count : Z)
  : option (string * bool) :=
  match fopen_r d with
  | Some text => Some (text, false)
  | None =>
      if fopen_w_ok d then Some (header_fields numa_count ++ endl, true)
      else None
  end.

(** *** One row *)

Fixpoint row_mem (nm : list node_meminfo) : string :=
  match nm with
  | [] => EmptyString
  | r :: nm' => "," ++ fmt_u (mem_total r) ++ "," ++ fmt_u (mem_used r) ++ row_mem nm'
  end.

Fixpoint row_vm (nv : list node_vmstat) : string :=
  match nv with
  | [] => EmptyString
  | r :: nv' =>
      "," ++ fmt_u (nr_free_pages r) ++ "," ++ fmt_u (numa_hit r)
      ++ "," ++ fmt_u (numa_miss r) ++ "," ++ fmt_u (numa_foreign r)
      ++ "," ++ fmt_u (numa_interleave r) ++ "," ++ fmt_u (numa_local r)
      ++ "," ++ fmt_u (numa_other r) ++ row_vm nv'
  end.

Definition row_sys (sv : sys_vmstat) : string :=
  "," ++ fmt_u (numa_pte_updates sv) ++ "," ++ fmt_u (numa_huge_pte_updates sv)
  ++ "," ++ fmt_u (numa_pages_migrated sv) ++ "," ++ fmt_u (pgmigrate_success sv)
  ++ "," ++ fmt_u (pgmigrate_fail sv) ++ "," ++ fmt_u (thp_migration_success sv)
  ++ "," ++ fmt_u (thp_migration_fail sv) ++ "," ++ fmt_u (thp_migration_split sv).

(** ["%ld.%09ld"] *)
Definition timestamp (tv_sec tv_nsec : Z) : string :=
  fmt_d tv_sec ++ "." ++ fmt_0d 9 tv_nsec.

(** A row without its newline. *)
Definition row_fields (ts : Z * Z) (nm : list node_meminfo)
           (nv : list node_vmstat) (sv : sys_vmstat) : string :=
  timestamp (fst ts) (snd ts) ++ row_mem nm ++ row_vm nv ++ row_sys sv.

(** *** The process and its surroundings *)

Inductive diag :=
| Usage (prog : string)
| InvalidNumaCount (numa_count : Z)
| InvalidInterval (interval_sec : Double.double)
| MissingDuration
| InvalidDuration (duration_sec : Z)
| MissingCommand
| UnknownMode (mode : string)
| AllocFailed
| Perror (prefix : string).

(** What the logger does that can be seen from outside, in order. *)
Inductive event :=
| Diag (d : diag)                  (* a line on stderr *)
| Header (line : string)           (* the header, by [write_csv_header] *)
| Fork (child_pid : Z)
| Row (line : string)              (* the [fprintf]s of one row *)
| Flush
| Nanosleep (tv_sec tv_nsec : Z)
| Poll (ret : Z)                   (* [waitpid (child_pid, &status, WNOHANG)] *)
| Wait.                            (* [waitpid (child_pid, &status, 0)] *)

(** Everything the logger takes from outside.  [malloc] clears nothing:
    a block comes with whatever it held, here a function of the index.
    The sources read and the clock depend on the round [t] of the
    sampling loop. *)
Record world := {
  atof : string -> Double.double;
  malloc_nm : option (nat -> node_meminfo);
  malloc_nv : option (nat -> node_vmstat);
  stack_sv : sys_vmstat;
  output : disk;
  read_file : nat -> reader;
  clock_gettime : nat -> Z * Z;
  fork : Z;
  waitpid_nohang : nat -> Z
}.

(** How a run ends.  [Undefined]: a conversion the C standard leaves
    undefined was reached.  [Sampling]: the loop was still going when the
    fuel of the model ran out.  [Exec]: this is the forked child, which
    goes on as the command (or fails there with "execvp failed"). *)
Inductive outcome :=
| Exit (code : Z) (csv : option string) (trace : list event)
| Undefined (csv : option string) (trace : list event)
| Sampling (csv : option string) (trace : list event)
| Exec (run_argv : list string).

Record state := {
  nm : list node_meminfo;
  nv : list node_vmstat;
  sv : sys_vmstat;
  csv : string;
  trace : list event
}.

Definition meminfo_path (i : Z) : string :=
  snprintf 128 ("/sys/devices/system/node/node" ++ fmt_d i ++ "/meminfo").
Definition vmstat_path (i : Z) : string :=
  snprintf 128 ("/sys/devices/system/node/node" ++ fmt_d i ++ "/vmstat").

(** [for (int i = ...; i < numa_count; i++) { parse_node_meminfo (&nm[i], ...);
    parse_node_vmstat (&nv[i], ...); }] *)
Fixpoint parse_nodes (fopen : reader) (todo : nat) (i : Z)
         (nm : list node_meminfo) (nv : list node_vmstat)
  : list node_meminfo * list node_vmstat :=
  match todo with
  | O => (nm, nv)
  | S todo' =>
      let nm' := alter (fun r => parse_node_meminfo fopen r (meminfo_path i) i)
                       (Z.to_nat i) nm in
      let nv' := alter (fun r => parse_node_vmstat fopen r (vmstat_path i))
                       (Z.to_nat i) nv in
      parse_nodes fopen todo' (i + 1) nm' nv'
  end.

Inductive loop_end :=
| Done (st : state)
| Undef (st : state)
| NoFuel (st : state).

Section Loop.

(** The locals of [main] the loop reads. *)
Variable w : world.
Variable numa_count : Z.
Variable interval_sec : Double.double.
Variable use_duration : bool.
Variable iterations : Z.
Variable use_run : bool.

(** Parsing and the row of round [t]. *)
Definition sample (t : nat) (st : state) : state :=
  let '(nm', nv') :=
    parse_nodes (read_file w t) (Z.to_nat numa_count) 0 (nm st) (nv st) in
  let sv' := parse_sys_vmstat (read_file w t) (sv st) "/proc/vmstat" in
  let line := row_fields (clock_gettime w t) nm' nv' sv' ++ endl in
  {| nm := nm'; nv := nv'; sv := sv';
     csv := csv st ++ line;
     trace := trace st ++ [Row line; Flush] |}.

Definition log (e : event) (st : state) : state :=
  {| nm := nm st; nv := nv st; sv := sv st; csv := csv st;
     trace := trace st ++ [e] |}.

(** [for (int iter = 0; use_duration ? (iter < iterations) : 1; iter++)],
    entered for round [t] with [iter = t].  In run mode [iter] is never
    read, so it is not tracked there. *)
Fixpoint sampling (fuel : nat) (t : nat) (st : state) : loop_end :=
  match fuel with
  | O => NoFuel st
  | S fuel' =>
      if (if use_duration then Z.of_nat t <? iterations else true) then
        let st1 := sample t st in
        (* struct timespec ts_sleep = { 0, (long)(interval_sec * 1e9) }; *)
        match Double.to_long (Double.mul interval_sec Double.d_1e9) with
        | None => Undef st1
        | Some nsec =>
            let st2 := log (Nanosleep 0 nsec) st1 in
            if use_run then
              let ret := waitpid_nohang w t in
              let st3 := log (Poll ret) st2 in
              if negb (ret =? 0) then Done st3
              else sampling fuel' (S t) st3
            else sampling fuel' (S t) st2
        end
      else Done st
  end.

End Loop.

(** [main] from the allocation of the arrays on. *)
Definition run (fuel : nat) (w : world) (numa_count : Z)
           (interval_sec : Double.double) (use_duration : bool)
           (iterations : Z) (use_run : bool) (run_argv : list string)
  : outcome :=
  match malloc_nm w, malloc_nv w with
  | Some block_nm, Some block_nv =>
      match write_csv_header (output w) csv_file numa_count with
      | None => Exit 1 (csv_text (output w)) [Diag (Perror "fopen")]
      | Some (text, fresh) =>
          let tr0 := if fresh then [Header text] else [] in
          if negb (fopen_a_ok (output w)) then
            Exit 1 (Some text) (tr0 ++ [Diag (Perror "fopen append")])
          else if (use_run && (fork w =? 0))%bool then Exec run_argv
          else
            let n := Z.to_nat numa_count in
            let st0 := {| nm := map block_nm (seq 0 n);
                          nv := map block_nv (seq 0 n);
                          sv := stack_sv w;
                          csv := text;
                          trace := tr0 ++ (if use_run then [Fork (fork w)] else []) |} in
            match sampling w numa_count interval_sec use_duration iterations
                           use_run fuel 0 st0 with
            | Done st =>
                Exit 0 (Some (csv st))
                     (trace st ++ (if use_run then [Wait] else []))
            | Undef st => Undefined (Some (csv st)) (trace st)
            | NoFuel st => Sampling (Some (csv st)) (trace st)
            end
      end
  | _, _ => Exit 1 (csv_text (output w)) [Diag AllocFailed]
  end.

Definition main (fuel : nat) (w : world) (argv : list string) : outcome :=
  let argc := Z.of_nat (length argv) in
  let before := csv_text (output w) in
  if argc <? 4 then Exit 1 before [Diag (Usage (nth 0 argv EmptyString))]
  else
    let numa_count := atoi (nth 1 argv EmptyString) in
    if numa_count <=? 0 then Exit 1 before [Diag (InvalidNumaCount numa_count)]
    else
      let interval_sec := atof w (nth 2 argv EmptyString) in
      if Double.le interval_sec Double.zero then
        Exit 1 before [Diag (InvalidInterval interval_sec)]
      else if String.eqb (nth 3 argv EmptyString) "-d" then
        if argc <? 5 then Exit 1 before [Diag MissingDuration]
        else
          let duration_sec := atoi (nth 4 argv EmptyString) in
          if duration_sec <=? 0 then
            Exit 1 before [Diag (InvalidDuration duration_sec)]
          else
            (* iterations = duration_sec / interval_sec; *)
            match Double.to_int (Double.div (Double.of_int duration_sec) interval_sec) with
            | None => Undefined before []
            | Some iterations =>
                run fuel w numa_count interval_sec true iterations false []
            end
      else if String.eqb (nth 3 argv EmptyString) "-r" then
        if argc <? 5 then Exit 1 before [Diag MissingCommand]
        else run fuel w numa_count interval_sec false 0 true (skipn 4 argv)
      else Exit 1 before [Diag (UnknownMode (nth 3 argv EmptyString))].

(** The rows of a trace, in order. *)
Fixpoint rows (tr : list event) : list string :=
  match tr with
  | [] => []
  | Row line :: tr' => line :: rows tr'
  | _ :: tr' => rows tr'
  end.

Definition trace_of (o : outcome) : list event :=
  match o with
  | Exit _ _ tr | Undefined _ tr | Sampling _ tr => tr
  | Exec _ => []
  end.

Definition csv_of (o : outcome) : option string :=
  match o with
  | Exit _ c _ | Undefined c _ | Sampling c _ => c
  | Exec _ => None
  end.

(** *** Reading a trace and the file *)

(** The text between the separators, in order. *)
Fixpoint split_on (sep : ascii) (s : string) : list string :=
  match s with
  | EmptyString => [EmptyString]
  | String c s' =>
      if Ascii.eqb c sep then EmptyString :: split_on sep s'
      else match split_on sep s' with
           | [] => [String c EmptyString]
           | f :: fs => String c f :: fs
           end
  end.

(** The comma-separated fields of a line. *)
Definition fields (line : string) : list string := split_on "," line.

Fixpoint flatten (ls : list string) : string :=
  match ls with
  | [] => EmptyString
  | l :: ls' => l ++ flatten ls'
  end.

(** How many headers a trace has. *)
Fixpoint headers (tr : list event) : nat :=
  match tr with
  | [] => O
  | Header _ :: tr' => S (headers tr')
  | _ :: tr' => headers tr'
  end.

(** The results of the non-blocking [waitpid] calls of a trace. *)
Fixpoint polls (tr : list event) : list Z :=
  match tr with
  | [] => []
  | Poll ret :: tr' => ret :: polls tr'
  | _ :: tr' => polls tr'
  end.

Fixpoint all_digits (s : string) : bool :=
  match s with
  | EmptyString => true
  | String c s' => (is_digit c && all_digits s')%bool
  end.

(** A decimal number as [%ld] prints it. *)
Definition is_decimal (s : string) : bool :=
  match s with
  | EmptyString => false
  | String "-" (String c s') => all_digits (String c s')
  | _ => all_digits s
  end.

(** [<unix_seconds>.<9-digit-nanoseconds>] *)
Definition is_timestamp (s : string) : Prop :=
  exists secs frac,
    s = secs ++ "." ++ frac
    /\ is_decimal secs = true
    /\ String.length frac = 9%nat
    /\ all_digits frac = true.

(** [nanosleep (2)] takes a request with [tv_nsec] in [0, 999999999] and a
    non-negative [tv_sec]; any other fails with [EINVAL] at once.  The
    time in nanoseconds a request suspends the caller for (when no signal
    arrives). *)
Definition nanosleep_ok (tv_sec tv_nsec : Z) : bool :=
  (0 <=? tv_sec) && (0 <=? tv_nsec) && (tv_nsec <=? 999999999).

Definition slept (e : event) : Z :=
  match e with
  | Nanosleep tv_sec tv_nsec =>
      if nanosleep_ok tv_sec tv_nsec then tv_sec * 1000000000 + tv_nsec else 0
  | _ => 0
  end.

(** Both arrays are allocated, and the file can be read, or else opened
    for writing, and opened for appending. *)
Definition resources_ok (w : world) : bool :=
  match malloc_nm w, malloc_nv w with
  | Some _, Some _ =>
      (match fopen_r (output w) with
       | Some _ => true
       | None => fopen_w_ok (output w)
       end && fopen_a_ok (output w))%bool
  | _, _ => false
  end.

Definition end_state (e : loop_end) : state :=
  match e with
  | Done st | Undef st | NoFuel st => st
  end.

(** A line of [n] nodes: a timestamp, two memory fields and seven counters
    for each node, eight system counters, a newline. *)
Definition row_ok (n : nat) (line : string) : Prop :=
  exists body,
    line = body ++ endl
    /\ length (fields body) = (1 + 2 * n + 7 * n + 8)%nat
    /\ exists ts, nth_error (fields body) 0 = Some ts /\ is_timestamp ts.

(** The arrays and the trace at the entry of the sampling loop. *)
Definition entry_state (w : world) (numa_count : Z) (use_run : bool)
           (block_nm : nat -> node_meminfo) (block_nv : nat -> node_vmstat)
           (text : string) (fresh : bool) : state :=
  {| nm := map block_nm (seq 0 (Z.to_nat numa_count));
     nv := map block_nv (seq 0 (Z.to_nat numa_count));
     sv := stack_sv w;
     csv := text;
     trace := (if fresh then [Header text] else [])
              ++ (if use_run then [Fork (fork w)] else []) |}.

(** What [main] accepts as a run-mode and as a duration-mode command line. *)
Definition run_mode_args (w : world) (argv : list string) : Prop :=
  (5 <= length argv)%nat
  /\ 0 < atoi (nth 1 argv EmptyString)
  /\ Double.le (atof w (nth 2 argv EmptyString)) Double.zero = false
  /\ nth 3 argv EmptyString = "-r".

Definition duration_mode_args (w : world) (argv : list string) : Prop :=
  (5 <= length argv)%nat
  /\ 0 < atoi (nth 1 argv EmptyString)
  /\ Double.le (atof w (nth 2 argv EmptyString)) Double.zero = false
  /\ nth 3 argv EmptyString = "-d"
  /\ 0 < atoi (nth 4 argv EmptyString).

(** Every poll of the child comes right after a row, its flush and the
    sleep. *)
Definition polls_follow_rows (tr : list event) : Prop :=
  forall pre ret post,
    tr = (pre ++ Poll ret :: post)%list ->
    exists pre' line tv_sec tv_nsec,
      pre = (pre' ++ [Row line; Flush; Nanosleep tv_sec tv_nsec])%list.

(** The run went through the loop to its end with status 0, or is still
    sampling. *)
Definition in_order (o : outcome) : bool :=
  match o with
  | Exit 0 _ _ | Sampling _ _ => true
  | _ => false
  end.

(** The time the sleeps of a trace suspend the process for, in
    nanoseconds. *)
Fixpoint total_slept (tr : list event) : Z :=
  match tr with
  | [] => 0
  | e :: tr' => slept e + total_slept tr'
  end.

(** The requests made to [nanosleep], in order. *)
Fixpoint sleeps (tr : list event) : list (Z * Z) :=
  match tr with
  | [] => []
  | Nanosleep tv_sec tv_nsec :: tr' => (tv_sec, tv_nsec) :: sleeps tr'
  | _ :: tr' => sleeps tr'
  end.

End NumaStatLogger.

(** ** The benchmark driver: data_collection/rocksdb/benchmark_script.sh *)

Module BenchmarkScript.

Import CStr.

(** [${n:-word}]: the n-th positional parameter, or [word] when it is
    unset or empty. *)
Definition param_or (args : list string) (n : nat) (word : string) : string :=
  match nth_error args (Nat.pred n) with
  | Some (String c s) => String c s
  | _ => word
  end.

(** Space and tab, the characters bash skips after a number. *)
Definition is_blank (c : ascii) : bool :=
  let n := nat_of_ascii c in (Nat.eqb n 32 || Nat.eqb n 9)%bool.

Fixpoint skip_blank (s : string) : string :=
  match s with
  | String c s' => if is_blank c then skip_blank s' else s
  | EmptyString => s
  end.

(** An operand of the arithmetic tests of [[ ]], as bash reads it: what
    [strtoimax] takes (white space of any kind, an optional sign, at
    least one digit, no overflow of [intmax_t]), then spaces and tabs and
    nothing else. *)
Definition shell_int (s : string) : option Z :=
  let '(neg, s1) := read_sign (skip_space s) in
  let '(cnt, v, rest) := read_digits 0 0 s1 in
  match cnt, skip_blank rest with
  | S _, EmptyString =>
      let z := if neg then - v else v in
      if CInt.in_long z then Some z else None
  | _, _ => None
  end.

(** [[ a -lt b ]] as the condition of an [if]: an operand that is not an
    integer makes the test fail with a message, and the branch is not
    taken. *)
Definition test_lt (a : string) (b : Z) : bool :=
  match shell_int a with
  | Some n => n <? b
  | None => false
  end.

(** [DB_BENCH_EXEC=~/rocksdb/db_bench]: the tilde of an assignment is
    expanded at once, to [home] (the value of [HOME], or the home
    directory of the user when [HOME] is not set). *)
Definition DB_BENCH_EXEC (home : string) : string := home ++ "/rocksdb/db_bench".

(** The characters of the default [IFS]: space, tab, newline. *)
Definition is_ifs (c : ascii) : bool :=
  let n := nat_of_ascii c in (Nat.eqb n 32 || Nat.eqb n 9 || Nat.eqb n 10)%bool.

(** The pieces of [s] between the characters of [IFS], empty ones too. *)
Fixpoint split_ifs (s : string) : list string :=
  match s with
  | EmptyString => [EmptyString]
  | String c s' =>
      if is_ifs c then EmptyString :: split_ifs s'
      else match split_ifs s' with
           | [] => [String c EmptyString]
           | f :: fs => String c f :: fs
           end
  end.

Definition not_empty (s : string) : bool :=
  match s with
  | EmptyString => false
  | String _ _ => true
  end.

(** A character that makes a word a pattern for file names. *)
Definition is_pattern (c : ascii) : bool :=
  let n := nat_of_ascii c in (Nat.eqb n 42 || Nat.eqb n 63 || Nat.eqb n 91)%bool.

Fixpoint has_pattern (s : string) : bool :=
  match s with
  | EmptyString => false
  | String c s' => (is_pattern c || has_pattern s')%bool
  end.

(** [$name] without quotes, as words of a command: the value is split at
    the white space of [IFS].  A value with a pattern character would
    next be matched against the names of files, which is not followed
    here: there are no words to tell then. *)
Definition unquoted (value : string) : option (list string) :=
  if has_pattern value then None
  else Some (List.filter not_empty (split_ifs value)).

(** A text without white space of [IFS] and without pattern characters. *)
Fixpoint no_ifs (s : string) : bool :=
  match s with
  | EmptyString => true
  | String c s' => (negb (is_ifs c) && no_ifs s')%bool
  end.

Definition plain (s : string) : bool := (no_ifs s && negb (has_pattern s))%bool.

Record run := { stdout : list string; command : option (list string) }.

(** The fixed options of the benchmark, with the two that vary. *)
Definition options (NUM THREADS : string) : list string :=
  ["--num_levels=6"; "--key_size=20";
   "--prefix_size=20"; "--keys_per_prefix=0"; "--value_size=100";
   "--cache_size=17179869184"; "--cache_numshardbits=6";
   "--compression_type=none"; "--compression_ratio=1";
   "--min_level_to_compress=-1"; "--disable_seek_compaction=1";
   "--write_buffer_size=134217728"; "--max_write_buffer_number=2";
   "--level0_file_num_compaction_trigger=8";
   "--target_file_size_base=134217728"; "--max_bytes_for_level_base=1073741824";
   "--disable_wal=1"; "--sync=0"; "--verify_checksum=1";
   "--delete_obsolete_files_period_micros=314572800";
   "--max_background_compactions=4"; "--max_background_flushes=0";
   "--level0_slowdown_writes_trigger=16";
   "--level0_stop_writes_trigger=24";
   "--statistics=0"; "--histogram=0"; "--stats_per_interval=0"; "--stats_interval=0";
   "--use_plain_table=1"; "--open_files=-1"; "--mmap_read=1"; "--mmap_write=0";
   "--memtablerep=prefix_hash";
   "--bloom_bits=10"; "--bloom_locality=1";
   "--benchmarks=fillrandom,readseq,readrandom,readtocache,readwhilescanning";
   "--use_existing_db=0";
   "--num=" ++ NUM;
   "--threads=" ++ THREADS; "--allow_concurrent_memtable_write=false"].

(** The script, given what the tilde expands to, what [nproc] prints
    (trailing newlines removed by the command substitution) and the
    positional parameters. *)
Definition script (home nproc : string) (args : list string) : run :=
  let NUM := param_or args 1 "1000" in
  let THREADS := param_or args 2 nproc in
  let THREADS := if test_lt THREADS 1 then "1" else THREADS in
  {| stdout :=
       ["--- Running RocksDB Benchmarks ---";
        "NUM Operations (--num): " ++ NUM;
        "Threads (--threads): " ++ THREADS;
        "----------------------------------"];
     command :=
       option_map (fun words => (words ++ options NUM THREADS)%list)
                  (unquoted (DB_BENCH_EXEC home)) |}.

(** The value given to an option [--name=value] of a command line, the
    first time it occurs. *)
Fixpoint option_value (name : string) (argv : list string) : option string :=
  match argv with
  | [] => None
  | a :: argv' =>
      if has_prefix ("--" ++ name ++ "=") a
      then Some (drop (String.length name + 3) a)
      else option_value name argv'
  end.

End BenchmarkScript.

(** ** The logger launch script: script.sh *)

Module LaunchScript.

Definition INTERVAL : string := "0.1".

(** The command the script runs, given what
    [ls -d /sys/devices/system/node/node* | wc -l] prints and the
    positional parameters: run mode around the given command, or ten
    seconds in duration mode. *)
Definition script (NUMA_COUNT : string) (args : list string) : list string :=
  if 1 <=? Z.of_nat (length args) then
    "./numa_stat_logger" :: NUMA_COUNT :: INTERVAL :: "-r" :: args
  else
    ["./numa_stat_logger"; NUMA_COUNT; INTERVAL; "-d"; "10"].

End LaunchScript.

(** ** The inference loop: inference_engine/inference_script.sh *)

Module InferenceScript.

(** What the script does, in order. *)
Inductive step :=
| Background (command : string)          (* [command &] *)
| Echo (line : string)
| ChangePolicy (argv : list string)      (* [./change_policy "$DUMMY_PID" "$mode" "$NUMA_COUNT"] *)
| Sleep (seconds : string).

(** What the shell finds at the [t]-th turn of the loop: whether
    [kill -0 "$DUMMY_PID"] succeeds, and what [./dummy_model.sh] prints. *)
Record shell := {
  kill_0 : nat -> bool;
  dummy_model : nat -> string
}.

(** [while kill -0 "$DUMMY_PID" 2>/dev/null; do ...; done], from turn [t];
    nothing when the turns run out before the workload ends. *)
Fixpoint policy_loop (sh : shell) (DUMMY_PID NUMA_COUNT : string) (turns t : nat)
  : option (list step) :=
  match turns with
  | O => None
  | S turns' =>
      if kill_0 sh t then
        let mode := dummy_model sh t in
        match policy_loop sh DUMMY_PID NUMA_COUNT turns' (S t) with
        | Some rest =>
            Some (ChangePolicy ["./change_policy"; DUMMY_PID; mode; NUMA_COUNT]
                    :: Sleep "0.5" :: rest)
        | None => None
        end
      else Some []
  end.

(** The script, given what [ls -d ... | wc -l] prints and the pid [$!] of
    the workload. *)
Definition script (sh : shell) (NUMA_COUNT DUMMY_PID : string) (turns : nat)
  : option (list step) :=
  match policy_loop sh DUMMY_PID NUMA_COUNT turns 0 with
  | Some loop =>
      Some ([Background "./dummy_executable_benchmark.sh";
             Echo ("Started dummy_executable_benchmark.sh with PID " ++ DUMMY_PID);
             Echo ("NUMA nodes: " ++ NUMA_COUNT)]
              ++ loop
              ++ [Echo "dummy_executable_benchmark.sh has finished. Exiting."])%list
  | None => None
  end.

(** The command lines given to [./change_policy], in order. *)
Fixpoint invocations (steps : list step) : list (list string) :=
  match steps with
  | [] => []
  | ChangePolicy argv :: steps' => argv :: invocations steps'
  | _ :: steps' => invocations steps'
  end.

(** The pauses of the script, in order. *)
Fixpoint pauses (steps : list step) : list string :=
  match steps with
  | [] => []
  | Sleep seconds :: steps' => seconds :: pauses steps'
  | _ :: steps' => pauses steps'
  end.

End InferenceScript.

(** ** The words of a node mask *)

Module MaskWords.

(** A mask word has no bit beyond the width of [unsigned long]. *)
Definition word_fits (word_bits w : Z) : Prop :=
  forall k, word_bits <= k -> Z.testbit w k = false.

End MaskWords.

(** ** A node's meminfo file as the kernel writes it *)

Module Meminfo.

Import CStr NumaStatLogger.

Fixpoint blanks (n : nat) : string :=
  match n with
  | O => EmptyString
  | S n' => String " " (blanks n')
  end.

(** The two lines [parse_node_meminfo] looks for, the amounts in kB
    after [pad] blanks, and then the rest of the file. *)
Definition meminfo_text (nodeID total free : Z) (pad : nat) (rest : string) : string :=
  ("Node " ++ fmt_d nodeID ++ " MemTotal:") ++ (blanks pad ++ fmt_nat total ++ " kB") ++ endl
  ++ ("Node " ++ fmt_d nodeID ++ " MemFree:") ++ (blanks pad ++ fmt_nat free ++ " kB") ++ endl
  ++ rest.

(** A piece of at most [n] characters with no newline before its last
    character. *)
Definition piece (n : nat) (l : string) : Prop :=
  (String.length l <= n)%nat
  /\ exists body c, l = (body ++ String c EmptyString)%string /\ count_char nl body = O.

End Meminfo.

(** ** Views of the logger's text formats *)

Module Vmstat.

Import CStr NumaStatLogger.

(** The pairs that [while (fscanf (fp, "%127s %u", key, &val) == 2)] reads
    one after the other, until a read fails. *)
Fixpoint key_values (fuel : nat) (stream : string) : list (string * Z) :=
  match fuel with
  | O => []
  | S fuel' =>
      match fscanf_key_val stream with
      | None => []
      | Some (key, val, rest) => (key, val) :: key_values fuel' rest
      end
  end.

(** The value of the first pair with the given key, or [old]. *)
Fixpoint first_or (old : Z) (key : string) (pairs : list (string * Z)) : Z :=
  match pairs with
  | [] => old
  | (k, v) :: pairs' => if String.eqb k key then v else first_or old key pairs'
  end.

Definition node_found_count (f : node_found) : Z :=
  Z.b2z (f_nr_free_pages f) + Z.b2z (f_numa_hit f) + Z.b2z (f_numa_miss f)
  + Z.b2z (f_numa_foreign f) + Z.b2z (f_numa_interleave f)
  + Z.b2z (f_numa_local f) + Z.b2z (f_numa_other f).

Definition sys_found_count (f : sys_found) : Z :=
  Z.b2z (f_numa_pte_updates f) + Z.b2z (f_numa_huge_pte_updates f)
  + Z.b2z (f_numa_pages_migrated f) + Z.b2z (f_pgmigrate_success f)
  + Z.b2z (f_pgmigrate_fail f) + Z.b2z (f_thp_migration_success f)
  + Z.b2z (f_thp_migration_fail f) + Z.b2z (f_thp_migration_split f).

(** A vmstat text as the kernel writes it: one [<key> <value>] line for
    each pair. *)
Fixpoint text_of (pairs : list (string * Z)) : string :=
  match pairs with
  | [] => EmptyString
  | (k, v) :: pairs' => k ++ " " ++ fmt_nat v ++ endl ++ text_of pairs'
  end.

(** A key of the kernel: not empty, no blank in it, short enough for the
    buffer. *)
Fixpoint no_space (s : string) : bool :=
  match s with
  | EmptyString => true
  | String c s' => (negb (is_space c) && no_space s')%bool
  end.

Definition is_key (k : string) : bool :=
  (no_space k && Nat.leb 1 (String.length k) && Nat.leb (String.length k) 127)%bool.

(** A value as the kernel prints it, an [unsigned long], and what is left
    of it in the [unsigned] that [%u] stores it into. *)
Definition is_ulong (v : Z) : bool := (0 <=? v) && (v <? CInt.ULONG_MOD).

Definition stored (pairs : list (string * Z)) : list (string * Z) :=
  map (fun kv => (kv.1, CInt.to_unsigned kv.2)) pairs.

End Vmstat.

Module Csv.

Import CStr NumaStatLogger.

(** The counters of a round under the names of their columns, in the
    order of the header after [timestamp]; [i] is the number of the first
    node. *)
Fixpoint mem_cells (i : Z) (nm : list node_meminfo) : list (string * Z) :=
  match nm with
  | [] => []
  | r :: nm' =>
      ("node_" ++ fmt_d i ++ "_mem_total", mem_total r)
        :: ("node_" ++ fmt_d i ++ "_mem_used", mem_used r)
        :: mem_cells (i + 1) nm'
  end.

Fixpoint vm_cells (i : Z) (nv : list node_vmstat) : list (string * Z) :=
  match nv with
  | [] => []
  | r :: nv' =>
      ("node_" ++ fmt_d i ++ "_nr_free_pages", nr_free_pages r)
        :: ("node_" ++ fmt_d i ++ "_numa_hit", numa_hit r)
        :: ("node_" ++ fmt_d i ++ "_numa_miss", numa_miss r)
        :: ("node_" ++ fmt_d i ++ "_numa_foreign", numa_foreign r)
        :: ("node_" ++ fmt_d i ++ "_numa_interleave", numa_interleave r)
        :: ("node_" ++ fmt_d i ++ "_numa_local", numa_local r)
        :: ("node_" ++ fmt_d i ++ "_numa_other", numa_other r)
        :: vm_cells (i + 1) nv'
  end.

Definition sys_cells (sv : sys_vmstat) : list (string * Z) :=
  [("numa_pte_updates", numa_pte_updates sv);
   ("numa_huge_pte_updates", numa_huge_pte_updates sv);
   ("numa_pages_migrated", numa_pages_migrated sv);
   ("pgmigrate_success", pgmigrate_success sv);
   ("pgmigrate_fail", pgmigrate_fail sv);
   ("thp_migration_success", thp_migration_success sv);
   ("thp_migration_fail", thp_migration_fail sv);
   ("thp_migration_split", thp_migration_split sv)].

Definition cells (nm : list node_meminfo) (nv : list node_vmstat)
           (sv : sys_vmstat) : list (string * Z) :=
  (mem_cells 0 nm ++ vm_cells 0 nv ++ sys_cells sv)%list.

(** A run of fields, each after a comma. *)
Fixpoint join (fs : list string) : string :=
  match fs with
  | [] => EmptyString
  | f :: fs' => "," ++ f ++ join fs'
  end.

(** Every row of a trace is followed at once by its flush. *)
Definition rows_flushed (tr : list event) : Prop :=
  forall pre line post,
    tr = (pre ++ Row line :: post)%list -> exists post', post = Flush :: post'.

(** A line that starts with the time [ts] as [<seconds>.<nine digits>]
    and goes on after a comma. *)
Definition stamped (ts : Z * Z) (line : string) : Prop :=
  exists secs frac rest,
    line = (secs ++ "." ++ frac ++ "," ++ rest)%string
    /\ all_digits secs = true
    /\ dec_value secs = fst ts
    /\ String.length frac = 9%nat
    /\ all_digits frac = true
    /\ dec_value frac = snd ts.

(** How often the logger forks, and waits for the child in the end. *)
Fixpoint forks (tr : list event) : nat :=
  match tr with
  | [] => O
  | Fork _ :: tr' => S (forks tr')
  | _ :: tr' => forks tr'
  end.

Fixpoint waits (tr : list event) : nat :=
  match tr with
  | [] => O
  | Wait :: tr' => S (waits tr')
  | _ :: tr' => waits tr'
  end.

End Csv.

(** ** Concrete runs, used to try the models and to instantiate the theorems *)

Module Examples.

(** An allocator that never fails and a kernel without system call 470. *)
Definition os_enosys : ChangePolicy.os :=
  {| ChangePolicy.calloc_ok := fun _ => true;
     ChangePolicy.syscall := fun _ _ _ _ _ => -1 |}.

Definition change_policy_argv : list string :=
  ["./change_policy"; "4242"; "2"; "70"].

Definition meminfo_node0 : string :=
  "Node 0 MemTotal:       32768000 kB" ++ NumaStatLogger.endl
  ++ "Node 0 MemFree:         1000000 kB" ++ NumaStatLogger.endl
  ++ "Node 0 MemUsed:        31768000 kB" ++ NumaStatLogger.endl.

Definition vmstat_node0 : string :=
  "nr_free_pages 250000" ++ NumaStatLogger.endl
  ++ "numa_hit 81" ++ NumaStatLogger.endl
  ++ "numa_miss 2" ++ NumaStatLogger.endl.

(** [atof] on the few texts the examples use. *)
Definition atof_table (s : string) : Double.double :=
  if String.eqb s "0.1" then Double.d_0_1
  else if String.eqb s "0.25" then Double.d_0_25
  else Double.of_int (CStr.atoi s).

(** A machine with node 0 only; the meminfo of node 0 cannot be read in
    round 0.  The arrays arrive from [malloc] with old contents, the
    output file does not exist yet, and the child is seen to have
    exited at the third poll. *)
Definition one_node : NumaStatLogger.world :=
  {| NumaStatLogger.atof := atof_table;
     NumaStatLogger.malloc_nm :=
       Some (fun _ => NumaStatLogger.Build_node_meminfo 3735928559 48879);
     NumaStatLogger.malloc_nv :=
       Some (fun _ => NumaStatLogger.Build_node_vmstat 0 0 0 0 0 0 0);
     NumaStatLogger.stack_sv := NumaStatLogger.Build_sys_vmstat 0 0 0 0 0 0 0 0;
     NumaStatLogger.output :=
       {| NumaStatLogger.csv_text := None;
          NumaStatLogger.fopen_r_ok := true;
          NumaStatLogger.fopen_w_ok := true;
          NumaStatLogger.fopen_a_ok := true |};
     NumaStatLogger.read_file := fun t path =>
       if String.eqb path "/sys/devices/system/node/node0/meminfo"
       then (if Nat.eqb t 0 then None else Some meminfo_node0)
       else if String.eqb path "/sys/devices/system/node/node0/vmstat"
       then Some vmstat_node0
       else if String.eqb path "/proc/vmstat"
       then Some "numa_pte_updates 7 pgmigrate_success 3"
       else None;
     NumaStatLogger.clock_gettime := fun t => (1700000000 + Z.of_nat t, 5000);
     NumaStatLogger.fork := 4242;
     NumaStatLogger.waitpid_nohang := fun t => if Nat.ltb t 2 then 0 else 4242 |}.

(** The same machine with a log already there. *)
Definition one_node_again : NumaStatLogger.world :=
  {| NumaStatLogger.atof := atof_table;
     NumaStatLogger.malloc_nm := NumaStatLogger.malloc_nm one_node;
     NumaStatLogger.malloc_nv := NumaStatLogger.malloc_nv one_node;
     NumaStatLogger.stack_sv := NumaStatLogger.stack_sv one_node;
     NumaStatLogger.output :=
       {| NumaStatLogger.csv_text := Some ("timestamp,a,b" ++ NumaStatLogger.endl);
          NumaStatLogger.fopen_r_ok := true;
          NumaStatLogger.fopen_w_ok := true;
          NumaStatLogger.fopen_a_ok := true |};
     NumaStatLogger.read_file := NumaStatLogger.read_file one_node;
     NumaStatLogger.clock_gettime := NumaStatLogger.clock_gettime one_node;
     NumaStatLogger.fork := 4242;
     NumaStatLogger.waitpid_nohang := NumaStatLogger.waitpid_nohang one_node |}.

Definition argv_d_2_01_1 : list string := ["./numa_stat_logger"; "2"; "0.1"; "-d"; "1"].
Definition argv_d_1_1_3 : list string := ["./numa_stat_logger"; "1"; "1"; "-d"; "3"].
Definition argv_d_overflow : list string :=
  ["./numa_stat_logger"; "1"; "0.25"; "-d"; "1073741824"].
Definition argv_r : list string :=
  ["./numa_stat_logger"; "1"; "0.25"; "-r"; "./dummy_executable_benchmark.sh"].

End Examples.

(** ** More concrete inputs *)

Module MoreExamples.

Definition argv_no_count : list string := ["./change_policy"; "4242"; "2"; "all"].

(** A vmstat text in which [numa_hit] comes twice, the first time with
    a value above [UINT_MAX]. *)
Definition vmstat_pairs : list (string * Z) :=
  [("nr_free_pages", 250000); ("numa_hit", 4294967377); ("numa_miss", 2);
   ("numa_hit", 99)].

Definition sys_pairs : list (string * Z) :=
  [("nr_free_pages", 1); ("numa_pte_updates", 7); ("pgmigrate_success", 3);
   ("numa_pte_updates", 8)].

Definition two_nodes_nm : list NumaStatLogger.node_meminfo :=
  [NumaStatLogger.Build_node_meminfo 32768000 31768000;
   NumaStatLogger.Build_node_meminfo 16384000 4294967295].

Definition two_nodes_nv : list NumaStatLogger.node_vmstat :=
  [NumaStatLogger.Build_node_vmstat 250000 81 2 0 0 80 3;
   NumaStatLogger.Build_node_vmstat 1 2 3 4 5 6 7].

Definition some_sv : NumaStatLogger.sys_vmstat :=
  NumaStatLogger.Build_sys_vmstat 7 0 0 3 0 0 0 0.

(** The machine of [Examples.one_node] with a log of an earlier run that
    the process may write but not read. *)
Definition write_only_log : NumaStatLogger.world :=
  {| NumaStatLogger.atof := Examples.atof_table;
     NumaStatLogger.malloc_nm := NumaStatLogger.malloc_nm Examples.one_node;
     NumaStatLogger.malloc_nv := NumaStatLogger.malloc_nv Examples.one_node;
     NumaStatLogger.stack_sv := NumaStatLogger.stack_sv Examples.one_node;
     NumaStatLogger.output :=
       {| NumaStatLogger.csv_text :=
            Some ("timestamp,a,b" ++ NumaStatLogger.endl ++ "1699999999.000000000,1,2"
                  ++ NumaStatLogger.endl);
          NumaStatLogger.fopen_r_ok := false;
          NumaStatLogger.fopen_w_ok := true;
          NumaStatLogger.fopen_a_ok := true |};
     NumaStatLogger.read_file := NumaStatLogger.read_file Examples.one_node;
     NumaStatLogger.clock_gettime := NumaStatLogger.clock_gettime Examples.one_node;
     NumaStatLogger.fork := 4242;
     NumaStatLogger.waitpid_nohang := NumaStatLogger.waitpid_nohang Examples.one_node |}.

Definition argv_zero_nodes : list string :=
  ["./numa_stat_logger"; "0"; "0.1"; "-d"; "10"].

(** The machine of [Examples.one_node] with a child that never ends. *)
Definition child_runs : NumaStatLogger.world :=
  {| NumaStatLogger.atof := Examples.atof_table;
     NumaStatLogger.malloc_nm := NumaStatLogger.malloc_nm Examples.one_node;
     NumaStatLogger.malloc_nv := NumaStatLogger.malloc_nv Examples.one_node;
     NumaStatLogger.stack_sv := NumaStatLogger.stack_sv Examples.one_node;
     NumaStatLogger.output := NumaStatLogger.output Examples.one_node;
     NumaStatLogger.read_file := NumaStatLogger.read_file Examples.one_node;
     NumaStatLogger.clock_gettime := NumaStatLogger.clock_gettime Examples.one_node;
     NumaStatLogger.fork := 4242;
     NumaStatLogger.waitpid_nohang := fun _ => 0 |}.

(** The logger of [Examples.one_node] between two rounds. *)
Definition some_state : NumaStatLogger.state :=
  {| NumaStatLogger.nm := [NumaStatLogger.Build_node_meminfo 7 8];
     NumaStatLogger.nv := [NumaStatLogger.Build_node_vmstat 1 1 1 1 1 1 1];
     NumaStatLogger.sv := some_sv;
     NumaStatLogger.csv := EmptyString;
     NumaStatLogger.trace := [] |}.

(** A workload seen alive at the first three tests of the inference
    loop, and a model that asks for policy 2 every time. *)
Definition three_turns : InferenceScript.shell :=
  {| InferenceScript.kill_0 := fun t => Nat.ltb t 3;
     InferenceScript.dummy_model := fun _ => "2" |}.

(** The machine of [Examples.one_node] as the forked child sees it. *)
Definition in_child : NumaStatLogger.world :=
  {| NumaStatLogger.atof := Examples.atof_table;
     NumaStatLogger.malloc_nm := NumaStatLogger.malloc_nm Examples.one_node;
     NumaStatLogger.malloc_nv := NumaStatLogger.malloc_nv Examples.one_node;
     NumaStatLogger.stack_sv := NumaStatLogger.stack_sv Examples.one_node;
     NumaStatLogger.output := NumaStatLogger.output Examples.one_node;
     NumaStatLogger.read_file := NumaStatLogger.read_file Examples.one_node;
     NumaStatLogger.clock_gettime := NumaStatLogger.clock_gettime Examples.one_node;
     NumaStatLogger.fork := 0;
     NumaStatLogger.waitpid_nohang := fun _ => 0 |}.

Definition argv_d_2_2_7 : list string := ["./numa_stat_logger"; "1"; "2"; "-d"; "7"].

End MoreExamples.

(** * Properties *)

(** ** The node mask and the exit status of the policy invocation tool *)

Section ChangePolicyFacts.

Import ChangePolicy.

Variable word_bits : Z.
Hypothesis word_bits_ge : 32 <= word_bits.

Lemma atoi_range (s : string) :
  CInt.INT_MIN <= CStr.atoi s <= CInt.INT_MAX.
Proof.
  unfold CStr.atoi.
  destruct (CStr.read_sign _) as [neg s1].
  destruct (CStr.read_digits 0 0 s1) as [[cnt v] rest].
  unfold CInt.long_to_int, CInt.UINT_MOD, CInt.INT_MIN, CInt.INT_MAX.
  set (z := Z.max _ _).
  pose proof (Z.mod_pos_bound z 4294967296 ltac:(lia)) as Hr.
  destruct (Z.leb_spec (z mod 4294967296) 2147483647); lia.
Qed.

Lemma pow_word_bits : 4294967296 <= 2 ^ word_bits /\ word_bits < 2 ^ word_bits.
Proof.
  split.
  - change 4294967296 with (2 ^ 32). apply Z.pow_le_mono_r; lia.
  - apply Z.pow_gt_lin_r; lia.
Qed.

(** No wrap-around in the size computation for a positive [int]. *)
Lemma mask_words_small (n : Z) :
  1 <= n <= CInt.INT_MAX ->
  mask_words word_bits n = (n + word_bits - 1) / word_bits.
Proof.
  intros Hn. unfold mask_words, CInt.INT_MAX in *.
  destruct pow_word_bits as [H32 Hlin].
  rewrite Z.mod_small; [reflexivity|].
  split; [lia|].
  (* n < 2^31 and word_bits <= 2^(word_bits - 1) *)
  assert (Hhalf : 2 ^ word_bits = 2 * 2 ^ (word_bits - 1)).
  { rewrite <- Z.pow_succ_r by lia. f_equal. lia. }
  assert (2147483648 <= 2 ^ (word_bits - 1)).
  { change 2147483648 with (2 ^ 31). apply Z.pow_le_mono_r; lia. }
  assert (word_bits - 1 < 2 ^ (word_bits - 1)) by (apply Z.pow_gt_lin_r; lia).
  lia.
Qed.

Lemma mask_words_ceil (n : Z) :
  1 <= n <= CInt.INT_MAX ->
  (mask_words word_bits n - 1) * word_bits < n <= mask_words word_bits n * word_bits.
Proof.
  intros Hn. rewrite (mask_words_small n Hn).
  pose proof (Z.div_mod (n + word_bits - 1) word_bits ltac:(lia)) as Hdm.
  pose proof (Z.mod_pos_bound (n + word_bits - 1) word_bits ltac:(lia)) as Hr.
  nia.
Qed.

Lemma length_set_nodes (todo : nat) (i : Z) (nmask : list Z) :
  length (set_nodes word_bits todo i nmask) = length nmask.
Proof.
  revert i nmask. induction todo as [|todo IH]; intros i nmask; simpl.
  - reflexivity.
  - rewrite IH. unfold set_node. apply length_alter.
Qed.

Lemma testbit_one_shl (p q : Z) :
  0 <= p -> 0 <= q -> Z.testbit (Z.shiftl 1 p) q = (q =? p).
Proof.
  intros Hp Hq. rewrite Z.shiftl_spec by lia.
  destruct (Z.eqb_spec q p) as [->|Hne].
  - rewrite Z.sub_diag. reflexivity.
  - destruct (Z.ltb_spec q p).
    + apply Z.testbit_neg_r. lia.
    + replace (q - p) with (Z.succ (q - p - 1)) by lia.
      change 1 with (2 * 0 + 1) at 1.
      rewrite Z.testbit_odd_succ by lia. apply Z.testbit_0_l.
Qed.

(** Setting node [i] sets bit [i] and no other. *)
Lemma mask_bit_set_node (nmask : list Z) (i b : Z) :
  0 <= i -> 0 <= b ->
  (Z.to_nat (i / word_bits) < length nmask)%nat ->
  mask_bit word_bits (set_node word_bits nmask i) b
  = (mask_bit word_bits nmask b || (b =? i))%bool.
Proof.
  intros Hi Hb Hlen. unfold mask_bit, set_node.
  pose proof (Z.mod_pos_bound i word_bits ltac:(lia)) as Hmi.
  pose proof (Z.mod_pos_bound b word_bits ltac:(lia)) as Hmb.
  pose proof (Z.div_mod i word_bits ltac:(lia)) as Hdi.
  pose proof (Z.div_mod b word_bits ltac:(lia)) as Hdb.
  assert (0 <= i / word_bits) by (apply Z.div_pos; lia).
  assert (0 <= b / word_bits) by (apply Z.div_pos; lia).
  rewrite !nth_lookup.
  destruct (decide (Z.to_nat (i / word_bits) = Z.to_nat (b / word_bits))) as [Heq|Hne].
  - rewrite <- Heq, list_lookup_alter_eq.
    destruct (lookup_lt_is_Some_2 nmask _ Hlen) as [wd Hwd].
    rewrite Hwd. simpl.
    rewrite Z.lor_spec, testbit_one_shl by lia.
    f_equal.
    destruct (Z.eqb_spec (b mod word_bits) (i mod word_bits));
      destruct (Z.eqb_spec b i); try reflexivity; exfalso; [|subst; lia].
    assert (i / word_bits = b / word_bits) by lia. lia.
  - rewrite list_lookup_alter_ne by assumption.
    destruct (Z.eqb_spec b i) as [->|_]; [congruence|].
    rewrite orb_false_r. reflexivity.
Qed.

Lemma mask_bit_set_nodes (todo : nat) (i : Z) (nmask : list Z) (b : Z) :
  0 <= i -> 0 <= b ->
  (i + Z.of_nat todo - 1) / word_bits < Z.of_nat (length nmask) ->
  mask_bit word_bits (set_nodes word_bits todo i nmask) b
  = (mask_bit word_bits nmask b || ((i <=? b) && (b <? i + Z.of_nat todo)))%bool.
Proof.
  revert i nmask. induction todo as [|todo IH]; intros i nmask Hi Hb Hlen.
  - cbn [set_nodes].
    destruct (Z.leb_spec i b), (Z.ltb_spec b (i + Z.of_nat 0));
      simpl; rewrite ?orb_false_r; try reflexivity; lia.
  - cbn [set_nodes].
    assert (Hdiv : i / word_bits <= (i + Z.of_nat (S todo) - 1) / word_bits)
      by (apply Z.div_le_mono; lia).
    assert (0 <= i / word_bits) by (apply Z.div_pos; lia).
    rewrite IH; [| lia | lia |].
    + rewrite mask_bit_set_node by lia.
      rewrite <- orb_assoc. f_equal.
      destruct (Z.eqb_spec b i), (Z.leb_spec (i + 1) b), (Z.leb_spec i b),
        (Z.ltb_spec b (i + 1 + Z.of_nat todo)), (Z.ltb_spec b (i + Z.of_nat (S todo)));
        simpl; try reflexivity; lia.
    + unfold set_node. rewrite length_alter.
      replace (i + 1 + Z.of_nat todo - 1) with (i + Z.of_nat (S todo) - 1) by lia.
      assumption.
Qed.

Lemma mask_bit_zeroed (n : nat) (b : Z) :
  mask_bit word_bits (replicate n 0) b = false.
Proof.
  unfold mask_bit. rewrite nth_lookup.
  destruct (replicate n 0 !! _) as [wd|] eqn:E; simpl.
  - apply lookup_replicate in E as [-> _]. apply Z.testbit_0_l.
  - apply Z.testbit_0_l.
Qed.

(** The mask built for a positive [nodecount]. *)
Lemma fill_mask_spec (n : Z) :
  1 <= n <= CInt.INT_MAX ->
  let nmask := fill_mask word_bits n (replicate (Z.to_nat (mask_words word_bits n)) 0) in
  Z.of_nat (length nmask) = mask_words word_bits n /\
  forall b, 0 <= b -> mask_bit word_bits nmask b = (b <? n).
Proof.
  intros Hn nmask. subst nmask. unfold fill_mask.
  pose proof (mask_words_ceil n Hn) as Hceil.
  assert (Hw : 0 <= mask_words word_bits n) by nia.
  split.
  - rewrite length_set_nodes, length_replicate. lia.
  - intros b Hb. rewrite mask_bit_set_nodes; [| lia | lia |].
    + rewrite mask_bit_zeroed. simpl.
      destruct (Z.leb_spec 0 b), (Z.ltb_spec b (0 + Z.of_nat (Z.to_nat n))), (Z.ltb_spec b n);
        simpl; try reflexivity; lia.
    + rewrite length_replicate, Z2Nat.id by lia.
      apply Z.div_lt_upper_bound; lia.
Qed.

(** C5.  For a node count [n >= 1], the mask handed to the system call
    has [ceil (n / word_bits)] words (the least number of words with at
    least [n] bits), bits [0 .. n-1] set and no bit from [n] on set. *)
Theorem nodemask_low_bits_set (o : os) (argv : list string)
        (nr pid mode : Z) (nmask : list Z) (n : Z) :
  In (Syscall nr pid mode nmask n) (trace (main word_bits o argv)) ->
  1 <= n ->
  (Z.of_nat (length nmask) - 1) * word_bits < n <= Z.of_nat (length nmask) * word_bits
  /\ forall b, 0 <= b -> (mask_bit word_bits nmask b = true <-> b < n).
Proof.
  unfold main. intros Hin Hn.
  destruct (Z.of_nat (length argv) <? 4).
  { simpl in Hin. destruct Hin as [Hin|[]]. discriminate Hin. }
  unfold calloc in Hin.
  destruct (calloc_ok o _).
  2:{ simpl in Hin. destruct Hin as [Hin|[]]. discriminate Hin. }
  simpl in Hin. destruct Hin as [Hin|[Hin|[Hin|[]]]].
  2:{ destruct (negb _); discriminate Hin. }
  2:{ discriminate Hin. }
  injection Hin as _ _ _ Hmask Hcount.
  pose proof (atoi_range (nth 3 argv EmptyString)) as Hrange.
  rewrite Hcount in *.
  destruct (fill_mask_spec n ltac:(lia)) as [Hlen Hbits].
  rewrite Hmask in Hlen, Hbits.
  split.
  - rewrite Hlen. apply mask_words_ceil. lia.
  - intros b Hb. rewrite (Hbits b Hb). apply Z.ltb_lt.
Qed.

End ChangePolicyFacts.

Lemma nodemask_low_bits_set_witness :
  (Z.of_nat (length [18446744073709551615; 63]) - 1) * 64 < 70
    <= Z.of_nat (length [18446744073709551615; 63]) * 64
  /\ forall b, 0 <= b ->
       (ChangePolicy.mask_bit 64 [18446744073709551615; 63] b = true <-> b < 70).
Proof.
  apply (nodemask_low_bits_set 64 ltac:(lia) Examples.os_enosys
           Examples.change_policy_argv 470 4242 2).
  - simpl. left. reflexivity.
  - lia.
Defined.

(** C4.  With at least three arguments and the mask allocated, a request
    that fails is reported through [perror] on standard error, no success
    message is printed, the mask is freed and the exit status is still 0. *)
Theorem failed_request_exits_zero (word_bits : Z) (o : ChangePolicy.os)
        (argv : list string) :
  (4 <= length argv)%nat ->
  ChangePolicy.calloc_ok o
    (ChangePolicy.mask_words word_bits (CStr.atoi (nth 3 argv EmptyString))) = true ->
  (forall nmask,
      ChangePolicy.syscall o ChangePolicy.__NR_my_new_syscall
        (CStr.atoi (nth 1 argv EmptyString)) (CStr.atoi (nth 2 argv EmptyString))
        nmask (CStr.atoi (nth 3 argv EmptyString)) <> 0) ->
  let r := ChangePolicy.main word_bits o argv in
  ChangePolicy.exit_code r = 0
  /\ In (ChangePolicy.Perror "syscall") (ChangePolicy.trace r)
  /\ (forall text, ~ In (ChangePolicy.Stdout text) (ChangePolicy.trace r))
  /\ exists nmask,
       ChangePolicy.trace r
       = [ChangePolicy.Syscall 470 (CStr.atoi (nth 1 argv EmptyString)) (CStr.atoi (nth 2 argv EmptyString))
                               nmask (CStr.atoi (nth 3 argv EmptyString));
          ChangePolicy.Perror "syscall"; ChangePolicy.Free].
Proof.
  intros Hargc Halloc Hfail r. subst r. unfold ChangePolicy.main.
  destruct (Z.ltb_spec (Z.of_nat (length argv)) 4) as [Hlt|_]; [lia|].
  unfold ChangePolicy.calloc. rewrite Halloc.
  match goal with
  | |- context [ChangePolicy.syscall o ?a ?b ?c ?d ?e] =>
      pose proof (Hfail d) as Hret;
      destruct (Z.eqb_spec (ChangePolicy.syscall o a b c d e) 0) as [Hz|_];
      [contradiction|]
  end.
  cbn [negb ChangePolicy.exit_code ChangePolicy.trace].
  repeat split.
  - simpl. auto.
  - intros text [H|[H|[H|[]]]]; discriminate H.
  - eexists. reflexivity.
Qed.

Lemma failed_request_exits_zero_witness :
  let r := ChangePolicy.main 64 Examples.os_enosys Examples.change_policy_argv in
  ChangePolicy.exit_code r = 0
  /\ In (ChangePolicy.Perror "syscall") (ChangePolicy.trace r)
  /\ (forall text, ~ In (ChangePolicy.Stdout text) (ChangePolicy.trace r))
  /\ exists nmask,
       ChangePolicy.trace r
       = [ChangePolicy.Syscall 470 4242 2 nmask 70;
          ChangePolicy.Perror "syscall"; ChangePolicy.Free].
Proof.
  apply (failed_request_exits_zero 64 Examples.os_enosys Examples.change_policy_argv).
  - simpl. lia.
  - reflexivity.
  - intros. simpl. lia.
Defined.

(** ** Text: separators, decimal numbers *)

Section TextFacts.

Import CStr NumaStatLogger.

Lemma append_assoc (a b c : string) : ((a ++ b) ++ c = a ++ (b ++ c))%string.
Proof. induction a as [|x a IH]; simpl; [reflexivity | now rewrite IH]. Qed.

Lemma append_nil_r (a : string) : (a ++ EmptyString)%string = a.
Proof. induction a as [|x a IH]; simpl; [reflexivity | now rewrite IH]. Qed.

Lemma length_append (a b : string) :
  String.length (a ++ b) = (String.length a + String.length b)%nat.
Proof. induction a as [|x a IH]; simpl; [reflexivity | now rewrite IH]. Qed.

Lemma count_char_app (c : ascii) (a b : string) :
  count_char c (a ++ b) = (count_char c a + count_char c b)%nat.
Proof.
  induction a as [|x a IH]; simpl; [reflexivity|].
  destruct (Ascii.eqb x c); simpl; now rewrite IH.
Qed.

Lemma split_on_cons (sep : ascii) (s : string) :
  exists f fs, split_on sep s = f :: fs.
Proof.
  destruct s as [|c s]; simpl; [now eauto|].
  destruct (Ascii.eqb c sep); [now eauto|].
  destruct (split_on sep s); eauto.
Qed.

(** One more field than separators. *)
Lemma length_split_on (sep : ascii) (s : string) :
  length (split_on sep s) = S (count_char sep s).
Proof.
  induction s as [|c s IH]; simpl; [reflexivity|].
  destruct (Ascii.eqb c sep); simpl.
  - now rewrite IH.
  - destruct (split_on_cons sep s) as (f & fs & E).
    rewrite E in *. simpl in *. exact IH.
Qed.

(** The first field ends at the first separator. *)
Lemma split_on_first (sep : ascii) (a rest : string) :
  count_char sep a = O ->
  split_on sep (a ++ String sep rest) = a :: split_on sep rest.
Proof.
  induction a as [|x a IH]; simpl; intros H.
  - now rewrite Ascii.eqb_refl.
  - destruct (Ascii.eqb x sep); [discriminate|].
    now rewrite (IH H).
Qed.

(** *** Decimal output *)

Lemma digit_char_is_digit (n : Z) : is_digit (digit_char (n mod 10)) = true.
Proof.
  pose proof (Z.mod_pos_bound n 10 ltac:(lia)) as H.
  assert (E : n mod 10 = 0 \/ n mod 10 = 1 \/ n mod 10 = 2 \/ n mod 10 = 3
              \/ n mod 10 = 4 \/ n mod 10 = 5 \/ n mod 10 = 6 \/ n mod 10 = 7
              \/ n mod 10 = 8 \/ n mod 10 = 9) by lia.
  repeat (destruct E as [E|E]; [rewrite E; reflexivity|]).
  rewrite E; reflexivity.
Qed.

Lemma digit_not_char (c x : ascii) :
  is_digit x = true -> is_digit c = false -> Ascii.eqb x c = false.
Proof.
  intros Hx Hc. destruct (Ascii.eqb_spec x c) as [->|]; congruence.
Qed.

Lemma all_digits_count (c : ascii) (s : string) :
  all_digits s = true -> is_digit c = false -> count_char c s = O.
Proof.
  intros Hs Hc. induction s as [|x s IH]; simpl in *; [reflexivity|].
  apply andb_true_iff in Hs as [Hx Hs].
  rewrite (digit_not_char c x Hx Hc). auto.
Qed.

Lemma all_digits_dec_digits (fuel : nat) (n : Z) (tail : string) :
  all_digits (dec_digits fuel n tail) = all_digits tail.
Proof.
  revert n tail. induction fuel as [|fuel IH]; intros n tail; simpl; [reflexivity|].
  destruct (n <? 10); [|rewrite IH]; simpl;
    now rewrite digit_char_is_digit.
Qed.

Lemma all_digits_fmt_nat (n : Z) : all_digits (fmt_nat n) = true.
Proof. unfold fmt_nat. now rewrite all_digits_dec_digits. Qed.

Lemma dec_digits_cons (fuel : nat) (n : Z) (tail : string) :
  exists c s, dec_digits (S fuel) n tail = String c s.
Proof.
  revert n tail. induction fuel as [|fuel IH]; intros n tail.
  - simpl. destruct (n <? 10); eauto.
  - change (dec_digits (S (S fuel)) n tail)
      with (if n <? 10 then String (digit_char (n mod 10)) tail
            else dec_digits (S fuel) (n / 10) (String (digit_char (n mod 10)) tail)).
    destruct (n <? 10); eauto.
Qed.

Lemma fmt_nat_cons (n : Z) : exists c s, fmt_nat n = String c s.
Proof. unfold fmt_nat, dec_fuel. apply dec_digits_cons. Qed.

Lemma is_decimal_fmt_d (v : Z) : is_decimal (fmt_d v) = true.
Proof.
  unfold fmt_d. destruct (v <? 0).
  - destruct (fmt_nat_cons (- v)) as (c & s & E).
    pose proof (all_digits_fmt_nat (- v)) as H. rewrite E in *. exact H.
  - destruct (fmt_nat_cons v) as (c & s & E).
    pose proof (all_digits_fmt_nat v) as H. rewrite E in *.
    simpl in H. apply andb_true_iff in H as [Hc Hs].
    unfold is_decimal.
    destruct (Ascii.eqb_spec c "-") as [->|Hne]; [discriminate Hc|].
    assert (Hall : all_digits (String c s) = true) by (simpl; now rewrite Hc, Hs).
    destruct c as [[] [] [] [] [] [] [] []]; try exact Hall; destruct s; try exact Hall;
      contradiction Hne; reflexivity.
Qed.

Lemma count_fmt_d (c : ascii) (v : Z) :
  is_digit c = false -> c <> "-"%char -> count_char c (fmt_d v) = O.
Proof.
  intros Hc Hm. unfold fmt_d. destruct (v <? 0).
  - cbn [count_char]. destruct (Ascii.eqb_spec "-"%char c) as [E|_]; [congruence|].
    apply all_digits_count; [apply all_digits_fmt_nat | assumption].
  - apply all_digits_count; [apply all_digits_fmt_nat | assumption].
Qed.

Lemma count_fmt_u (c : ascii) (v : Z) :
  is_digit c = false -> count_char c (fmt_u v) = O.
Proof. intros Hc. apply all_digits_count; [apply all_digits_fmt_nat | assumption]. Qed.

(** A number below [10^k] has at most [k] digits. *)
Lemma length_dec_digits (fuel k : nat) (n : Z) (tail : string) :
  0 <= n < 10 ^ Z.of_nat (S k) ->
  (String.length (dec_digits fuel n tail) <= S k + String.length tail)%nat.
Proof.
  revert k n tail. induction fuel as [|fuel IH]; intros k n tail Hn; simpl; [lia|].
  destruct (Z.ltb_spec n 10) as [Hlt|Hge]; simpl; [lia|].
  destruct k as [|k].
  { change (10 ^ Z.of_nat 1) with 10 in Hn. lia. }
  assert (Hdiv : 0 <= n / 10 < 10 ^ Z.of_nat (S k)).
  { split; [apply Z.div_pos; lia|].
    apply Z.div_lt_upper_bound; [lia|].
    replace (Z.of_nat (S (S k))) with (Z.succ (Z.of_nat (S k))) in Hn by lia.
    rewrite Z.pow_succ_r in Hn by lia. lia. }
  specialize (IH k (n / 10) (String (digit_char (n mod 10)) tail) Hdiv).
  simpl in IH. lia.
Qed.

Lemma length_zeros (k : nat) (s : string) :
  String.length (zeros k s) = (k + String.length s)%nat.
Proof. induction k as [|k IH]; simpl; [reflexivity | now rewrite IH]. Qed.

Lemma all_digits_zeros (k : nat) (s : string) :
  all_digits (zeros k s) = all_digits s.
Proof. induction k as [|k IH]; simpl; [reflexivity | exact IH]. Qed.

(** [%09ld] of a nanosecond count: exactly nine digits. *)
Lemma fmt_09_nanoseconds (nsec : Z) :
  0 <= nsec < 1000000000 ->
  String.length (fmt_0d 9 nsec) = 9%nat /\ all_digits (fmt_0d 9 nsec) = true.
Proof.
  intros H. unfold fmt_0d.
  destruct (Z.ltb_spec nsec 0) as [Hneg|_]; [lia|].
  assert (Hlen : (String.length (fmt_nat nsec) <= 9)%nat).
  { unfold fmt_nat.
    assert (Hp : 0 <= nsec < 10 ^ Z.of_nat 9)
      by (change (10 ^ Z.of_nat 9) with 1000000000; lia).
    pose proof (length_dec_digits (dec_fuel nsec) 8 nsec EmptyString Hp) as L.
    cbn [String.length] in L. lia. }
  split.
  - rewrite length_zeros. lia.
  - rewrite all_digits_zeros. apply all_digits_fmt_nat.
Qed.

Lemma timestamp_format (tv_sec tv_nsec : Z) :
  0 <= tv_nsec < 1000000000 -> is_timestamp (timestamp tv_sec tv_nsec).
Proof.
  intros H. exists (fmt_d tv_sec), (fmt_0d 9 tv_nsec).
  destruct (fmt_09_nanoseconds tv_nsec H) as [Hl Hd].
  repeat split; try assumption. apply is_decimal_fmt_d.
Qed.

Lemma count_comma_timestamp (tv_sec tv_nsec : Z) :
  0 <= tv_nsec < 1000000000 -> count_char "," (timestamp tv_sec tv_nsec) = O.
Proof.
  intros H. unfold timestamp.
  rewrite !count_char_app, count_fmt_d by (reflexivity || discriminate).
  simpl. apply all_digits_count; [|reflexivity].
  apply (fmt_09_nanoseconds tv_nsec H).
Qed.

End TextFacts.

(** ** The logger: rows and header *)

Section RowFacts.

Import CStr NumaStatLogger.

Lemma count_header_mem (todo : nat) (i : Z) :
  count_char "," (header_mem todo i) = (2 * todo)%nat.
Proof.
  revert i. induction todo as [|todo IH]; intros i; [reflexivity|].
  cbn [header_mem].
  rewrite !count_char_app, !count_fmt_d, IH by (reflexivity || discriminate).
  simpl. lia.
Qed.

Lemma count_header_vm (todo : nat) (i : Z) :
  count_char "," (header_vm todo i) = (7 * todo)%nat.
Proof.
  revert i. induction todo as [|todo IH]; intros i; [reflexivity|].
  cbn [header_vm].
  rewrite !count_char_app, !count_fmt_d, IH by (reflexivity || discriminate).
  simpl. lia.
Qed.

Lemma fields_header (numa_count : Z) :
  length (fields (header_fields numa_count))
  = (1 + 2 * Z.to_nat numa_count + 7 * Z.to_nat numa_count + 8)%nat.
Proof.
  unfold fields, header_fields. rewrite length_split_on.
  rewrite !count_char_app, count_header_mem, count_header_vm.
  simpl. lia.
Qed.

Lemma count_row_mem (nm : list node_meminfo) :
  count_char "," (row_mem nm) = (2 * length nm)%nat.
Proof.
  induction nm as [|r nm IH]; [reflexivity|].
  cbn [row_mem length].
  rewrite !count_char_app, !count_fmt_u, IH by reflexivity.
  simpl. lia.
Qed.

Lemma count_row_vm (nv : list node_vmstat) :
  count_char "," (row_vm nv) = (7 * length nv)%nat.
Proof.
  induction nv as [|r nv IH]; [reflexivity|].
  cbn [row_vm length].
  rewrite !count_char_app, !count_fmt_u, IH by reflexivity.
  simpl. lia.
Qed.

Lemma count_row_sys (sv : sys_vmstat) : count_char "," (row_sys sv) = 8%nat.
Proof.
  unfold row_sys.
  rewrite !count_char_app, !count_fmt_u by reflexivity.
  reflexivity.
Qed.

Lemma row_tail_comma (nm : list node_meminfo) (nv : list node_vmstat) (sv : sys_vmstat) :
  exists rest, (row_mem nm ++ row_vm nv ++ row_sys sv)%string = String "," rest.
Proof. destruct nm, nv; simpl; eauto. Qed.

(** A row of well-sized arrays is a line of [n] nodes. *)
Lemma row_fields_ok (n : nat) (ts : Z * Z) (nm : list node_meminfo)
      (nv : list node_vmstat) (sv : sys_vmstat) :
  0 <= snd ts < 1000000000 ->
  length nm = n -> length nv = n ->
  row_ok n (row_fields ts nm nv sv ++ endl).
Proof.
  intros Hts Hnm Hnv. exists (row_fields ts nm nv sv).
  split; [reflexivity|]. split.
  - unfold fields, row_fields. rewrite length_split_on.
    rewrite !count_char_app, count_comma_timestamp, count_row_mem,
      count_row_vm, count_row_sys by assumption.
    lia.
  - exists (timestamp (fst ts) (snd ts)). split.
    + unfold fields, row_fields.
      destruct (row_tail_comma nm nv sv) as [rest ->].
      rewrite split_on_first by (now apply count_comma_timestamp).
      reflexivity.
    + now apply timestamp_format.
Qed.

Lemma length_parse_nodes (fopen : reader) (todo : nat) (i : Z)
      (nm : list node_meminfo) (nv : list node_vmstat) :
  length (fst (parse_nodes fopen todo i nm nv)) = length nm
  /\ length (snd (parse_nodes fopen todo i nm nv)) = length nv.
Proof.
  revert i nm nv. induction todo as [|todo IH]; intros i nm nv; simpl.
  - split; reflexivity.
  - destruct (IH (i + 1)
                (alter (fun r => parse_node_meminfo fopen r (meminfo_path i) i)
                       (Z.to_nat i) nm)
                (alter (fun r => parse_node_vmstat fopen r (vmstat_path i))
                       (Z.to_nat i) nv)) as [H1 H2].
    rewrite H1, H2, !length_alter. split; reflexivity.
Qed.

Lemma rows_app (a b : list event) : rows (a ++ b)%list = (rows a ++ rows b)%list.
Proof.
  induction a as [|e a IH]; simpl; [reflexivity|].
  destruct e; simpl; now rewrite ?IH.
Qed.

Lemma headers_app (a b : list event) : headers (a ++ b)%list = (headers a + headers b)%nat.
Proof.
  induction a as [|e a IH]; simpl; [reflexivity|].
  destruct e; simpl; now rewrite ?IH.
Qed.

Lemma polls_app (a b : list event) : polls (a ++ b)%list = (polls a ++ polls b)%list.
Proof.
  induction a as [|e a IH]; simpl; [reflexivity|].
  destruct e; simpl; now rewrite ?IH.
Qed.

Lemma flatten_app (a b : list string) :
  flatten (a ++ b)%list = (flatten a ++ flatten b)%string.
Proof.
  induction a as [|x a IH]; simpl; [reflexivity|].
  now rewrite IH, append_assoc.
Qed.

End RowFacts.

(** ** The logger: from the command line to the sampling loop *)

Section MainFacts.

Import CStr NumaStatLogger.

Lemma main_run_mode (fuel : nat) (w : world) (argv : list string) :
  run_mode_args w argv ->
  main fuel w argv
  = run fuel w (atoi (nth 1 argv EmptyString)) (atof w (nth 2 argv EmptyString)) false 0 true
        (skipn 4 argv).
Proof.
  intros (Hargc & Hn & Hiv & Hmode). unfold main.
  destruct (Z.ltb_spec (Z.of_nat (length argv)) 4); [lia|].
  destruct (Z.leb_spec (atoi (nth 1 argv EmptyString)) 0); [lia|].
  rewrite Hiv, Hmode. cbn [String.eqb Ascii.eqb Bool.eqb].
  destruct (Z.ltb_spec (Z.of_nat (length argv)) 5); [lia|].
  reflexivity.
Qed.

Lemma main_duration_mode (fuel : nat) (w : world) (argv : list string) :
  duration_mode_args w argv ->
  main fuel w argv
  = match Double.to_int (Double.div (Double.of_int (atoi (nth 4 argv EmptyString)))
                                    (atof w (nth 2 argv EmptyString))) with
    | None => Undefined (csv_text (output w)) []
    | Some iterations =>
        run fuel w (atoi (nth 1 argv EmptyString)) (atof w (nth 2 argv EmptyString)) true
            iterations false []
    end.
Proof.
  intros (Hargc & Hn & Hiv & Hmode & Hd). unfold main.
  destruct (Z.ltb_spec (Z.of_nat (length argv)) 4); [lia|].
  destruct (Z.leb_spec (atoi (nth 1 argv EmptyString)) 0); [lia|].
  rewrite Hiv, Hmode. cbn [String.eqb Ascii.eqb Bool.eqb].
  destruct (Z.ltb_spec (Z.of_nat (length argv)) 5); [lia|].
  destruct (Z.leb_spec (atoi (nth 4 argv EmptyString)) 0); [lia|].
  reflexivity.
Qed.

(** Whatever the command line, [main] either stops before the file is
    touched, or goes on as [run] with a positive node count. *)
Lemma main_cases (fuel : nat) (w : world) (argv : list string) :
  (exists tr, (main fuel w argv = Exit 1 (csv_text (output w)) tr
               \/ main fuel w argv = Undefined (csv_text (output w)) tr)
              /\ rows tr = [] /\ headers tr = O)
  \/ (exists use_duration iterations use_run run_argv,
        0 < atoi (nth 1 argv EmptyString)
        /\ main fuel w argv
           = run fuel w (atoi (nth 1 argv EmptyString)) (atof w (nth 2 argv EmptyString))
                 use_duration iterations use_run run_argv).
Proof.
  unfold main.
  destruct (Z.of_nat (length argv) <? 4); [left; eexists; split; [left; reflexivity | split; reflexivity]|].
  destruct (Z.leb_spec (atoi (nth 1 argv EmptyString)) 0);
    [left; eexists; split; [left; reflexivity | split; reflexivity]|].
  destruct (Double.le _ _);
    [left; eexists; split; [left; reflexivity | split; reflexivity]|].
  destruct (String.eqb (nth 3 argv EmptyString) "-d").
  - destruct (Z.of_nat (length argv) <? 5);
      [left; eexists; split; [left; reflexivity | split; reflexivity]|].
    destruct (atoi (nth 4 argv EmptyString) <=? 0);
      [left; eexists; split; [left; reflexivity | split; reflexivity]|].
    destruct (Double.to_int _);
      [|left; eexists; split; [right; reflexivity | split; reflexivity]].
    right. do 4 eexists. split; [assumption | reflexivity].
  - destruct (String.eqb (nth 3 argv EmptyString) "-r");
      [|left; eexists; split; [left; reflexivity | split; reflexivity]].
    destruct (Z.of_nat (length argv) <? 5);
      [left; eexists; split; [left; reflexivity | split; reflexivity]|].
    right. do 4 eexists. split; [assumption | reflexivity].
Qed.

(** With the arrays allocated and the file open, the parent enters the
    loop. *)
Lemma run_enters_loop (fuel : nat) (w : world) (numa_count : Z)
      (interval_sec : Double.double) (use_duration : bool) (iterations : Z)
      (use_run : bool) (run_argv : list string) :
  resources_ok w = true ->
  (use_run = true -> fork w <> 0) ->
  exists block_nm block_nv text fresh,
    malloc_nm w = Some block_nm /\ malloc_nv w = Some block_nv
    /\ write_csv_header (output w) csv_file numa_count = Some (text, fresh)
    /\ run fuel w numa_count interval_sec use_duration iterations use_run run_argv
       = match sampling w numa_count interval_sec use_duration iterations use_run
                        fuel 0
                        (entry_state w numa_count use_run block_nm block_nv text fresh) with
         | Done st => Exit 0 (Some (csv st))
                           (trace st ++ (if use_run then [Wait] else []))
         | Undef st => Undefined (Some (csv st)) (trace st)
         | NoFuel st => Sampling (Some (csv st)) (trace st)
         end.
Proof.
  unfold resources_ok, run. intros Hres Hfork.
  destruct (malloc_nm w) as [block_nm|]; [|discriminate].
  destruct (malloc_nv w) as [block_nv|]; [|discriminate].
  apply andb_true_iff in Hres as [Hw Ha].
  assert (Hhdr : exists text fresh,
             write_csv_header (output w) csv_file numa_count = Some (text, fresh)).
  { unfold write_csv_header. destruct (fopen_r (output w)); [eauto|].
    rewrite Hw. eauto. }
  destruct Hhdr as (text & fresh & Hhdr).
  exists block_nm, block_nv, text, fresh. rewrite Hhdr, Ha.
  repeat split.
  destruct use_run; [|reflexivity].
  destruct (Z.eqb_spec (fork w) 0) as [E|_]; [now destruct (Hfork eq_refl)|].
  reflexivity.
Qed.

End MainFacts.

(** ** The logger: what the sampling loop keeps *)

Section LoopFacts.

Import CStr NumaStatLogger.

Variable w : world.
Variable numa_count : Z.
Variable interval_sec : Double.double.
Variable use_duration : bool.
Variable iterations : Z.
Variable use_run : bool.

Local Abbreviation sampling' := (sampling w numa_count interval_sec use_duration iterations use_run).

(** What a round and the bookkeeping after it keep, the loop keeps. *)
Lemma sampling_keeps (I : state -> Prop) :
  (forall t st, I st -> I (sample w numa_count t st)) ->
  (forall tv_sec tv_nsec st, I st -> I (log (Nanosleep tv_sec tv_nsec) st)) ->
  (forall ret st, I st -> I (log (Poll ret) st)) ->
  forall fuel t st, I st -> I (end_state (sampling' fuel t st)).
Proof.
  intros Hsample Hsleep Hpoll.
  induction fuel as [|fuel IH]; intros t st Hst; cbn [sampling]; [exact Hst|].
  destruct (if use_duration then _ else true); [|exact Hst].
  destruct (Double.to_long _) as [nsec|]; [|apply Hsample, Hst].
  destruct use_run.
  - destruct (negb _); [apply Hpoll, Hsleep, Hsample, Hst|].
    apply IH, Hpoll, Hsleep, Hsample, Hst.
  - apply IH, Hsleep, Hsample, Hst.
Qed.

Lemma sample_fields (t : nat) (st : state) :
  exists nm' nv' sv',
    length nm' = length (nm st) /\ length nv' = length (nv st)
    /\ sample w numa_count t st
       = {| nm := nm'; nv := nv'; sv := sv';
            csv := csv st ++ (row_fields (clock_gettime w t) nm' nv' sv' ++ endl);
            trace := trace st ++ [Row (row_fields (clock_gettime w t) nm' nv' sv' ++ endl);
                                  Flush] |}.
Proof.
  unfold sample.
  pose proof (length_parse_nodes (read_file w t) (Z.to_nat numa_count) 0 (nm st) (nv st))
    as [H1 H2].
  destruct (parse_nodes _ _ _ _ _) as [nm' nv']. simpl in H1, H2.
  eexists nm', nv', _. repeat split; assumption.
Qed.

(** Every row of the loop is a line of [n] nodes. *)
Lemma sampling_rows_ok (n : nat) (fuel t : nat) (st : state) :
  (forall t, 0 <= snd (clock_gettime w t) < 1000000000) ->
  length (nm st) = n -> length (nv st) = n ->
  Forall (row_ok n) (rows (trace st)) ->
  Forall (row_ok n) (rows (trace (end_state (sampling' fuel t st)))).
Proof.
  intros Hclock Hnm Hnv Hrows.
  apply (sampling_keeps
           (fun st => length (nm st) = n /\ length (nv st) = n
                      /\ Forall (row_ok n) (rows (trace st)))).
  - intros t' st' (H1 & H2 & H3).
    destruct (sample_fields t' st') as (nm' & nv' & sv' & L1 & L2 & ->).
    cbn [nm nv trace]. repeat split; try congruence.
    rewrite rows_app. apply Forall_app. split; [assumption|].
    cbn [rows]. constructor; [|constructor].
    apply row_fields_ok; [apply Hclock | congruence | congruence].
  - intros a b st' (H1 & H2 & H3). cbn. repeat split; try assumption.
    rewrite rows_app, app_nil_r. assumption.
  - intros r st' (H1 & H2 & H3). cbn. repeat split; try assumption.
    rewrite rows_app, app_nil_r. assumption.
  - repeat split; assumption.
Qed.

(** The file grows by the rows of the trace; no header comes from the loop. *)
Lemma sampling_appends (base : string) (h : nat) (fuel t : nat) (st : state) :
  csv st = (base ++ flatten (rows (trace st)))%string ->
  headers (trace st) = h ->
  let st' := end_state (sampling' fuel t st) in
  csv st' = (base ++ flatten (rows (trace st')))%string /\ headers (trace st') = h.
Proof.
  intros Hcsv Hh.
  apply (sampling_keeps
           (fun st => csv st = (base ++ flatten (rows (trace st)))%string
                      /\ headers (trace st) = h)).
  - intros t' st' (H1 & H2).
    destruct (sample_fields t' st') as (nm' & nv' & sv' & _ & _ & ->).
    cbn [csv trace]. split.
    + rewrite rows_app, flatten_app, H1. cbn [rows flatten].
      now rewrite append_nil_r, append_assoc.
    + rewrite headers_app, H2. simpl. lia.
  - intros a b st' (H1 & H2). cbn. split.
    + rewrite rows_app, app_nil_r. assumption.
    + rewrite headers_app, H2. simpl. lia.
  - intros r st' (H1 & H2). cbn. split.
    + rewrite rows_app, app_nil_r. assumption.
    + rewrite headers_app, H2. simpl. lia.
  - split; assumption.
Qed.

(** The loop only adds to the trace. *)
Lemma sampling_extends (fuel t : nat) (st : state) :
  exists more, trace (end_state (sampling' fuel t st)) = (trace st ++ more)%list.
Proof.
  apply (sampling_keeps (fun st' => exists more, trace st' = (trace st ++ more)%list)).
  - intros t' st' [more H].
    destruct (sample_fields t' st') as (nm' & nv' & sv' & _ & _ & ->).
    cbn [trace]. rewrite H, <- app_assoc. eauto.
  - intros a b st' [more H]. cbn. rewrite H, <- app_assoc. eauto.
  - intros r st' [more H]. cbn. rewrite H, <- app_assoc. eauto.
  - exists []. now rewrite app_nil_r.
Qed.

End LoopFacts.

(** ** The logger: header and rows of a whole run *)

Section RunFacts.

Import CStr NumaStatLogger.

(** [run] stops with status 1 before any row, or is the forked child, or
    enters the loop. *)
Lemma run_cases (fuel : nat) (w : world) (numa_count : Z)
      (interval_sec : Double.double) (use_duration : bool) (iterations : Z)
      (use_run : bool) (run_argv : list string) :
  let r := run fuel w numa_count interval_sec use_duration iterations use_run run_argv in
  (exists c tr, r = Exit 1 c tr /\ rows tr = [])
  \/ r = Exec run_argv
  \/ exists block_nm block_nv text fresh,
       write_csv_header (output w) csv_file numa_count = Some (text, fresh)
       /\ r = match sampling w numa_count interval_sec use_duration iterations use_run
                             fuel 0
                             (entry_state w numa_count use_run block_nm block_nv text fresh) with
              | Done st => Exit 0 (Some (csv st))
                                (trace st ++ (if use_run then [Wait] else []))
              | Undef st => Undefined (Some (csv st)) (trace st)
              | NoFuel st => Sampling (Some (csv st)) (trace st)
              end.
Proof.
  unfold run.
  destruct (malloc_nm w) as [block_nm|]; [|left; eauto].
  destruct (malloc_nv w) as [block_nv|]; [|left; eauto].
  destruct (write_csv_header _ _ _) as [[text fresh]|]; [|left; eauto].
  destruct (negb (fopen_a_ok (output w))).
  { left. do 2 eexists. split; [reflexivity|]. now destruct fresh. }
  destruct (use_run && (fork w =? 0))%bool; [right; left; reflexivity|].
  right; right. exists block_nm, block_nv, text, fresh. split; reflexivity.
Qed.

Lemma entry_state_rows (w : world) (numa_count : Z) (use_run : bool)
      (block_nm : nat -> node_meminfo) (block_nv : nat -> node_vmstat)
      (text : string) (fresh : bool) :
  let st := entry_state w numa_count use_run block_nm block_nv text fresh in
  rows (trace st) = []
  /\ headers (trace st) = (if fresh then 1 else 0)%nat
  /\ length (nm st) = Z.to_nat numa_count
  /\ length (nv st) = Z.to_nat numa_count.
Proof.
  cbn. rewrite !length_map, !length_seq.
  destruct fresh, use_run; repeat split; reflexivity.
Qed.

Lemma run_rows_ok (fuel : nat) (w : world) (numa_count : Z)
      (interval_sec : Double.double) (use_duration : bool) (iterations : Z)
      (use_run : bool) (run_argv : list string) :
  (forall t, 0 <= snd (clock_gettime w t) < 1000000000) ->
  Forall (row_ok (Z.to_nat numa_count))
         (rows (trace_of (run fuel w numa_count interval_sec use_duration
                              iterations use_run run_argv))).
Proof.
  intros Hclock.
  destruct (run_cases fuel w numa_count interval_sec use_duration iterations
                      use_run run_argv)
    as [(c & tr & -> & Hrows) | [-> | (bnm & bnv & text & fresh & _ & ->)]].
  - cbn. rewrite Hrows. constructor.
  - constructor.
  - destruct (entry_state_rows w numa_count use_run bnm bnv text fresh)
      as (Hr & _ & Hnm & Hnv).
    pose proof (sampling_rows_ok w numa_count interval_sec use_duration iterations
                  use_run (Z.to_nat numa_count) fuel 0 _ Hclock Hnm Hnv) as H.
    rewrite Hr in H. specialize (H ltac:(constructor)).
    destruct (sampling _ _ _ _ _ _ _ _ _) as [st|st|st]; cbn in *; try assumption.
    rewrite rows_app. destruct use_run; cbn; now rewrite app_nil_r.
Qed.

(** C7.  Every row of a run started with [numa_count] has
    [1 + 2 * numa_count + 7 * numa_count + 8] comma-separated fields, as
    many as the header for that [numa_count], and its first field is the
    timestamp [<seconds>.<nine digits>]. *)
Theorem rows_match_header (fuel : nat) (w : world) (argv : list string) :
  (forall t, 0 <= snd (clock_gettime w t) < 1000000000) ->
  let numa_count := atoi (nth 1 argv EmptyString) in
  let n := Z.to_nat numa_count in
  Forall (row_ok n) (rows (trace_of (main fuel w argv)))
  /\ length (fields (header_fields numa_count)) = (1 + 2 * n + 7 * n + 8)%nat.
Proof.
  intros Hclock numa_count n. split; [|apply fields_header].
  destruct (main_cases fuel w argv)
    as [(tr & [-> | ->] & Hrows & _) | (ud & it & ur & ra & _ & ->)].
  - cbn. rewrite Hrows. constructor.
  - cbn. rewrite Hrows. constructor.
  - now apply run_rows_ok.
Qed.

(** X23.  A run that completes (or is still sampling) on a log that can
    be opened for reading leaves the old text followed by its rows and
    writes no header, whatever the old text is; on a log that cannot be
    opened for reading, because it is missing or may not be read, it
    leaves one header followed by its rows and nothing else. *)
Theorem header_only_on_fresh_path (fuel : nat) (w : world) (argv : list string) :
  in_order (main fuel w argv) = true ->
  let tr := trace_of (main fuel w argv) in
  match fopen_r (output w) with
  | None =>
      csv_of (main fuel w argv)
      = Some (header_fields (atoi (nth 1 argv EmptyString)) ++ endl ++ flatten (rows tr))%string
      /\ headers tr = 1%nat
  | Some text =>
      csv_of (main fuel w argv) = Some (text ++ flatten (rows tr))%string
      /\ headers tr = 0%nat
  end.
Proof.
  intros Hmain tr. subst tr.
  destruct (main_cases fuel w argv)
    as [(tr' & [E | E] & _) | (ud & it & ur & ra & _ & E)].
  { rewrite E in Hmain. discriminate. }
  { rewrite E in Hmain. discriminate. }
  rewrite E in *. clear E.
  destruct (run_cases fuel w (atoi (nth 1 argv EmptyString)) (atof w (nth 2 argv EmptyString)) ud it ur ra)
    as [(c & tr' & E & _) | [E | (bnm & bnv & text & fresh & Hhdr & E)]].
  { rewrite E in Hmain. discriminate. }
  { rewrite E in Hmain. discriminate. }
  rewrite E in *. clear E.
  destruct (entry_state_rows w (atoi (nth 1 argv EmptyString)) ur bnm bnv text fresh)
    as (Hr & Hh & _ & _).
  pose proof (sampling_appends w (atoi (nth 1 argv EmptyString)) (atof w (nth 2 argv EmptyString)) ud it ur
                text (if fresh then 1 else 0)%nat fuel 0
                (entry_state w (atoi (nth 1 argv EmptyString)) ur bnm bnv text fresh)) as Hinv.
  rewrite Hr in Hinv. cbn [flatten] in Hinv. rewrite append_nil_r in Hinv.
  specialize (Hinv eq_refl Hh). cbn zeta in Hinv. destruct Hinv as [Hcsv Hheaders].
  match goal with
  | |- context [csv_of ?o] =>
      assert (Hfinal : csv_of o = Some (text ++ flatten (rows (trace_of o)))%string
                       /\ headers (trace_of o) = (if fresh then 1 else 0)%nat)
  end.
  { destruct (sampling _ _ _ _ _ _ _ _ _) as [st|st|st]; cbn [end_state] in *.
    - cbn [csv_of trace_of].
      rewrite rows_app, headers_app, Hcsv, Hheaders.
      destruct ur; cbn; rewrite app_nil_r; split; (reflexivity || lia).
    - discriminate.
    - cbn [csv_of trace_of]. rewrite Hcsv. split; [reflexivity | assumption]. }
  destruct Hfinal as [-> ->].
  unfold write_csv_header in Hhdr.
  destruct (fopen_r (output w)) as [old|].
  - assert (E : text = old /\ fresh = false) by (split; congruence).
    destruct E as [-> ->]. split; reflexivity.
  - destruct (fopen_w_ok (output w)); [|discriminate].
    assert (E : text = (header_fields (atoi (nth 1 argv EmptyString)) ++ endl)%string
                /\ fresh = true) by (split; congruence).
    destruct E as [-> ->]. rewrite append_assoc. split; reflexivity.
Qed.

End RunFacts.

Lemma rows_match_header_witness :
  let numa_count := CStr.atoi (nth 1 Examples.argv_d_2_01_1 EmptyString) in
  let n := Z.to_nat numa_count in
  Forall (NumaStatLogger.row_ok n)
         (NumaStatLogger.rows
            (NumaStatLogger.trace_of
               (NumaStatLogger.main 20 Examples.one_node Examples.argv_d_2_01_1)))
  /\ length (NumaStatLogger.fields (NumaStatLogger.header_fields numa_count))
     = (1 + 2 * n + 7 * n + 8)%nat.
Proof.
  apply (rows_match_header 20 Examples.one_node Examples.argv_d_2_01_1).
  intros t. simpl. lia.
Defined.

Lemma header_only_on_fresh_path_witness :
  let o := NumaStatLogger.main 20 Examples.one_node_again Examples.argv_r in
  let tr := NumaStatLogger.trace_of o in
  NumaStatLogger.csv_of o
  = Some ("timestamp,a,b" ++ NumaStatLogger.endl
          ++ NumaStatLogger.flatten (NumaStatLogger.rows tr))%string
  /\ NumaStatLogger.headers tr = 0%nat.
Proof.
  apply (header_only_on_fresh_path 20 Examples.one_node_again Examples.argv_r).
  vm_compute. reflexivity.
Defined.

(** C6.  A log that exists but may not be read (mode 0200, say) is taken
    for a missing one: the run empties it, writes a header and goes on;
    of the old text nothing is left. *)
Theorem unreadable_log_is_overwritten :
  NumaStatLogger.csv_text (NumaStatLogger.output MoreExamples.write_only_log)
  = Some ("timestamp,a,b" ++ NumaStatLogger.endl ++ "1699999999.000000000,1,2"
          ++ NumaStatLogger.endl)%string
  /\ exists tr,
       NumaStatLogger.main 10 MoreExamples.write_only_log Examples.argv_r
       = NumaStatLogger.Exit 0
           (Some (NumaStatLogger.header_fields 1 ++ NumaStatLogger.endl
                  ++ NumaStatLogger.flatten (NumaStatLogger.rows tr))%string) tr
       /\ NumaStatLogger.headers tr = 1%nat
       /\ length (NumaStatLogger.rows tr) = 3%nat.
Proof.
  split; [reflexivity|].
  exists (NumaStatLogger.trace_of
            (NumaStatLogger.main 10 MoreExamples.write_only_log Examples.argv_r)).
  vm_compute. repeat split.
Qed.

(** ** The logger: the order of events in a round *)

Section RoundFacts.

Import CStr NumaStatLogger.

Lemma snoc_eq_middle {A : Type} (l : list A) (e : A) (pre : list A) (x : A)
      (post : list A) :
  (l ++ [e] = pre ++ x :: post)%list ->
  (post = [] /\ pre = l /\ x = e)
  \/ exists post', post = (post' ++ [e])%list /\ l = (pre ++ x :: post')%list.
Proof.
  destruct post as [|y post _] using rev_ind; intros H.
  - apply app_inj_tail in H as [-> ->]. left. repeat split.
  - right. exists post.
    change (pre ++ x :: post ++ [y])%list with (pre ++ (x :: post) ++ [y])%list in H.
    rewrite app_assoc in H. apply app_inj_tail in H as [-> ->].
    split; reflexivity.
Qed.

Lemma polls_follow_rows_start (tr : list event) :
  polls tr = [] -> polls_follow_rows tr.
Proof.
  intros Hp pre ret post E. subst tr.
  rewrite polls_app in Hp. cbn in Hp.
  destruct (polls pre); discriminate.
Qed.

Lemma polls_follow_rows_other (tr : list event) (e : event) :
  polls_follow_rows tr -> polls [e] = [] -> polls_follow_rows (tr ++ [e]).
Proof.
  intros Htr He pre ret post E.
  apply snoc_eq_middle in E as [(_ & _ & <-) | (post' & _ & ->)].
  - discriminate He.
  - exact (Htr pre ret post' eq_refl).
Qed.

Lemma polls_follow_rows_round (tr : list event) (line : string)
      (tv_sec tv_nsec ret : Z) :
  polls_follow_rows tr ->
  polls_follow_rows (((tr ++ [Row line; Flush]) ++ [Nanosleep tv_sec tv_nsec])
                       ++ [Poll ret]).
Proof.
  intros Htr pre r post E.
  apply snoc_eq_middle in E as [(_ & -> & _) | (post' & _ & E)].
  - exists tr, line, tv_sec, tv_nsec. now rewrite <- app_assoc.
  - revert pre r post' E.
    change (polls_follow_rows ((tr ++ [Row line; Flush]) ++ [Nanosleep tv_sec tv_nsec])).
    apply polls_follow_rows_other; [|reflexivity].
    change [Row line; Flush] with ([Row line] ++ [Flush])%list.
    rewrite app_assoc.
    apply polls_follow_rows_other; [|reflexivity].
    apply polls_follow_rows_other; [assumption | reflexivity].
Qed.

Variable w : world.
Variable numa_count : Z.
Variable interval_sec : Double.double.
Variable use_duration : bool.
Variable iterations : Z.
Variable use_run : bool.

Local Abbreviation sampling' :=
  (sampling w numa_count interval_sec use_duration iterations use_run).

Lemma sample_trace (t : nat) (st : state) :
  exists line, trace (sample w numa_count t st) = (trace st ++ [Row line; Flush])%list.
Proof.
  destruct (sample_fields w numa_count t st) as (nm' & nv' & sv' & _ & _ & ->).
  cbn [trace]. eauto.
Qed.

(** In every run of the loop, the child is polled only after the row of
    the round went out, was flushed, and the sleep was asked for. *)
Lemma sampling_polls_follow_rows (fuel t : nat) (st : state) :
  polls_follow_rows (trace st) ->
  polls_follow_rows (trace (end_state (sampling' fuel t st))).
Proof.
  revert t st. induction fuel as [|fuel IH]; intros t st Hst; cbn [sampling];
    [exact Hst|].
  destruct (if use_duration then _ else true); [|exact Hst].
  destruct (sample_trace t st) as [line Hline].
  assert (Hrow : polls_follow_rows (trace (sample w numa_count t st))).
  { rewrite Hline. change [Row line; Flush] with ([Row line] ++ [Flush])%list.
    rewrite app_assoc.
    apply polls_follow_rows_other; [|reflexivity].
    apply polls_follow_rows_other; [assumption | reflexivity]. }
  destruct (Double.to_long _) as [nsec|]; [|exact Hrow].
  destruct use_run.
  - assert (Hpoll : polls_follow_rows
                      (trace (log (Poll (waitpid_nohang w t))
                                  (log (Nanosleep 0 nsec) (sample w numa_count t st))))).
    { cbn [log trace]. rewrite Hline. now apply polls_follow_rows_round. }
    destruct (negb _); [exact Hpoll | apply IH, Hpoll].
  - apply IH. cbn [log trace]. apply polls_follow_rows_other; [exact Hrow | reflexivity].
Qed.

(** The first round always writes its row. *)
Lemma sampling_first_row (fuel t : nat) (st : state) :
  use_duration = false ->
  (1 <= length (rows (trace (end_state (sampling' (S fuel) t st)))))%nat.
Proof.
  intros ->. cbn [sampling].
  destruct (sample_trace t st) as [line Hline].
  assert (Hone : forall more,
             (1 <= length (rows ((trace (sample w numa_count t st)) ++ more)))%nat).
  { intros more. rewrite Hline, !rows_app, !length_app. cbn. lia. }
  destruct (Double.to_long _) as [nsec|].
  2:{ specialize (Hone []). now rewrite app_nil_r in Hone. }
  destruct use_run.
  - destruct (negb _).
    + cbn [end_state log trace]. rewrite <- app_assoc. apply Hone.
    + destruct (sampling_extends w numa_count interval_sec false iterations true fuel (S t)
                  (log (Poll (waitpid_nohang w t))
                       (log (Nanosleep 0 nsec) (sample w numa_count t st)))) as [more ->].
      cbn [log trace]. rewrite <- !app_assoc. apply Hone.
  - destruct (sampling_extends w numa_count interval_sec false iterations false fuel (S t)
                (log (Nanosleep 0 nsec) (sample w numa_count t st))) as [more ->].
    cbn [log trace]. rewrite <- !app_assoc. apply Hone.
Qed.

End RoundFacts.

(** C10.  In run mode, once the loop is reached, at least one row is
    written whatever the child does: each poll of the child comes only
    after the row of its round was written and flushed (and the sleep
    asked for), so the first round writes its row before the first poll. *)
Theorem run_mode_row_before_poll (fuel : nat) (w : NumaStatLogger.world)
        (argv : list string) :
  NumaStatLogger.run_mode_args w argv ->
  NumaStatLogger.resources_ok w = true ->
  NumaStatLogger.fork w <> 0 ->
  (0 < fuel)%nat ->
  let tr := NumaStatLogger.trace_of (NumaStatLogger.main fuel w argv) in
  (1 <= length (NumaStatLogger.rows tr))%nat
  /\ NumaStatLogger.polls_follow_rows tr.
Proof.
  intros Hargs Hres Hfork Hfuel tr. subst tr.
  rewrite (main_run_mode fuel w argv Hargs).
  destruct (run_enters_loop fuel w (CStr.atoi (nth 1 argv EmptyString))
              (NumaStatLogger.atof w (nth 2 argv EmptyString)) false 0 true (skipn 4 argv)
              Hres (fun _ => Hfork))
    as (bnm & bnv & text & fresh & _ & _ & _ & ->).
  destruct fuel as [|fuel]; [lia|].
  pose proof (sampling_first_row w (CStr.atoi (nth 1 argv EmptyString))
                (NumaStatLogger.atof w (nth 2 argv EmptyString)) false 0 true fuel 0
                (NumaStatLogger.entry_state w (CStr.atoi (nth 1 argv EmptyString)) true bnm bnv text fresh)
                eq_refl) as Hrow.
  pose proof (sampling_polls_follow_rows w (CStr.atoi (nth 1 argv EmptyString))
                (NumaStatLogger.atof w (nth 2 argv EmptyString)) false 0 true (S fuel) 0
                (NumaStatLogger.entry_state w (CStr.atoi (nth 1 argv EmptyString)) true bnm bnv text fresh))
    as Hord.
  assert (Hstart : NumaStatLogger.polls_follow_rows
                     (NumaStatLogger.trace
                        (NumaStatLogger.entry_state w (CStr.atoi (nth 1 argv EmptyString)) true
                                                    bnm bnv text fresh))).
  { apply polls_follow_rows_start. now destruct fresh. }
  specialize (Hord Hstart).
  destruct (NumaStatLogger.sampling _ _ _ _ _ _ _ _ _) as [st|st|st];
    cbn [NumaStatLogger.end_state NumaStatLogger.trace_of] in *.
  - split.
    + rewrite rows_app, length_app. lia.
    + now apply polls_follow_rows_other.
  - split; assumption.
  - split; assumption.
Qed.

Lemma run_mode_row_before_poll_witness :
  let tr := NumaStatLogger.trace_of
              (NumaStatLogger.main 1 Examples.one_node Examples.argv_r) in
  (1 <= length (NumaStatLogger.rows tr))%nat
  /\ NumaStatLogger.polls_follow_rows tr.
Proof.
  apply (run_mode_row_before_poll 1 Examples.one_node Examples.argv_r).
  - repeat split; try reflexivity; simpl; lia.
  - reflexivity.
  - discriminate.
  - lia.
Defined.

(** ** The logger: how many rounds the loop makes *)

Section CountFacts.

Import CStr NumaStatLogger.

Variable w : world.
Variable numa_count : Z.
Variable interval_sec : Double.double.
Variable iterations : Z.

(** Run mode: the loop goes on while the polls return 0 and ends with the
    round of the first poll that does not. *)
Lemma sampling_until_exit (nsec : Z) (k : nat) :
  Double.to_long (Double.mul interval_sec Double.d_1e9) = Some nsec ->
  forall (fuel t : nat) (st : state),
    (forall j, (j < k)%nat -> waitpid_nohang w (t + j) = 0) ->
    waitpid_nohang w (t + k) <> 0 ->
    (k < fuel)%nat ->
    exists st',
      sampling w numa_count interval_sec false iterations true fuel t st = Done st'
      /\ length (rows (trace st')) = (length (rows (trace st)) + S k)%nat
      /\ polls (trace st')
         = (polls (trace st) ++ replicate k 0 ++ [waitpid_nohang w (t + k)])%list
      /\ exists pre, trace st' = (pre ++ [Poll (waitpid_nohang w (t + k))])%list.
Proof.
  intros Hsleep. induction k as [|k IH]; intros fuel t st Hzero Hexit Hfuel;
    (destruct fuel as [|fuel]; [lia|]); cbn [sampling]; rewrite Hsleep;
    destruct (sample_trace w numa_count t st) as [line Hline].
  - replace (t + 0)%nat with t in * by lia.
    destruct (Z.eqb_spec (waitpid_nohang w t) 0) as [E|_]; [contradiction|].
    cbn [negb]. eexists. split; [reflexivity|].
    cbn [log trace]. rewrite Hline, !rows_app, !polls_app, !length_app.
    cbn. rewrite !app_nil_r. repeat split; try lia. eauto.
  - assert (Ht : waitpid_nohang w t = 0).
    { specialize (Hzero O ltac:(lia)). now replace (t + 0)%nat with t in Hzero by lia. }
    rewrite Ht. cbn [Z.eqb negb].
    destruct (IH fuel (S t)
                (log (Poll 0) (log (Nanosleep 0 nsec) (sample w numa_count t st))))
      as (st' & Hrun & Hrows & Hpolls & pre & Hlast).
    + intros j Hj. replace (S t + j)%nat with (t + S j)%nat by lia. apply Hzero. lia.
    + now replace (S t + k)%nat with (t + S k)%nat by lia.
    + lia.
    + replace (S t + k)%nat with (t + S k)%nat in * by lia.
      exists st'. split; [exact Hrun|].
      cbn [log trace] in Hrows, Hpolls.
      rewrite Hline, !rows_app, !polls_app, !length_app in *.
      cbn in Hrows, Hpolls. rewrite !app_nil_r in *.
      repeat split.
      * lia.
      * rewrite Hpolls, <- app_assoc. reflexivity.
      * eauto.
Qed.

(** Duration mode: one round for each [iter] below [iterations]. *)
Lemma sampling_duration (rem : nat) :
  forall (fuel t : nat) (st : state),
    Z.to_nat (iterations - Z.of_nat t) = rem ->
    (rem = O \/ exists nsec,
        Double.to_long (Double.mul interval_sec Double.d_1e9) = Some nsec) ->
    (rem < fuel)%nat ->
    exists st',
      sampling w numa_count interval_sec true iterations false fuel t st = Done st'
      /\ length (rows (trace st')) = (length (rows (trace st)) + rem)%nat.
Proof.
  induction rem as [|rem IH]; intros fuel t st Hrem Hsleep Hfuel;
    (destruct fuel as [|fuel]; [lia|]); cbn [sampling].
  - destruct (Z.ltb_spec (Z.of_nat t) iterations) as [Hlt|_]; [lia|].
    exists st. split; [reflexivity | lia].
  - destruct (Z.ltb_spec (Z.of_nat t) iterations) as [_|Hge]; [|lia].
    destruct Hsleep as [Hz | [nsec Hsleep]]; [discriminate|].
    rewrite Hsleep.
    destruct (sample_trace w numa_count t st) as [line Hline].
    destruct (IH fuel (S t) (log (Nanosleep 0 nsec) (sample w numa_count t st)))
      as (st' & Hrun & Hrows); [lia | eauto | lia |].
    exists st'. split; [exact Hrun|].
    cbn [log trace] in Hrows. rewrite Hline, !rows_app, !length_app in Hrows.
    cbn in Hrows. lia.
Qed.

End CountFacts.

(** C8.  In run mode, when the exit of the child first shows at poll [k]
    (the non-blocking [waitpid] returns its pid there, and 0 before), the
    loop ends with round [k]: there are [k + 1] rows, that poll took the
    child's status, the blocking [waitpid] follows, and the exit status
    is 0. *)
Theorem run_mode_ends_at_child_exit (fuel : nat) (w : NumaStatLogger.world)
        (argv : list string) (nsec : Z) (k : nat) :
  NumaStatLogger.run_mode_args w argv ->
  NumaStatLogger.resources_ok w = true ->
  0 < NumaStatLogger.fork w ->
  Double.to_long (Double.mul (NumaStatLogger.atof w (nth 2 argv EmptyString)) Double.d_1e9)
  = Some nsec ->
  (forall t, (t < k)%nat -> NumaStatLogger.waitpid_nohang w t = 0) ->
  NumaStatLogger.waitpid_nohang w k = NumaStatLogger.fork w ->
  (k < fuel)%nat ->
  exists csv tr pre,
    NumaStatLogger.main fuel w argv = NumaStatLogger.Exit 0 csv tr
    /\ length (NumaStatLogger.rows tr) = S k
    /\ NumaStatLogger.polls tr = (replicate k 0 ++ [NumaStatLogger.fork w])%list
    /\ tr = (pre ++ [NumaStatLogger.Poll (NumaStatLogger.fork w);
                     NumaStatLogger.Wait])%list.
Proof.
  intros Hargs Hres Hfork Hsleep Hzero Hexit Hfuel.
  rewrite (main_run_mode fuel w argv Hargs).
  destruct (run_enters_loop fuel w (CStr.atoi (nth 1 argv EmptyString))
              (NumaStatLogger.atof w (nth 2 argv EmptyString)) false 0 true (skipn 4 argv)
              Hres (fun _ => ltac:(lia)))
    as (bnm & bnv & text & fresh & _ & _ & _ & ->).
  destruct (sampling_until_exit w (CStr.atoi (nth 1 argv EmptyString))
              (NumaStatLogger.atof w (nth 2 argv EmptyString)) 0 nsec k Hsleep fuel 0
              (NumaStatLogger.entry_state w (CStr.atoi (nth 1 argv EmptyString)) true bnm bnv text fresh))
    as (st' & -> & Hrows & Hpolls & pre & Hlast).
  - exact Hzero.
  - cbn. rewrite Hexit. lia.
  - exact Hfuel.
  - cbn [Nat.add] in *. rewrite Hexit in *.
    destruct (entry_state_rows w (CStr.atoi (nth 1 argv EmptyString)) true bnm bnv text fresh)
      as (Hr & _).
    rewrite Hr in Hrows.
    assert (Hp : NumaStatLogger.polls
                   (NumaStatLogger.trace
                      (NumaStatLogger.entry_state w (CStr.atoi (nth 1 argv EmptyString)) true
                                                  bnm bnv text fresh)) = [])
      by now destruct fresh.
    rewrite Hp in Hpolls.
    do 2 eexists. exists pre. split; [reflexivity|].
    rewrite rows_app, polls_app, length_app, Hpolls, Hrows, Hlast.
    cbn. rewrite app_nil_r.
    split; [lia|]. split; [reflexivity|]. now rewrite <- app_assoc.
Qed.

Lemma run_mode_ends_at_child_exit_witness :
  exists csv tr pre,
    NumaStatLogger.main 10 Examples.one_node Examples.argv_r
    = NumaStatLogger.Exit 0 csv tr
    /\ length (NumaStatLogger.rows tr) = 3%nat
    /\ NumaStatLogger.polls tr = (replicate 2 0 ++ [NumaStatLogger.fork Examples.one_node])%list
    /\ tr = (pre ++ [NumaStatLogger.Poll (NumaStatLogger.fork Examples.one_node);
                     NumaStatLogger.Wait])%list.
Proof.
  apply (run_mode_ends_at_child_exit 10 Examples.one_node Examples.argv_r 250000000 2).
  - repeat split; try reflexivity; simpl; lia.
  - reflexivity.
  - reflexivity.
  - reflexivity.
  - intros t Ht. assert (E : t = O \/ t = 1%nat) by lia. destruct E as [-> | ->]; reflexivity.
  - reflexivity.
  - lia.
Defined.

(** ** Binary64: sizes of rounded results *)

Section DoubleFacts.

Import Double.

(** The number of binary digits, through [Z.log2]. *)
Lemma digits2_pos_size (p : positive) : digits2_pos p = Pos.size p.
Proof. induction p as [p IH|p IH|]; simpl; now rewrite ?IH. Qed.

Lemma Zdigits2_log2 (m : Z) : 0 < m -> Zdigits2 m = Z.log2 m + 1.
Proof.
  destruct m as [|p|p]; try lia. intros _. unfold Zdigits2.
  rewrite digits2_pos_size. destruct p; simpl; lia.
Qed.

Lemma Zdigits2_nonneg (m : Z) : 0 <= Zdigits2 m.
Proof. destruct m; simpl; lia. Qed.

Lemma Zdigits2_pos (m : Z) : 0 < m -> 1 <= Zdigits2 m.
Proof. intros H. rewrite Zdigits2_log2 by assumption. pose proof (Z.log2_nonneg m). lia. Qed.

(** [m < 2^k] bounds the digits of [m] by [k]. *)
Lemma Zdigits2_le (m k : Z) : 0 <= m < 2 ^ k -> 0 <= k -> Zdigits2 m <= k.
Proof.
  intros [H0 H] Hk. destruct (Z.eq_dec m 0) as [->|Hne]; [exact Hk|].
  rewrite Zdigits2_log2 by lia.
  apply Z.log2_lt_pow2 in H; lia.
Qed.

Lemma Zdigits2_bounds (m : Z) :
  0 < m -> 2 ^ (Zdigits2 m - 1) <= m < 2 ^ Zdigits2 m.
Proof.
  intros H. rewrite Zdigits2_log2 by assumption.
  replace (Z.log2 m + 1 - 1) with (Z.log2 m) by lia.
  replace (Z.log2 m + 1) with (Z.succ (Z.log2 m)) by lia.
  now apply Z.log2_spec.
Qed.

Lemma Zdigits2_lower (m k : Z) : 0 <= k -> 2 ^ k <= m -> k + 1 <= Zdigits2 m.
Proof.
  intros Hk H.
  assert (0 < m) by (pose proof (Z.pow_pos_nonneg 2 k); lia).
  rewrite Zdigits2_log2 by assumption.
  apply Z.log2_le_pow2 in H; lia.
Qed.

Lemma Zdigits2_succ (m : Z) : 0 <= m -> Zdigits2 (m + 1) <= Zdigits2 m + 1.
Proof.
  intros H. destruct (Z.eq_dec m 0) as [->|Hne]; [simpl; lia|].
  rewrite !Zdigits2_log2 by lia.
  pose proof (Z.log2_succ_le m). unfold Z.succ in *. lia.
Qed.

Lemma Zdigits2_mul (a b : Z) :
  0 < a -> 0 < b -> Zdigits2 (a * b) <= Zdigits2 a + Zdigits2 b.
Proof.
  intros Ha Hb. rewrite !Zdigits2_log2 by nia.
  pose proof (Z.log2_mul_above a b ltac:(lia) ltac:(lia)). lia.
Qed.

(** The digits of a quotient [a / 2^n] that is not 0. *)
Lemma Zdigits2_div_pow2 (a n : Z) :
  0 < a -> 0 <= n -> 0 < a / 2 ^ n -> Zdigits2 (a / 2 ^ n) = Zdigits2 a - n.
Proof.
  intros Ha Hn Hq. rewrite !Zdigits2_log2 by assumption.
  rewrite <- Z.shiftr_div_pow2 in * by assumption.
  rewrite Z.log2_shiftr by assumption.
  destruct (Z.max_spec 0 (Z.log2 a - n)) as [[_ ->] | [Hle ->]]; [lia|].
  destruct (Z.eq_dec (Z.log2 a) n) as [E|E]; [lia|].
  (* log2 a < n would make the quotient 0 *)
  exfalso. rewrite Z.shiftr_div_pow2 in Hq by assumption.
  assert (a < 2 ^ n) by (apply Z.log2_lt_pow2; lia).
  rewrite Z.div_small in Hq; lia.
Qed.

Lemma Zdigits2_div_pow2_le (a n : Z) :
  0 <= a -> 0 <= n -> Zdigits2 (a / 2 ^ n) + n <= Z.max (Zdigits2 a) n.
Proof.
  intros Ha Hn.
  assert (Hp : 0 < 2 ^ n) by (apply Z.pow_pos_nonneg; lia).
  assert (Hq : 0 <= a / 2 ^ n) by (apply Z.div_pos; lia).
  destruct (Z.eq_dec (a / 2 ^ n) 0) as [E|E].
  - rewrite E. simpl. lia.
  - assert (0 < a).
    { destruct (Z.eq_dec a 0) as [->|]; [|lia]. rewrite Z.div_0_l in E; lia. }
    rewrite Zdigits2_div_pow2 by lia. lia.
Qed.

(** The digits of a quotient. *)
Lemma Zdigits2_div (a b : Z) :
  0 <= a -> 0 < b -> Zdigits2 (a / b) <= Z.max 0 (Zdigits2 a - Zdigits2 b + 1).
Proof.
  intros Ha Hb.
  assert (Hq : 0 <= a / b) by (apply Z.div_pos; lia).
  destruct (Z.eq_dec (a / b) 0) as [E|E]; [rewrite E; simpl; lia|].
  assert (0 < a).
  { destruct (Z.eq_dec a 0) as [->|]; [|lia]. rewrite Z.div_0_l in E; lia. }
  rewrite !Zdigits2_log2 by lia.
  pose proof (Z.log2_mul_below (a / b) b ltac:(lia) Hb) as Hbelow.
  pose proof (Z.mul_div_le a b Hb) as Hle.
  pose proof (Z.log2_le_mono (b * (a / b)) a Hle) as Hmono.
  rewrite (Z.mul_comm (a / b) b) in Hbelow. lia.
Qed.

(** *** Shifting and rounding *)

Lemma fexp_double (x : Z) : fexp prec emax x = Z.max (x - 53) (-1074).
Proof. reflexivity. Qed.

Lemma shr_1_m (mrs : shr_record) :
  0 <= shr_m mrs -> shr_m (shr_1 mrs) = shr_m mrs / 2.
Proof.
  destruct mrs as [m r s]. cbn [shr_m]. intros H.
  rewrite <- Z.div2_div.
  destruct m as [|[p|p|]|p]; try reflexivity; lia.
Qed.

Lemma iter_pos_shr_m (p : positive) (mrs : shr_record) :
  0 <= shr_m mrs ->
  shr_m (SpecFloat.iter_pos shr_1 p mrs) = shr_m mrs / 2 ^ Zpos p.
Proof.
  revert mrs. induction p as [p IH|p IH|]; intros mrs H; cbn [SpecFloat.iter_pos].
  - assert (H1 : 0 <= shr_m (shr_1 mrs)) by (rewrite shr_1_m by assumption; apply Z.div_pos; lia).
    assert (H2 : 0 <= shr_m (SpecFloat.iter_pos shr_1 p (shr_1 mrs))).
    { rewrite IH by assumption. apply Z.div_pos; [assumption|]. apply Z.pow_pos_nonneg; lia. }
    rewrite IH, IH, shr_1_m by assumption.
    rewrite !Z.div_div by (try apply Z.pow_pos_nonneg; lia).
    f_equal. rewrite (Pos2Z.inj_xI p).
    replace (2 * Z.pos p + 1) with (1 + Z.pos p + Z.pos p) by lia.
    rewrite !Z.pow_add_r by lia. lia.
  - assert (H2 : 0 <= shr_m (SpecFloat.iter_pos shr_1 p mrs)).
    { rewrite IH by assumption. apply Z.div_pos; [assumption|]. apply Z.pow_pos_nonneg; lia. }
    rewrite IH, IH by assumption.
    rewrite !Z.div_div by (try apply Z.pow_pos_nonneg; lia).
    f_equal. rewrite (Pos2Z.inj_xO p).
    replace (2 * Z.pos p) with (Z.pos p + Z.pos p) by lia.
    rewrite !Z.pow_add_r by lia. lia.
  - rewrite shr_1_m by assumption. reflexivity.
Qed.

(** [shr_fexp] drops the digits below the exponent the format allows. *)
Lemma shr_fexp_spec (m e : Z) (l : location) :
  0 <= m ->
  let n := Z.max (fexp prec emax (Zdigits2 m + e) - e) 0 in
  shr_m (fst (shr_fexp prec emax m e l)) = m / 2 ^ n
  /\ snd (shr_fexp prec emax m e l) = e + n.
Proof.
  intros Hm n. subst n. unfold shr_fexp, shr.
  assert (Hrec : shr_m (shr_record_of_loc m l) = m) by (destruct l as [|[]]; reflexivity).
  destruct (fexp prec emax (Zdigits2 m + e) - e) as [|p|p] eqn:E; cbn [fst snd].
  - rewrite Hrec. simpl. rewrite Z.div_1_r. split; lia.
  - rewrite iter_pos_shr_m by (rewrite Hrec; assumption).
    rewrite Hrec. replace (Z.max (Z.pos p) 0) with (Z.pos p) by lia.
    split; reflexivity.
  - rewrite Hrec. replace (Z.max (Z.neg p) 0) with 0 by lia.
    simpl. rewrite Z.div_1_r. split; lia.
Qed.

Lemma shr_fexp_mag (m e : Z) (l : location) :
  0 <= m ->
  let m' := shr_m (fst (shr_fexp prec emax m e l)) in
  let e' := snd (shr_fexp prec emax m e l) in
  0 <= m'
  /\ Zdigits2 m' + e' <= Z.max (Zdigits2 m + e) (-1074)
  /\ (0 < m' -> Zdigits2 m' + e' = Zdigits2 m + e).
Proof.
  intros Hm m' e'. subst m' e'.
  destruct (shr_fexp_spec m e l Hm) as [-> ->].
  rewrite fexp_double.
  set (n := Z.max (Z.max (Zdigits2 m + e - 53) (-1074) - e) 0).
  assert (Hn : 0 <= n) by (subst n; lia).
  assert (Hp : 0 < 2 ^ n) by (apply Z.pow_pos_nonneg; lia).
  pose proof (Zdigits2_div_pow2_le m n Hm Hn) as Hle.
  pose proof (Zdigits2_nonneg m) as Hd.
  split; [apply Z.div_pos; lia|]. split.
  - subst n. lia.
  - intros Hq.
    assert (0 < m).
    { destruct (Z.eq_dec m 0) as [->|]; [|lia]. rewrite Z.div_0_l in Hq; lia. }
    rewrite Zdigits2_div_pow2 by lia. lia.
Qed.

Lemma round_nearest_even_bounds (m : Z) (l : location) :
  m <= round_nearest_even m l <= m + 1.
Proof.
  unfold round_nearest_even. destruct l as [|[]]; try lia.
  destruct (Z.even m); lia.
Qed.

(** Rounding keeps the sign and raises the binary size of a value by one
    at most (tiny values may come up to the least positive number). *)
Lemma binary_round_aux_mag (s : bool) (mz e : Z) (l : location) :
  0 <= mz ->
  match binary_round_aux prec emax s mz e l with
  | S754_zero s' => s' = s
  | S754_infinity s' => s' = s /\ 973 <= Z.max (Zdigits2 mz + e) (-1074) + 1
  | S754_nan => False
  | S754_finite s' m' e' =>
      s' = s /\ Zpos (digits2_pos m') + e' <= Z.max (Zdigits2 mz + e) (-1074) + 1
  end.
Proof.
  intros Hm. unfold binary_round_aux.
  pose proof (shr_fexp_mag mz e l Hm) as (H1 & H2 & _).
  destruct (shr_fexp prec emax mz e l) as [mrs1 e1]. cbn [fst snd] in H1, H2.
  pose proof (round_nearest_even_bounds (shr_m mrs1) (loc_of_shr_record mrs1)) as Hr.
  set (m1 := round_nearest_even (shr_m mrs1) (loc_of_shr_record mrs1)) in *.
  assert (Hm1 : 0 <= m1) by lia.
  pose proof (shr_fexp_mag m1 e1 loc_Exact Hm1) as (H3 & _ & H4).
  destruct (shr_fexp prec emax m1 e1 loc_Exact) as [mrs2 e2]. cbn [fst snd] in H3, H4.
  assert (Hd : Zdigits2 m1 <= Zdigits2 (shr_m mrs1) + 1).
  { destruct (Z.eq_dec m1 (shr_m mrs1)) as [->|]; [lia|].
    replace m1 with (shr_m mrs1 + 1) by lia. now apply Zdigits2_succ. }
  destruct (shr_m mrs2) as [|m2|m2] eqn:E.
  - reflexivity.
  - specialize (H4 ltac:(lia)). cbn [Zdigits2] in H4.
    destruct (Z.leb_spec e2 (emax - prec)) as [Hfin|Hinf].
    + split; [reflexivity | lia].
    + split; [reflexivity|]. unfold emax, prec in Hinf. lia.
  - lia.
Qed.

(** *** Conversions, division and multiplication *)

Lemma digits2_pos_shift (p d : positive) :
  Zpos (digits2_pos (Pos.iter xO p d)) = Zpos (digits2_pos p) + Zpos d.
Proof.
  induction d as [|d IH] using Pos.peano_ind.
  - simpl. lia.
  - rewrite Pos.iter_succ. cbn [digits2_pos]. lia.
Qed.

(** A mantissa that already fits is left as it is. *)
Lemma binary_round_aux_fits (s : bool) (m : positive) (e : Z) :
  fexp prec emax (Zpos (digits2_pos m) + e) - e <= 0 ->
  e <= 971 ->
  binary_round_aux prec emax s (Zpos m) e loc_Exact = S754_finite s m e.
Proof.
  intros Hn He. unfold binary_round_aux, shr_fexp, shr. cbn [Zdigits2 shr_record_of_loc].
  destruct (fexp prec emax (Zpos (digits2_pos m) + e) - e) as [|p|p] eqn:E; try lia;
    cbn [shr_m loc_of_shr_record round_nearest_even Zdigits2 shr_record_of_loc];
    rewrite E; cbn [shr_m];
    (destruct (Z.leb_spec e (emax - prec)) as [_|H]; [reflexivity|]);
    unfold emax, prec in H; lia.
Qed.

(** An integer below [2^53] converts exactly: as many binary digits
    before the point as the integer has. *)
Lemma of_int_small (d : Z) :
  0 < d < 2 ^ 53 ->
  exists m e, of_int d = S754_finite false m e
              /\ Zpos (digits2_pos m) + e = Zdigits2 d.
Proof.
  intros [Hpos Hlt]. destruct d as [|p|p]; try lia.
  pose proof (Zdigits2_le (Zpos p) 53 ltac:(lia) ltac:(lia)) as HD.
  cbn [Zdigits2] in *.
  unfold of_int, binary_normalize, binary_round, shl_align.
  rewrite fexp_double.
  replace (Z.max (Z.pos (digits2_pos p) + 0 - 53) (-1074))
    with (Z.pos (digits2_pos p) - 53) by lia.
  destruct (Z.pos (digits2_pos p) - 53 - 0) as [|k|k] eqn:E; try lia.
  - rewrite binary_round_aux_fits by (rewrite ?fexp_double; lia).
    do 2 eexists. split; [reflexivity | lia].
  - pose proof (digits2_pos_shift p k) as Hs.
    rewrite binary_round_aux_fits by (rewrite ?fexp_double; lia).
    do 2 eexists. split; [reflexivity | lia].
Qed.

Lemma Zdigits2_mul_pow2 (m s : Z) :
  0 < m -> 0 <= s -> Zdigits2 (m * 2 ^ s) = Zdigits2 m + s.
Proof.
  intros Hm Hs.
  assert (0 < 2 ^ s) by (apply Z.pow_pos_nonneg; lia).
  rewrite !Zdigits2_log2 by nia.
  rewrite Z.log2_mul_pow2 by lia. lia.
Qed.

(** The quotient of two positive numbers is positive (or 0, or infinite)
    and about as large as the difference of their sizes says. *)
Lemma div_mag (m1 : positive) (e1 : Z) (m2 : positive) (e2 : Z) :
  let bound := Z.max (Zpos (digits2_pos m1) + e1 - (Zpos (digits2_pos m2) + e2) + 1)
                     (-1074) + 1 in
  match div (S754_finite false m1 e1) (S754_finite false m2 e2) with
  | S754_zero s => s = false
  | S754_infinity s => s = false
  | S754_nan => False
  | S754_finite s m e => s = false /\ Zpos (digits2_pos m) + e <= bound
  end.
Proof.
  intros bound. unfold div, SFdiv, SFdiv_core_binary. cbn [xorb Zdigits2].
  set (d1 := Zpos (digits2_pos m1)) in *. set (d2 := Zpos (digits2_pos m2)) in *.
  set (e' := Z.min (fexp prec emax (d1 + e1 - (d2 + e2))) (e1 - e2)).
  set (m' := match e1 - e2 - e' with
             | Zpos _ => Z.shiftl (Zpos m1) (e1 - e2 - e')
             | Z0 => Zpos m1
             | Zneg _ => Z0
             end).
  assert (He' : e' <= Z.max (d1 + e1 - (d2 + e2) - 53) (-1074) /\ e' <= e1 - e2)
    by (subst e'; rewrite fexp_double; lia).
  assert (Hm' : m' = Zpos m1 * 2 ^ (e1 - e2 - e')).
  { subst m'. destruct (e1 - e2 - e') as [|k|k] eqn:E; try lia.
    rewrite Z.shiftl_mul_pow2 by lia. reflexivity. }
  assert (Hpow : 0 < 2 ^ (e1 - e2 - e')) by (apply Z.pow_pos_nonneg; lia).
  assert (Hdm' : Zdigits2 m' = d1 + (e1 - e2 - e')).
  { rewrite Hm', Zdigits2_mul_pow2 by lia. reflexivity. }
  destruct (Z.div_eucl m' (Zpos m2)) as [q r] eqn:Ediv.
  assert (Hq : q = m' / Zpos m2) by (unfold Z.div; now rewrite Ediv).
  assert (Hq0 : 0 <= q) by (rewrite Hq; apply Z.div_pos; nia).
  pose proof (Zdigits2_div m' (Zpos m2) ltac:(nia) ltac:(lia)) as Hdq.
  rewrite <- Hq, Hdm' in Hdq. cbn [Zdigits2] in Hdq. fold d2 in Hdq.
  pose proof (binary_round_aux_mag false q e' (new_location (Zpos m2) r) Hq0) as Hround.
  assert (Hsize : Z.max (Zdigits2 q + e') (-1074) + 1 <= bound) by (subst bound; lia).
  destruct (binary_round_aux prec emax false q e' (new_location (Zpos m2) r))
    as [s|s| |s m e]; try tauto.
  destruct Hround as [-> Hround]. split; [reflexivity | lia].
Qed.

(** The product of two positive numbers. *)
Lemma mul_mag (m1 : positive) (e1 : Z) (m2 : positive) (e2 : Z) :
  let bound := Z.max (Zpos (digits2_pos m1) + e1 + (Zpos (digits2_pos m2) + e2))
                     (-1074) + 1 in
  match mul (S754_finite false m1 e1) (S754_finite false m2 e2) with
  | S754_zero s => s = false
  | S754_infinity s => s = false /\ 973 <= bound
  | S754_nan => False
  | S754_finite s m e => s = false /\ Zpos (digits2_pos m) + e <= bound
  end.
Proof.
  intros bound. unfold mul, SFmul. cbn [xorb].
  pose proof (binary_round_aux_mag false (Zpos (m1 * m2)) (e1 + e2) loc_Exact ltac:(lia))
    as Hround.
  pose proof (Zdigits2_mul (Zpos m1) (Zpos m2) ltac:(lia) ltac:(lia)) as Hd.
  change (Zdigits2 (Zpos m1 * Zpos m2)) with (Zpos (digits2_pos (m1 * m2))) in Hd.
  cbn [Zdigits2] in Hd, Hround.
  destruct (binary_round_aux prec emax false (Zpos (m1 * m2)) (e1 + e2) loc_Exact)
    as [s|s| |s m e]; try tauto.
  - destruct Hround as [-> Hround]. split; [reflexivity | subst bound; lia].
  - destruct Hround as [-> Hround]. split; [reflexivity | subst bound; lia].
Qed.

(** The integral part of a positive number. *)
Lemma trunc_positive (m : positive) (e z : Z) :
  trunc (S754_finite false m e) = Some z ->
  floor (S754_finite false m e) = Some z
  /\ 0 <= z
  /\ (1 <= z -> 1 <= Zpos (digits2_pos m) + e)
  /\ forall B, 0 <= B -> Zpos (digits2_pos m) + e <= B -> z < 2 ^ B.
Proof.
  unfold trunc, floor. cbn [cond_Zopp].
  pose proof (Zdigits2_bounds (Zpos m) ltac:(lia)) as [Hlo Hhi]. cbn [Zdigits2] in *.
  set (D := Zpos (digits2_pos m)) in *.
  destruct e as [|k|k]; intros E; injection E as <-.
  - repeat split; try lia. intros B HB HD.
    assert (2 ^ D <= 2 ^ B) by (apply Z.pow_le_mono_r; lia). lia.
  - assert (0 < 2 ^ Zpos k) by (apply Z.pow_pos_nonneg; lia).
    repeat split; try nia. intros B HB HD.
    assert (2 ^ (D + Zpos k) <= 2 ^ B) by (apply Z.pow_le_mono_r; lia).
    rewrite Z.pow_add_r in * by lia. nia.
  - assert (Hp : 0 < 2 ^ Zpos k) by (apply Z.pow_pos_nonneg; lia).
    rewrite Z.quot_div_nonneg by lia.
    assert (Hq : 0 <= Zpos m / 2 ^ Zpos k) by (apply Z.div_pos; lia).
    repeat split; try assumption.
    + intros Hone.
      assert (2 ^ Zpos k <= Zpos m).
      { pose proof (Z.mul_div_le (Zpos m) (2 ^ Zpos k) Hp). nia. }
      pose proof (Zdigits2_lower (Zpos m) (Zpos k) ltac:(lia) H). cbn [Zdigits2] in *.
      fold D in H0. lia.
    + intros B HB HD.
      apply Z.div_lt_upper_bound; [assumption|].
      rewrite <- Z.pow_add_r by lia.
      assert (2 ^ D <= 2 ^ (Zpos k + B)) by (apply Z.pow_le_mono_r; lia). lia.
Qed.

End DoubleFacts.

(** ** The logger in duration mode *)

Section DurationFacts.

Import Double NumaStatLogger.

(** The quotient [duration_sec / interval_sec] of two positive numbers:
    cutting it toward zero, as the conversion to [int] does, is taking its
    floor. *)
Lemma quotient_floor (d : Z) (m : positive) (e n : Z) :
  0 < d <= CInt.INT_MAX ->
  floor (div (of_int d) (S754_finite false m e)) = Some n ->
  0 <= n /\ trunc (div (of_int d) (S754_finite false m e)) = Some n.
Proof.
  intros Hd Hfloor. unfold CInt.INT_MAX in Hd.
  destruct (of_int_small d ltac:(lia)) as (md & ed & Hof & _).
  rewrite Hof in *.
  pose proof (div_mag md ed m e) as Hdiv. cbn zeta in Hdiv.
  destruct (div (S754_finite false md ed) (S754_finite false m e)) as [s|s| |s mq eq].
  - cbn in *. injection Hfloor as <-. split; [lia | reflexivity].
  - discriminate Hfloor.
  - contradiction.
  - destruct Hdiv as [-> _].
    destruct (trunc (S754_finite false mq eq)) as [z|] eqn:Et; [|discriminate Et].
    destruct (trunc_positive mq eq z Et) as (Hf & Hz & _).
    rewrite Hf in Hfloor. injection Hfloor as <-. split; [assumption | reflexivity].
Qed.

(** When the loop has at least one round to make, the interval is short
    enough for [(long)(interval_sec * 1e9)] to be defined. *)
Lemma sleep_defined (d : Z) (m : positive) (e it : Z) :
  0 < d <= CInt.INT_MAX ->
  trunc (div (of_int d) (S754_finite false m e)) = Some it ->
  1 <= it ->
  exists nsec, to_long (mul (S754_finite false m e) d_1e9) = Some nsec.
Proof.
  intros Hd Htrunc Hit. unfold CInt.INT_MAX in Hd.
  destruct (of_int_small d ltac:(lia)) as (md & ed & Hof & Hsize).
  pose proof (Zdigits2_le d 31 ltac:(lia) ltac:(lia)) as Hd31.
  rewrite Hof in *.
  pose proof (div_mag md ed m e) as Hdiv. cbn zeta in Hdiv.
  destruct (div (S754_finite false md ed) (S754_finite false m e)) as [s|s| |s mq eq].
  - cbn in Htrunc. injection Htrunc as <-. lia.
  - discriminate Htrunc.
  - contradiction.
  - destruct Hdiv as [-> Hq].
    destruct (trunc_positive mq eq it Htrunc) as (_ & _ & Hone & _).
    specialize (Hone Hit).
    (* the interval is below 2^32, its product with 1e9 below 2^62 *)
    change d_1e9 with (S754_finite false 8388608000000000 (-23)).
    pose proof (mul_mag m e 8388608000000000 (-23)) as Hmul. cbn zeta in Hmul.
    change (Zpos (digits2_pos 8388608000000000)) with 53 in Hmul.
    unfold to_long.
    destruct (mul (S754_finite false m e) (S754_finite false 8388608000000000 (-23)))
      as [s|s| |s mp ep].
    + cbn. eauto.
    + destruct Hmul as [_ Hmul]. lia.
    + contradiction.
    + destruct Hmul as [-> Hmul].
      destruct (trunc (S754_finite false mp ep)) as [z|] eqn:Et; [|discriminate Et].
      destruct (trunc_positive mp ep z Et) as (_ & Hz & _ & Hlt).
      specialize (Hlt 63 ltac:(lia) ltac:(lia)).
      unfold CInt.in_long, CInt.LONG_MIN, CInt.LONG_MAX.
      change (2 ^ 63) with 9223372036854775808 in Hlt.
      destruct (Z.leb_spec (-9223372036854775808) z); [|lia].
      destruct (Z.leb_spec z 9223372036854775807); [|lia].
      cbn. eauto.
Qed.

(** In duration mode there are never more rows than [iterations]. *)
Lemma sampling_rows_at_most (w : world) (numa_count : Z) (interval_sec : double)
      (iterations : Z) (use_run : bool) (fuel t : nat) (st : state) :
  length (rows (trace st)) = t ->
  Z.of_nat t <= Z.max iterations 0 ->
  Z.of_nat (length (rows (trace (end_state
     (sampling w numa_count interval_sec true iterations use_run fuel t st)))))
  <= Z.max iterations 0.
Proof.
  revert t st. induction fuel as [|fuel IH]; intros t st Hrows Ht; cbn [sampling];
    [cbn; lia|].
  destruct (Z.ltb_spec (Z.of_nat t) iterations) as [Hlt|Hge]; [|cbn; lia].
  destruct (sample_trace w numa_count t st) as [line Hline].
  assert (Hone : length (rows (trace (sample w numa_count t st))) = S t).
  { rewrite Hline, rows_app, length_app. cbn. lia. }
  destruct (to_long _) as [nsec|]; [|cbn [end_state]; lia].
  destruct use_run.
  - destruct (negb _).
    + cbn [end_state log trace]. rewrite !rows_app, !length_app. cbn. lia.
    + apply IH; [|lia]. cbn [log trace]. rewrite !rows_app, !length_app. cbn. lia.
  - apply IH; [|lia]. cbn [log trace]. rewrite !rows_app, !length_app. cbn. lia.
Qed.

Lemma run_rows_at_most (fuel : nat) (w : world) (numa_count : Z)
      (interval_sec : double) (iterations : Z) (use_run : bool)
      (run_argv : list string) :
  Z.of_nat (length (rows (trace_of
     (run fuel w numa_count interval_sec true iterations use_run run_argv))))
  <= Z.max iterations 0.
Proof.
  destruct (run_cases fuel w numa_count interval_sec true iterations use_run run_argv)
    as [(c & tr & -> & Hrows) | [-> | (bnm & bnv & text & fresh & _ & ->)]].
  - cbn. rewrite Hrows. cbn. lia.
  - cbn. lia.
  - destruct (entry_state_rows w numa_count use_run bnm bnv text fresh) as (Hr & _).
    pose proof (sampling_rows_at_most w numa_count interval_sec iterations use_run fuel 0
                  (entry_state w numa_count use_run bnm bnv text fresh)) as H.
    rewrite Hr in H. specialize (H eq_refl ltac:(lia)).
    destruct (sampling _ _ _ _ _ _ _ _ _) as [st|st|st]; cbn in *; try assumption.
    rewrite rows_app, length_app. destruct use_run; cbn; lia.
Qed.

(** The loop counter is an [int]: however the quotient is converted, a
    duration-mode run has at most [INT_MAX] rows. *)
Lemma duration_rows_fit_int (fuel : nat) (w : world) (argv : list string) :
  nth 3 argv EmptyString = "-d" ->
  Z.of_nat (length (rows (trace_of (main fuel w argv)))) <= CInt.INT_MAX.
Proof.
  intros Hmode. unfold main. rewrite Hmode. cbn [String.eqb Ascii.eqb Bool.eqb].
  repeat match goal with
         | |- context [if ?c then _ else _] => destruct c; [cbn; unfold CInt.INT_MAX; lia|]
         end.
  destruct (to_int _) as [it|] eqn:E; [|cbn; unfold CInt.INT_MAX; lia].
  pose proof (run_rows_at_most fuel w (CStr.atoi (nth 1 argv EmptyString))
                (atof w (nth 2 argv EmptyString)) it false []) as H.
  unfold to_int in E. destruct (trunc _) as [z|]; [|discriminate].
  unfold CInt.in_int, CInt.INT_MIN, CInt.INT_MAX in *.
  destruct (Z.leb_spec (-2147483648) z), (Z.leb_spec z 2147483647);
    try discriminate. injection E as <-. lia.
Qed.

(** The same for whatever interval the validation lets through: a positive
    number, or [+inf] (no round at all); the quotient by a NaN has no floor. *)
Lemma valid_interval_quotient (d : Z) (interval_sec : double) (n : Z) :
  0 < d <= CInt.INT_MAX ->
  le interval_sec zero = false ->
  floor (div (of_int d) interval_sec) = Some n ->
  0 <= n
  /\ trunc (div (of_int d) interval_sec) = Some n
  /\ (1 <= n -> exists nsec, to_long (mul interval_sec d_1e9) = Some nsec).
Proof.
  intros Hd Hle Hfloor.
  destruct interval_sec as [s|s| |s m e].
  - destruct s; discriminate Hle.
  - destruct s; [discriminate Hle|].
    unfold CInt.INT_MAX in Hd.
    destruct (of_int_small d ltac:(lia)) as (md & ed & Hof & _).
    rewrite Hof in *. cbn in Hfloor |- *. injection Hfloor as <-.
    repeat split; try lia.
  - unfold CInt.INT_MAX in Hd.
    destruct (of_int_small d ltac:(lia)) as (md & ed & Hof & _).
    rewrite Hof in Hfloor. discriminate Hfloor.
  - destruct s; [discriminate Hle|].
    destruct (quotient_floor d m e n Hd Hfloor) as [Hn Htrunc].
    repeat split; try assumption.
    intros Hone. exact (sleep_defined d m e n Hd Htrunc Hone).
Qed.

End DurationFacts.

(** C1, as amended.  In duration mode, when the floor of the quotient
    [duration_sec / interval_sec] (taken in binary64, as the code takes it)
    is at most [INT_MAX], the run ends with status 0 after writing exactly
    that many rows. *)
Theorem duration_mode_row_count (fuel : nat) (w : NumaStatLogger.world)
        (argv : list string) (n : Z) :
  NumaStatLogger.duration_mode_args w argv ->
  NumaStatLogger.resources_ok w = true ->
  Double.floor (Double.div (Double.of_int (CStr.atoi (nth 4 argv EmptyString)))
                           (NumaStatLogger.atof w (nth 2 argv EmptyString))) = Some n ->
  n <= CInt.INT_MAX ->
  (Z.to_nat n < fuel)%nat ->
  exists csv tr,
    NumaStatLogger.main fuel w argv = NumaStatLogger.Exit 0 csv tr
    /\ Z.of_nat (length (NumaStatLogger.rows tr)) = n.
Proof.
  intros Hargs Hres Hfloor Hfit Hfuel.
  pose proof Hargs as (_ & _ & Hle & _ & Hd).
  pose proof (atoi_range (nth 4 argv EmptyString)) as Hrange.
  destruct (valid_interval_quotient (CStr.atoi (nth 4 argv EmptyString))
              (NumaStatLogger.atof w (nth 2 argv EmptyString)) n ltac:(lia) Hle Hfloor)
    as (Hn0 & Htrunc & Hsleep).
  rewrite (main_duration_mode fuel w argv Hargs).
  unfold Double.to_int. rewrite Htrunc.
  unfold CInt.in_int, CInt.INT_MIN, CInt.INT_MAX in *.
  destruct (Z.leb_spec (-2147483648) n); [|lia].
  destruct (Z.leb_spec n 2147483647); [|lia]. cbn [andb].
  destruct (run_enters_loop fuel w (CStr.atoi (nth 1 argv EmptyString))
              (NumaStatLogger.atof w (nth 2 argv EmptyString))
              true n false [] Hres ltac:(discriminate))
    as (bnm & bnv & text & fresh & _ & _ & _ & ->).
  destruct (sampling_duration w (CStr.atoi (nth 1 argv EmptyString))
              (NumaStatLogger.atof w (nth 2 argv EmptyString)) n
              (Z.to_nat n) fuel 0
              (NumaStatLogger.entry_state w (CStr.atoi (nth 1 argv EmptyString)) false bnm bnv text fresh))
    as (st' & -> & Hrows).
  - f_equal. lia.
  - destruct (Z.eq_dec n 0) as [->|Hne]; [left; reflexivity|].
    right. apply Hsleep. lia.
  - exact Hfuel.
  - destruct (entry_state_rows w (CStr.atoi (nth 1 argv EmptyString)) false bnm bnv text fresh)
      as (Hr & _).
    rewrite Hr in Hrows. cbn in Hrows.
    do 2 eexists. split; [reflexivity|].
    rewrite app_nil_r, Hrows. lia.
Qed.

Lemma duration_mode_row_count_witness :
  exists csv tr,
    NumaStatLogger.main 20 Examples.one_node Examples.argv_d_2_01_1
    = NumaStatLogger.Exit 0 csv tr
    /\ Z.of_nat (length (NumaStatLogger.rows tr)) = 10.
Proof.
  apply (duration_mode_row_count 20 Examples.one_node Examples.argv_d_2_01_1 10).
  - repeat split; try reflexivity; simpl; lia.
  - reflexivity.
  - reflexivity.
  - unfold CInt.INT_MAX. lia.
  - simpl. lia.
Defined.

(** C1 as stated fails: with [-d 1073741824] and an interval of a quarter
    of a second the arguments are valid and the floor of the quotient is
    [2^32], which no [int] holds: the conversion is undefined, and no run
    has that many rows. *)
Lemma duration_rows_beyond_int :
  NumaStatLogger.duration_mode_args Examples.one_node Examples.argv_d_overflow
  /\ NumaStatLogger.resources_ok Examples.one_node = true
  /\ Double.floor (Double.div (Double.of_int 1073741824) Double.d_0_25)
     = Some 4294967296
  /\ forall fuel,
       Z.of_nat (length (NumaStatLogger.rows
                           (NumaStatLogger.trace_of
                              (NumaStatLogger.main fuel Examples.one_node
                                                   Examples.argv_d_overflow))))
       <> 4294967296.
Proof.
  split; [|split; [|split]].
  - repeat split; try reflexivity; simpl; lia.
  - reflexivity.
  - reflexivity.
  - intros fuel H.
    pose proof (duration_rows_fit_int fuel Examples.one_node Examples.argv_d_overflow
                  eq_refl) as Hfit.
    unfold CInt.INT_MAX in Hfit. lia.
Qed.

(** ** The logger: memory fields of a node whose source cannot be read *)

Section MeminfoFacts.

Import CStr NumaStatLogger.

(** A source that cannot be opened leaves the record as it was. *)
Lemma parse_node_meminfo_missing (fopen : reader) (r : node_meminfo)
      (path : string) (nodeID : Z) :
  fopen path = None -> parse_node_meminfo fopen r path nodeID = r.
Proof. intros H. unfold parse_node_meminfo. now rewrite H. Qed.

(** So does a text without the two lines of the node. *)
Lemma scan_meminfo_no_line (lines : list string) (nodeID : Z)
      (found_total found_free : bool) (r : node_meminfo) :
  Forall (fun line => strstr line (memtotal_key nodeID) = false
                      /\ strstr line (memfree_key nodeID) = false) lines ->
  scan_meminfo lines nodeID found_total found_free r = r.
Proof.
  intros H. revert found_total found_free.
  induction H as [|line lines [Ht Hf] _ IH]; intros ft ff; cbn [scan_meminfo];
    [reflexivity|].
  rewrite Ht, Hf, !andb_false_r.
  destruct (ft && ff)%bool; [reflexivity | apply IH].
Qed.

Lemma parse_node_meminfo_no_line (fopen : reader) (r : node_meminfo)
      (path text : string) (nodeID : Z) :
  fopen path = Some text ->
  Forall (fun line => strstr line (memtotal_key nodeID) = false
                      /\ strstr line (memfree_key nodeID) = false)
         (fgets_lines 256 255 text) ->
  parse_node_meminfo fopen r path nodeID = r.
Proof.
  intros Hopen Hlines. unfold parse_node_meminfo. rewrite Hopen.
  now apply scan_meminfo_no_line.
Qed.

(** Through a round of parsing, the record of a node whose meminfo cannot
    be opened keeps what it held. *)
Lemma parse_nodes_keeps (fopen : reader) (todo : nat) (k : Z) (i : nat)
      (nm : list node_meminfo) (nv : list node_vmstat) :
  0 <= k ->
  fopen (meminfo_path (Z.of_nat i)) = None ->
  fst (parse_nodes fopen todo k nm nv) !! i = nm !! i.
Proof.
  revert k nm nv. induction todo as [|todo IH]; intros k nm nv Hk Hopen;
    cbn [parse_nodes]; [reflexivity|].
  rewrite IH by (assumption || lia).
  destruct (decide (Z.to_nat k = i)) as [E|E].
  - subst i. rewrite Z2Nat.id in Hopen by assumption.
    rewrite list_lookup_alter_eq.
    destruct (nm !! Z.to_nat k) as [r|]; [|reflexivity].
    cbn. now rewrite parse_node_meminfo_missing.
  - now rewrite list_lookup_alter_ne.
Qed.

(** In the first round that record is what [malloc] handed out: the arrays
    are never cleared. *)
Lemma first_round_keeps_heap (w : world) (numa_count : Z) (use_run : bool)
      (block_nm : nat -> node_meminfo) (block_nv : nat -> node_vmstat)
      (text : string) (fresh : bool) (i : nat) :
  (i < Z.to_nat numa_count)%nat ->
  read_file w 0 (meminfo_path (Z.of_nat i)) = None ->
  nm (sample w numa_count 0
             (entry_state w numa_count use_run block_nm block_nv text fresh)) !! i
  = Some (block_nm i).
Proof.
  intros Hi Hopen. unfold sample.
  pose proof (parse_nodes_keeps (read_file w 0) (Z.to_nat numa_count) 0 i
                (nm (entry_state w numa_count use_run block_nm block_nv text fresh))
                (nv (entry_state w numa_count use_run block_nm block_nv text fresh))
                ltac:(lia) Hopen) as Hkeep.
  destruct (parse_nodes _ _ _ _ _) as [nm' nv']. cbn [fst nm] in *.
  rewrite Hkeep. cbn [entry_state nm].
  change (map block_nm (seq 0 (Z.to_nat numa_count)))
    with (block_nm <$> seq 0 (Z.to_nat numa_count)).
  rewrite list_lookup_fmap, lookup_seq_lt by assumption. reflexivity.
Qed.

End MeminfoFacts.

(** C2, at the failing input.  One node whose meminfo cannot be read in the
    first round, and arrays that [malloc] returns with old contents
    (3735928559 and 48879): the first row shows those two numbers in the
    memory fields, not zeros.  (The run goes on: the exit status is 0.) *)
Theorem first_row_shows_heap_contents :
  NumaStatLogger.read_file Examples.one_node 0
    (NumaStatLogger.meminfo_path 0) = None
  /\ exists csv tr line,
      NumaStatLogger.main 10 Examples.one_node Examples.argv_r
      = NumaStatLogger.Exit 0 csv tr
      /\ nth_error (NumaStatLogger.rows tr) 0 = Some line
      /\ firstn 3 (NumaStatLogger.fields line)
         = ["1700000000.000005000"; "3735928559"; "48879"].
Proof.
  split; [reflexivity|].
  do 3 eexists. split; [vm_compute; reflexivity|].
  split; vm_compute; reflexivity.
Qed.

(** ** The logger: the sleep between rounds *)

Section SleepFacts.

Import NumaStatLogger.

Lemma sleeps_app (a b : list event) : sleeps (a ++ b)%list = (sleeps a ++ sleeps b)%list.
Proof.
  induction a as [|e a IH]; simpl; [reflexivity|].
  destruct e; simpl; now rewrite ?IH.
Qed.

(** Every request to [nanosleep] has [tv_sec = 0] and the interval, in
    nanoseconds, as [tv_nsec]. *)
Lemma sampling_sleeps (w : world) (numa_count : Z) (interval_sec : Double.double)
      (use_duration : bool) (iterations : Z) (use_run : bool)
      (fuel t : nat) (st : state) :
  Forall (fun req => req.1 = 0
                     /\ Double.to_long (Double.mul interval_sec Double.d_1e9)
                        = Some req.2) (sleeps (trace st)) ->
  Forall (fun req => req.1 = 0
                     /\ Double.to_long (Double.mul interval_sec Double.d_1e9)
                        = Some req.2)
         (sleeps (trace (end_state
            (sampling w numa_count interval_sec use_duration iterations use_run
                      fuel t st)))).
Proof.
  revert t st. induction fuel as [|fuel IH]; intros t st Hst; cbn [sampling];
    [exact Hst|].
  destruct (if use_duration then _ else true); [|exact Hst].
  destruct (sample_trace w numa_count t st) as [line Hline].
  assert (Hrow : sleeps (trace (sample w numa_count t st)) = sleeps (trace st)).
  { rewrite Hline, sleeps_app. cbn. now rewrite app_nil_r. }
  destruct (Double.to_long _) as [nsec|] eqn:E; [|cbn [end_state]; now rewrite Hrow].
  assert (Hsleep : Forall (fun req => req.1 = 0 /\ Some nsec = Some req.2)
                          (sleeps (trace (log (Nanosleep 0 nsec)
                                              (sample w numa_count t st))))).
  { cbn [log trace]. rewrite sleeps_app, Hrow. apply Forall_app. split; [exact Hst|].
    cbn. constructor; [split; reflexivity | constructor]. }
  destruct use_run.
  - assert (Hpoll : Forall (fun req => req.1 = 0 /\ Some nsec = Some req.2)
                           (sleeps (trace (log (Poll (waitpid_nohang w t))
                                               (log (Nanosleep 0 nsec)
                                                    (sample w numa_count t st)))))).
    { cbn [log trace] in *. rewrite sleeps_app. cbn. now rewrite app_nil_r. }
    destruct (negb _); [exact Hpoll | apply IH, Hpoll].
  - apply IH, Hsleep.
Qed.

End SleepFacts.

(** C3, at the failing input.  With an interval of one second ([-d 3], so
    three rows) every request to [nanosleep] is [{0, 1000000000}], which
    [nanosleep] rejects: the logger does not sleep at all. *)
Theorem one_second_interval_does_not_sleep :
  let tr := NumaStatLogger.trace_of
              (NumaStatLogger.main 10 Examples.one_node Examples.argv_d_1_1_3) in
  length (NumaStatLogger.rows tr) = 3%nat
  /\ NumaStatLogger.sleeps tr
     = [(0, 1000000000); (0, 1000000000); (0, 1000000000)]
  /\ NumaStatLogger.nanosleep_ok 0 1000000000 = false
  /\ NumaStatLogger.total_slept tr = 0.
Proof. vm_compute. repeat split. Qed.

(** ** The benchmark driver *)

(** C9.  Without arguments, where [nproc] prints nothing (it is missing,
    or fails), the test of the floor is an error and its branch is not
    taken: the benchmark is started with 1000 operations and an empty
    thread count. *)
Theorem no_core_count_gives_empty_threads :
  let r := BenchmarkScript.script "/home/user" EmptyString [] in
  BenchmarkScript.test_lt EmptyString 1 = false
  /\ exists args,
       BenchmarkScript.command r = Some ("/home/user/rocksdb/db_bench" :: args)
       /\ BenchmarkScript.option_value "num" args = Some "1000"
       /\ BenchmarkScript.option_value "threads" args = Some EmptyString
       /\ In "--threads=" args.
Proof.
  split; [reflexivity|]. eexists.
  split; [reflexivity|]. split; [reflexivity|]. split; [reflexivity|].
  cbn. do 38 right. left. reflexivity.
Qed.

(** ** Decimal output reads back as the number printed *)

Section DecimalFacts.

Import CStr NumaStatLogger.

Lemma digit_val_digit_char (n : Z) : digit_val (digit_char (n mod 10)) = n mod 10.
Proof.
  pose proof (Z.mod_pos_bound n 10 ltac:(lia)) as H.
  assert (E : n mod 10 = 0 \/ n mod 10 = 1 \/ n mod 10 = 2 \/ n mod 10 = 3
              \/ n mod 10 = 4 \/ n mod 10 = 5 \/ n mod 10 = 6 \/ n mod 10 = 7
              \/ n mod 10 = 8 \/ n mod 10 = 9) by lia.
  repeat (destruct E as [E|E]; [rewrite E; reflexivity|]).
  rewrite E; reflexivity.
Qed.

Lemma dec_value_dec_digits (fuel : nat) (n : Z) (tail : string) :
  0 <= n < 2 ^ Z.of_nat fuel ->
  dec_value (dec_digits fuel n tail)
  = n * 10 ^ Z.of_nat (String.length tail) + dec_value tail.
Proof.
  revert n tail. induction fuel as [|fuel IH]; intros n tail Hn.
  - change (2 ^ Z.of_nat 0) with 1 in Hn. assert (n = 0) as -> by lia. reflexivity.
  - cbn [dec_digits].
    pose proof (Z.div_mod n 10 ltac:(lia)) as Hdm.
    pose proof (Z.mod_pos_bound n 10 ltac:(lia)) as Hmod.
    assert (Hpow : 0 < 10 ^ Z.of_nat (String.length tail))
      by (apply Z.pow_pos_nonneg; lia).
    destruct (Z.ltb_spec n 10) as [Hlt|Hge].
    + cbn [dec_value]. rewrite digit_val_digit_char, Z.mod_small by lia. reflexivity.
    + rewrite IH.
      * cbn [dec_value String.length].
        rewrite digit_val_digit_char, Nat2Z.inj_succ, Z.pow_succ_r by lia. nia.
      * rewrite Nat2Z.inj_succ, Z.pow_succ_r in Hn by lia.
        split; [apply Z.div_pos; lia|].
        apply Z.div_lt_upper_bound; lia.
Qed.

(** [%u], [%d] and [%ld] print the digits of the number. *)
Lemma dec_value_fmt_nat (n : Z) : 0 <= n -> dec_value (fmt_nat n) = n.
Proof.
  intros Hn. unfold fmt_nat, dec_fuel.
  rewrite dec_value_dec_digits.
  - cbn. lia.
  - rewrite Nat2Z.inj_succ, Z2Nat.id by apply Z.log2_nonneg.
    destruct (Z.eq_dec n 0) as [->|Hne]; [cbn; lia|].
    pose proof (Z.log2_spec n ltac:(lia)). lia.
Qed.

Lemma dec_value_zeros (k : nat) (s : string) : dec_value (zeros k s) = dec_value s.
Proof.
  induction k as [|k IH]; cbn [zeros dec_value]; [reflexivity|].
  rewrite IH. change (digit_val "0") with 0. lia.
Qed.

(** The two parts of a timestamp are the seconds and the nanoseconds of the
    clock. *)
Lemma timestamp_reads_back (tv_sec tv_nsec : Z) :
  0 <= tv_sec -> 0 <= tv_nsec < 1000000000 ->
  exists secs frac,
    timestamp tv_sec tv_nsec = (secs ++ "." ++ frac)%string
    /\ dec_value secs = tv_sec
    /\ String.length frac = 9%nat
    /\ dec_value frac = tv_nsec.
Proof.
  intros Hs Hn. exists (fmt_d tv_sec), (fmt_0d 9 tv_nsec).
  split; [reflexivity|].
  unfold fmt_d, fmt_0d.
  destruct (Z.ltb_spec tv_sec 0); [lia|].
  destruct (Z.ltb_spec tv_nsec 0); [lia|].
  rewrite dec_value_zeros, !dec_value_fmt_nat by lia.
  repeat split.
  pose proof (fmt_09_nanoseconds tv_nsec Hn) as [Hlen _].
  unfold fmt_0d in Hlen.
  destruct (Z.ltb_spec tv_nsec 0); [lia | exact Hlen].
Qed.

End DecimalFacts.

(** ** The models at work *)

Example fgets_splits_long_lines :
  NumaStatLogger.fgets_lines 4 3 "abcdefg" = ["abc"; "def"; "g"].
Proof. reflexivity. Qed.

Example meminfo_of_node_0 :
  NumaStatLogger.parse_node_meminfo (fun _ => Some Examples.meminfo_node0)
    (NumaStatLogger.Build_node_meminfo 7 8) "meminfo" 0
  = NumaStatLogger.Build_node_meminfo 32768000 31768000.
Proof. reflexivity. Qed.

Example meminfo_of_another_node :
  NumaStatLogger.parse_node_meminfo (fun _ => Some Examples.meminfo_node0)
    (NumaStatLogger.Build_node_meminfo 7 8) "meminfo" 1
  = NumaStatLogger.Build_node_meminfo 7 8.
Proof. reflexivity. Qed.

Example vmstat_of_node_0 :
  NumaStatLogger.parse_node_vmstat (fun _ => Some Examples.vmstat_node0)
    (NumaStatLogger.Build_node_vmstat 1 1 1 1 1 1 1) "vmstat"
  = NumaStatLogger.Build_node_vmstat 250000 81 2 1 1 1 1.
Proof. reflexivity. Qed.

Example header_of_one_node :
  NumaStatLogger.header_fields 1
  = "timestamp,node_0_mem_total,node_0_mem_used,node_0_nr_free_pages,node_0_numa_hit,node_0_numa_miss,node_0_numa_foreign,node_0_numa_interleave,node_0_numa_local,node_0_numa_other,numa_pte_updates,numa_huge_pte_updates,numa_pages_migrated,pgmigrate_success,pgmigrate_fail,thp_migration_success,thp_migration_fail,thp_migration_split".
Proof. reflexivity. Qed.

Example one_tenth_is_a_tenth : Double.div (Double.of_int 1) (Double.of_int 10) = Double.d_0_1.
Proof. reflexivity. Qed.

(** One second at 0.1 s: ten rounds.  Seven seconds at 0.07 s: the binary64
    quotient is just below 100, so 99 rounds. *)
Example iterations_1_by_0_1 :
  Double.to_int (Double.div (Double.of_int 1) Double.d_0_1) = Some 10.
Proof. reflexivity. Qed.

Example iterations_7_by_0_07 :
  Double.to_int (Double.div (Double.of_int 7) Double.d_0_07) = Some 99.
Proof. reflexivity. Qed.

Example sleep_of_a_tenth :
  Double.to_long (Double.mul Double.d_0_1 Double.d_1e9) = Some 100000000.
Proof. reflexivity. Qed.

Example mask_of_70_nodes :
  ChangePolicy.fill_mask 64 70 (replicate 2 0) = [18446744073709551615; 63].
Proof. reflexivity. Qed.

Example fresh_log_starts_with_header :
  NumaStatLogger.headers
    (NumaStatLogger.trace_of (NumaStatLogger.main 20 Examples.one_node Examples.argv_d_2_01_1))
  = 1%nat
  /\ length (NumaStatLogger.rows
       (NumaStatLogger.trace_of (NumaStatLogger.main 20 Examples.one_node Examples.argv_d_2_01_1)))
     = 10%nat.
Proof. vm_compute. split; reflexivity. Qed.

(** * Further properties of the code *)

Section PolicyToolFacts.

Import ChangePolicy.

Variable word_bits : Z.
Hypothesis word_bits_ge : 32 <= word_bits.

Local Abbreviation word_fits := (MaskWords.word_fits word_bits).

Lemma word_fits_set_node (nmask : list Z) (i : Z) :
  Forall word_fits nmask -> Forall word_fits (set_node word_bits nmask i).
Proof.
  intros H. unfold set_node.
  apply Forall_lookup_2. intros j w Hj.
  destruct (decide (j = Z.to_nat (i / word_bits))) as [->|Hne].
  - rewrite list_lookup_alter_eq in Hj.
    destruct (nmask !! Z.to_nat (i / word_bits)) as [w0|] eqn:E; [|discriminate].
    simpl in Hj. injection Hj as <-.
    pose proof (Forall_lookup_1 _ _ _ _ H E) as Hw0.
    intros k Hk. rewrite Z.lor_spec, (Hw0 k Hk).
    pose proof (Z.mod_pos_bound i word_bits ltac:(lia)) as Hm.
    rewrite (testbit_one_shl (i mod word_bits) k) by lia.
    simpl. apply Z.eqb_neq. lia.
  - rewrite list_lookup_alter_ne in Hj by congruence.
    exact (Forall_lookup_1 _ _ _ _ H Hj).
Qed.

Lemma word_fits_set_nodes (todo : nat) (i : Z) (nmask : list Z) :
  Forall word_fits nmask -> Forall word_fits (set_nodes word_bits todo i nmask).
Proof.
  revert i nmask. induction todo as [|todo IH]; intros i nmask H; simpl.
  - exact H.
  - apply IH, word_fits_set_node, H.
Qed.

Lemma word_fits_zeroed (n : nat) : Forall word_fits (replicate n 0).
Proof.
  apply Forall_replicate. intros k _. apply Z.testbit_0_l.
Qed.

(** Every word of the mask built for a positive [nodecount]. *)
Lemma fill_mask_words (n : Z) (j : nat) (w : Z) :
  1 <= n <= CInt.INT_MAX ->
  fill_mask word_bits n (replicate (Z.to_nat (mask_words word_bits n)) 0) !! j = Some w ->
  w = Z.ones (Z.min word_bits (n - Z.of_nat j * word_bits)).
Proof.
  intros Hn Hj.
  destruct (fill_mask_spec word_bits word_bits_ge n Hn) as [Hlen Hbits].
  pose proof (mask_words_ceil word_bits word_bits_ge n Hn) as Hceil.
  set (nmask := fill_mask _ _ _) in *.
  assert (Hfit : word_fits w).
  { apply (Forall_lookup_1 _ _ _ _ (word_fits_set_nodes _ 0 _ (word_fits_zeroed _)) Hj). }
  assert (Hjlt : Z.of_nat j < mask_words word_bits n).
  { apply lookup_lt_Some in Hj. lia. }
  assert (Hpos : 0 < Z.min word_bits (n - Z.of_nat j * word_bits)) by nia.
  apply Z.bits_inj'. intros k Hk.
  destruct (Z.ltb_spec k word_bits) as [Hlt|Hge].
  - specialize (Hbits (Z.of_nat j * word_bits + k) ltac:(nia)).
    unfold mask_bit in Hbits.
    rewrite Z.div_add_l in Hbits by lia.
    rewrite (Z.add_comm (Z.of_nat j * word_bits) k), Z.mod_add in Hbits by lia.
    rewrite Z.div_small, Z.mod_small, Z.add_0_r, Nat2Z.id in Hbits by lia.
    rewrite nth_lookup, Hj in Hbits. simpl in Hbits. rewrite Hbits.
    rewrite Z.testbit_ones_nonneg by lia.
    destruct (Z.ltb_spec (Z.of_nat j * word_bits + k) n),
             (Z.ltb_spec k (Z.min word_bits (n - Z.of_nat j * word_bits)));
      try reflexivity; lia.
  - rewrite (Hfit k Hge). symmetry.
    rewrite Z.testbit_ones_nonneg by lia.
    apply Z.ltb_ge. lia.
Qed.

(** X1.  Whenever the tool makes its request for a node count [n >= 1],
    word [j] of the mask is [2^min(word_bits, n - j*word_bits) - 1]: all
    words before the last are full, the last holds the remaining low
    bits, and no word is zero or exceeds an [unsigned long]. *)
Theorem nodemask_words_closed_form (o : os) (argv : list string)
        (nr pid mode : Z) (nmask : list Z) (n : Z) :
  In (Syscall nr pid mode nmask n) (trace (main word_bits o argv)) ->
  1 <= n ->
  nmask = map (fun j => Z.ones (Z.min word_bits (n - Z.of_nat j * word_bits)))
              (seq 0 (length nmask))
  /\ Forall (fun w => 0 < w < 2 ^ word_bits) nmask.
Proof.
  unfold main. intros Hin Hn.
  destruct (Z.of_nat (length argv) <? 4).
  { simpl in Hin. destruct Hin as [Hin|[]]. discriminate Hin. }
  unfold calloc in Hin.
  destruct (calloc_ok o _).
  2:{ simpl in Hin. destruct Hin as [Hin|[]]. discriminate Hin. }
  simpl in Hin. destruct Hin as [Hin|[Hin|[Hin|[]]]].
  2:{ destruct (negb _); discriminate Hin. }
  2:{ discriminate Hin. }
  injection Hin as _ _ _ Hmask Hcount.
  pose proof (atoi_range (nth 3 argv EmptyString)) as Hrange.
  rewrite Hcount in *.
  assert (Hn' : 1 <= n <= CInt.INT_MAX) by lia.
  destruct (fill_mask_spec word_bits word_bits_ge n Hn') as [Hlen _].
  pose proof (mask_words_ceil word_bits word_bits_ge n Hn') as Hceil.
  rewrite Hmask in Hlen.
  assert (Hwords : forall j w, nmask !! j = Some w ->
            w = Z.ones (Z.min word_bits (n - Z.of_nat j * word_bits))).
  { intros j w Hj. rewrite <- Hmask in Hj. exact (fill_mask_words n j w Hn' Hj). }
  split.
  - apply list_eq. intros j. rewrite list_lookup_fmap.
    destruct (nmask !! j) as [w|] eqn:Hj.
    + rewrite (lookup_seq_lt _ _ _ (lookup_lt_Some _ _ _ Hj)). cbn.
      f_equal. apply (Hwords j w Hj).
    + apply lookup_ge_None in Hj. rewrite lookup_seq_ge by lia. reflexivity.
  - apply Forall_lookup_2. intros j w Hj.
    rewrite (Hwords j w Hj). apply lookup_lt_Some in Hj.
    set (m := Z.min word_bits (n - Z.of_nat j * word_bits)) in *.
    assert (Hm : 0 < m <= word_bits) by (subst m; nia).
    rewrite Z.ones_equiv.
    assert (2 ^ 1 <= 2 ^ m) by (apply Z.pow_le_mono_r; lia).
    assert (2 ^ m <= 2 ^ word_bits) by (apply Z.pow_le_mono_r; lia).
    change (2 ^ 1) with 2 in *. lia.
Qed.

(** X2.  The exit status is 0 exactly when three arguments were given and
    the mask could be allocated, whatever the kernel answers; otherwise it
    is 1 and the tool has made no request. *)
Theorem exit_status_ignores_kernel (o : os) (argv : list string) :
  let r := main word_bits o argv in
  let ready :=
    (4 <=? Z.of_nat (length argv))
    && calloc_ok o (mask_words word_bits (CStr.atoi (nth 3 argv EmptyString))) in
  exit_code r = (if ready then 0 else 1)
  /\ (forall nr pid mode nmask n,
        In (Syscall nr pid mode nmask n) (trace r) -> ready = true)
  /\ (In Free (trace r) <-> ready = true).
Proof.
  unfold main, calloc.
  destruct (Z.ltb_spec (Z.of_nat (length argv)) 4) as [Hlt|Hge];
    destruct (Z.leb_spec 4 (Z.of_nat (length argv))) as [Hle|Hnle]; try lia; simpl.
  - split; [reflexivity|]. split.
    + intros ? ? ? ? ? [H|[]]. discriminate H.
    + split; [intros [H|[]]; discriminate H | discriminate].
  - destruct (calloc_ok o _); simpl.
    + split; [reflexivity|]. split; [reflexivity|].
      split; [reflexivity|]. right. right. left. reflexivity.
    + split; [reflexivity|]. split.
      * intros ? ? ? ? ? [H|[]]. discriminate H.
      * split; [intros [H|[]]; discriminate H | discriminate].
Qed.

Lemma set_nodes_none (i : Z) (nmask : list Z) (n : Z) :
  n <= 0 -> fill_mask word_bits n nmask = nmask.
Proof.
  intros Hn. unfold fill_mask.
  replace (Z.to_nat n) with O by lia. reflexivity.
Qed.

(** X3.  A node count that is zero, negative or not a number is not
    rejected: the request is still made, with that count and a mask in
    which no bit is set (no word at all for a count of zero). *)
Theorem nonpositive_nodecount_empty_mask (o : os) (argv : list string) :
  (4 <= length argv)%nat ->
  let n := CStr.atoi (nth 3 argv EmptyString) in
  n <= 0 ->
  calloc_ok o (mask_words word_bits n) = true ->
  exists report,
    trace (main word_bits o argv)
    = [Syscall 470 (CStr.atoi (nth 1 argv EmptyString))
               (CStr.atoi (nth 2 argv EmptyString))
               (replicate (Z.to_nat (mask_words word_bits n)) 0) n;
       report; Free]
    /\ exit_code (main word_bits o argv) = 0
    /\ (n = 0 -> mask_words word_bits n = 0).
Proof.
  intros Hargc n Hn Hok. unfold main, calloc.
  destruct (Z.ltb_spec (Z.of_nat (length argv)) 4) as [Hlt|_]; [lia|].
  fold n. rewrite Hok. simpl.
  rewrite (set_nodes_none 0 _ n Hn).
  eexists. split; [reflexivity|]. split; [reflexivity|].
  intros ->. unfold mask_words.
  destruct (pow_word_bits word_bits word_bits_ge) as [_ Hlin].
  rewrite Z.mod_small by lia. apply Z.div_small. lia.
Qed.

End PolicyToolFacts.

Section ScanFacts.

Import CStr NumaStatLogger.

Lemma skip_space_blanks (n : nat) (x : string) :
  skip_space (Meminfo.blanks n ++ x) = skip_space x.
Proof.
  induction n as [|n IH]; [reflexivity|]. exact IH.
Qed.

Lemma is_digit_not_space (c : ascii) : is_digit c = true -> is_space c = false.
Proof.
  unfold is_digit, is_space. intros H.
  apply andb_prop in H as [H1 H2].
  apply Nat.leb_le in H1. apply Nat.leb_le in H2.
  apply orb_false_intro.
  - apply Nat.eqb_neq. lia.
  - apply andb_false_intro2. apply Nat.leb_gt. lia.
Qed.

Lemma read_sign_digit (c : ascii) (s : string) :
  is_digit c = true -> read_sign (String c s) = (false, String c s).
Proof.
  destruct c as [[] [] [] [] [] [] [] []]; intros H;
    try discriminate H; reflexivity.
Qed.

Lemma read_digits_app (ds tail : string) (acc : Z) (cnt : nat) :
  all_digits ds = true ->
  match tail with EmptyString => true | String c _ => negb (is_digit c) end = true ->
  read_digits acc cnt (ds ++ tail)
  = ((cnt + String.length ds)%nat,
     acc * 10 ^ Z.of_nat (String.length ds) + dec_value ds, tail).
Proof.
  intros Hds Htail. revert acc cnt.
  induction ds as [|c ds IH]; intros acc cnt.
  - cbn [append String.length dec_value]. rewrite Nat.add_0_r.
    change (10 ^ Z.of_nat 0) with 1. rewrite Z.mul_1_r, Z.add_0_r.
    destruct tail as [|c t]; [reflexivity|].
    cbn [read_digits]. apply negb_true_iff in Htail. rewrite Htail. reflexivity.
  - cbn [all_digits] in Hds. apply andb_prop in Hds as [Hc Hds].
    cbn [append read_digits]. rewrite Hc, (IH Hds).
    cbn [String.length dec_value].
    rewrite Nat2Z.inj_succ, Z.pow_succ_r by lia.
    f_equal. f_equal; [lia | ring].
Qed.

(** [%u] on a number as the kernel prints it, after any blanks. *)
Lemma scan_u_fmt_nat (n : nat) (v : Z) (tail : string) :
  0 <= v < CInt.ULONG_MOD ->
  match tail with EmptyString => true | String c _ => negb (is_digit c) end = true ->
  scan_u (Meminfo.blanks n ++ fmt_nat v ++ tail) = Some (CInt.to_unsigned v, tail).
Proof.
  intros Hv Htail. unfold CInt.ULONG_MOD in Hv.
  unfold scan_u. rewrite skip_space_blanks.
  pose proof (all_digits_fmt_nat v) as Hall.
  destruct (fmt_nat_cons v) as (c & s & E).
  assert (Hc : is_digit c = true).
  { rewrite E in Hall. cbn [all_digits] in Hall. apply andb_prop in Hall. tauto. }
  assert (Hskip : skip_space (fmt_nat v ++ tail) = fmt_nat v ++ tail).
  { rewrite E. cbn [append skip_space]. rewrite (is_digit_not_space c Hc). reflexivity. }
  rewrite Hskip.
  assert (Hsign : read_sign (fmt_nat v ++ tail) = (false, fmt_nat v ++ tail)).
  { rewrite E. cbn [append]. apply read_sign_digit, Hc. }
  rewrite Hsign, (read_digits_app _ _ 0 0 Hall Htail).
  rewrite dec_value_fmt_nat by lia.
  rewrite E. cbn [String.length Nat.add].
  unfold CInt.ULONG_MOD in *.
  destruct (Z.leb_spec 18446744073709551616 (0 * 10 ^ Z.of_nat (S (String.length s)) + v));
    [lia|].
  rewrite Z.mul_0_l, Z.add_0_l. reflexivity.
Qed.

Lemma read_word_key (room : nat) (k x : string) :
  Vmstat.no_space k = true ->
  (String.length k <= room)%nat ->
  match x with EmptyString => true | String c _ => is_space c end = true ->
  read_word room (k ++ x) = (k, x).
Proof.
  revert room. induction k as [|c k IH]; intros room Hk Hlen Hx.
  - cbn [append]. destruct room as [|room]; [destruct x; reflexivity|].
    destruct x as [|c t]; [reflexivity|].
    cbn [read_word]. rewrite Hx. reflexivity.
  - cbn [Vmstat.no_space] in Hk. apply andb_prop in Hk as [Hc Hk].
    apply negb_true_iff in Hc.
    destruct room as [|room]; [cbn [String.length] in Hlen; lia|].
    cbn [append read_word]. rewrite Hc.
    rewrite (IH room Hk ltac:(cbn [String.length] in Hlen; lia) Hx). reflexivity.
Qed.

Lemma skip_space_key (k x : string) :
  Vmstat.no_space k = true -> (1 <= String.length k)%nat ->
  skip_space (k ++ x) = (k ++ x)%string.
Proof.
  destruct k as [|c k]; [cbn [String.length]; lia|].
  cbn [Vmstat.no_space]. intros Hk _.
  apply andb_prop in Hk as [Hc _]. apply negb_true_iff in Hc.
  cbn [append skip_space]. rewrite Hc. reflexivity.
Qed.

(** One line [<key> <value>] of a vmstat file, as [fscanf] reads it. *)
Lemma fscanf_key_val_line (k : string) (v : Z) (tail : string) :
  Vmstat.is_key k = true -> Vmstat.is_ulong v = true ->
  fscanf_key_val (k ++ " " ++ fmt_nat v ++ endl ++ tail)
  = Some (k, CInt.to_unsigned v, (endl ++ tail)%string).
Proof.
  unfold Vmstat.is_key, Vmstat.is_ulong. intros Hk Hv.
  apply andb_prop in Hk as [Hk H127]. apply andb_prop in Hk as [Hns H1].
  apply Nat.leb_le in H127. apply Nat.leb_le in H1.
  apply andb_prop in Hv as [Hv0 Hv1].
  apply Z.leb_le in Hv0. apply Z.ltb_lt in Hv1.
  unfold fscanf_key_val.
  rewrite (skip_space_key _ _ Hns H1).
  rewrite (read_word_key 127 k (" " ++ fmt_nat v ++ endl ++ tail) Hns H127 eq_refl).
  destruct k as [|c k]; [cbn [String.length] in H1; lia|].
  change (" " ++ fmt_nat v ++ endl ++ tail)%string
    with (Meminfo.blanks 1 ++ fmt_nat v ++ (endl ++ tail))%string.
  rewrite (scan_u_fmt_nat 1 v (endl ++ tail) (conj Hv0 Hv1) eq_refl). reflexivity.
Qed.

Lemma fscanf_key_val_endl (x : string) :
  fscanf_key_val (endl ++ x) = fscanf_key_val x.
Proof. reflexivity. Qed.

Lemma key_values_text_of (pairs : list (string * Z)) :
  Forall (fun kv => Vmstat.is_key kv.1 = true /\ Vmstat.is_ulong kv.2 = true) pairs ->
  forall fuel,
    (length pairs <= fuel)%nat ->
    Vmstat.key_values fuel (Vmstat.text_of pairs) = Vmstat.stored pairs
    /\ Vmstat.key_values fuel (endl ++ Vmstat.text_of pairs) = Vmstat.stored pairs.
Proof.
  induction 1 as [|[k v] pairs [Hk Hv] _ IH]; intros fuel Hfuel.
  - destruct fuel; split; reflexivity.
  - destruct fuel as [|fuel]; [cbn [length] in Hfuel; lia|].
    cbn [fst snd] in Hk, Hv.
    cbn [Vmstat.key_values Vmstat.text_of Vmstat.stored map fst snd].
    rewrite fscanf_key_val_endl, (fscanf_key_val_line k v _ Hk Hv).
    destruct (IH fuel ltac:(cbn [length] in Hfuel; lia)) as [_ IH2].
    rewrite IH2. split; reflexivity.
Qed.

Lemma length_text_of (pairs : list (string * Z)) :
  (length pairs <= String.length (Vmstat.text_of pairs))%nat.
Proof.
  induction pairs as [|[k v] pairs IH]; [cbn; lia|].
  cbn [Vmstat.text_of length]. rewrite !length_append.
  change (String.length endl) with 1%nat. lia.
Qed.

End ScanFacts.
Section FirstOccurrence.

Import CStr NumaStatLogger Vmstat.

(** The loop of [parse_node_vmstat] and of [parse_sys_vmstat], seen from
    one counter: its flag, its field and its key, in a loop that stops
    when [total] counters were found. *)
Context {record found : Type}.
Variable step : string -> Z -> record * found * Z -> record * found * Z.
Variable count : found -> Z.
Variable total : Z.
Variable scan : nat -> string -> record * found * Z -> record.
Variable flag : found -> bool.
Variable field : record -> Z.
Variable name : string.

Hypothesis scan_0 : forall stream st, scan O stream st = fst (fst st).
Hypothesis scan_S : forall fuel stream st,
  scan (S fuel) stream st
  = match fscanf_key_val stream with
    | None => fst (fst st)
    | Some (key, val, rest) =>
        let st' := step key val st in
        if snd st' =? total then fst (fst st') else scan fuel rest st'
    end.
Hypothesis step_count : forall key val r f,
  snd (step key val (r, f, count f)) = count (snd (fst (step key val (r, f, count f)))).
Hypothesis step_flag : forall key val r f,
  flag (snd (fst (step key val (r, f, count f)))) = flag f || String.eqb key name.
Hypothesis step_field : forall key val r f,
  field (fst (fst (step key val (r, f, count f))))
  = if negb (flag f) && String.eqb key name then val else field r.
Hypothesis count_total : forall f, count f = total -> flag f = true.

Lemma scan_first_occurrence (fuel : nat) (stream : string) (r : record) (f : found) :
  field (scan fuel stream (r, f, count f))
  = if flag f then field r
    else first_or (field r) name (key_values fuel stream).
Proof.
  revert stream r f. induction fuel as [|fuel IH]; intros stream r f.
  - rewrite scan_0. cbn [fst key_values first_or]. destruct (flag f); reflexivity.
  - rewrite scan_S. cbn [key_values].
    destruct (fscanf_key_val stream) as [[[key val] rest]|].
    2:{ cbn [fst first_or]. destruct (flag f); reflexivity. }
    pose proof (step_count key val r f) as Hc.
    pose proof (step_flag key val r f) as Hf.
    pose proof (step_field key val r f) as Hv.
    destruct (step key val (r, f, count f)) as [[r' f'] c'].
    cbn [fst snd] in *. subst c'. cbn [first_or].
    destruct (Z.eqb_spec (count f') total) as [Hfull|_].
    + apply count_total in Hfull. rewrite Hfull in Hf. rewrite Hv.
      destruct (flag f), (String.eqb key name); try reflexivity.
      discriminate Hf.
    + rewrite IH, Hf, Hv.
      destruct (flag f), (String.eqb key name); reflexivity.
Qed.

End FirstOccurrence.

Section VmstatFacts.

Import CStr NumaStatLogger Vmstat.

Lemma node_vmstat_step_spec (key : string) (val : Z) (r : node_vmstat)
      (f : node_found) :
  let st' := node_vmstat_step key val (r, f, node_found_count f) in
  snd st' = node_found_count (snd (fst st'))
  /\ (f_nr_free_pages (snd (fst st')) = f_nr_free_pages f || String.eqb key "nr_free_pages"
      /\ nr_free_pages (fst (fst st'))
         = if negb (f_nr_free_pages f) && String.eqb key "nr_free_pages"
           then val else nr_free_pages r)
  /\ (f_numa_hit (snd (fst st')) = f_numa_hit f || String.eqb key "numa_hit"
      /\ numa_hit (fst (fst st'))
         = if negb (f_numa_hit f) && String.eqb key "numa_hit"
           then val else numa_hit r)
  /\ (f_numa_miss (snd (fst st')) = f_numa_miss f || String.eqb key "numa_miss"
      /\ numa_miss (fst (fst st'))
         = if negb (f_numa_miss f) && String.eqb key "numa_miss"
           then val else numa_miss r)
  /\ (f_numa_foreign (snd (fst st')) = f_numa_foreign f || String.eqb key "numa_foreign"
      /\ numa_foreign (fst (fst st'))
         = if negb (f_numa_foreign f) && String.eqb key "numa_foreign"
           then val else numa_foreign r)
  /\ (f_numa_interleave (snd (fst st')) = f_numa_interleave f || String.eqb key "numa_interleave"
      /\ numa_interleave (fst (fst st'))
         = if negb (f_numa_interleave f) && String.eqb key "numa_interleave"
           then val else numa_interleave r)
  /\ (f_numa_local (snd (fst st')) = f_numa_local f || String.eqb key "numa_local"
      /\ numa_local (fst (fst st'))
         = if negb (f_numa_local f) && String.eqb key "numa_local"
           then val else numa_local r)
  /\ (f_numa_other (snd (fst st')) = f_numa_other f || String.eqb key "numa_other"
      /\ numa_other (fst (fst st'))
         = if negb (f_numa_other f) && String.eqb key "numa_other"
           then val else numa_other r).
Proof.
  destruct r as [a b c0 d e g h].
  destruct f as [fa fb fc fd fe fg fh].
  unfold node_found_count, node_vmstat_step.
  cbn [f_nr_free_pages f_numa_hit f_numa_miss f_numa_foreign f_numa_interleave f_numa_local f_numa_other].
  destruct (String.eqb_spec key "nr_free_pages") as [->|_].
  { cbn [String.eqb Ascii.eqb Bool.eqb].
    rewrite ?andb_false_r, ?andb_true_r, ?orb_false_r.
    destruct fa; cbn; repeat split; try reflexivity; lia. }
  destruct (String.eqb_spec key "numa_hit") as [->|_].
  { cbn [String.eqb Ascii.eqb Bool.eqb].
    rewrite ?andb_false_r, ?andb_true_r, ?orb_false_r.
    destruct fb; cbn; repeat split; try reflexivity; lia. }
  destruct (String.eqb_spec key "numa_miss") as [->|_].
  { cbn [String.eqb Ascii.eqb Bool.eqb].
    rewrite ?andb_false_r, ?andb_true_r, ?orb_false_r.
    destruct fc; cbn; repeat split; try reflexivity; lia. }
  destruct (String.eqb_spec key "numa_foreign") as [->|_].
  { cbn [String.eqb Ascii.eqb Bool.eqb].
    rewrite ?andb_false_r, ?andb_true_r, ?orb_false_r.
    destruct fd; cbn; repeat split; try reflexivity; lia. }
  destruct (String.eqb_spec key "numa_interleave") as [->|_].
  { cbn [String.eqb Ascii.eqb Bool.eqb].
    rewrite ?andb_false_r, ?andb_true_r, ?orb_false_r.
    destruct fe; cbn; repeat split; try reflexivity; lia. }
  destruct (String.eqb_spec key "numa_local") as [->|_].
  { cbn [String.eqb Ascii.eqb Bool.eqb].
    rewrite ?andb_false_r, ?andb_true_r, ?orb_false_r.
    destruct fg; cbn; repeat split; try reflexivity; lia. }
  destruct (String.eqb_spec key "numa_other") as [->|_].
  { cbn [String.eqb Ascii.eqb Bool.eqb].
    rewrite ?andb_false_r, ?andb_true_r, ?orb_false_r.
    destruct fh; cbn; repeat split; try reflexivity; lia. }
  rewrite ?andb_false_r, ?orb_false_r. cbn. repeat split; reflexivity.
Qed.

Lemma node_found_count_full (f : node_found) :
  node_found_count f = 7 ->
  f_nr_free_pages f = true /\ f_numa_hit f = true /\ f_numa_miss f = true
  /\ f_numa_foreign f = true /\ f_numa_interleave f = true
  /\ f_numa_local f = true /\ f_numa_other f = true.
Proof.
  destruct f as [[] [] [] [] [] [] []]; cbn; intros H;
    try discriminate H; repeat split; reflexivity.
Qed.

Lemma scan_node_vmstat_fields (fuel : nat) (stream : string) (r : node_vmstat) :
  scan_node_vmstat fuel stream (r, node_none, 0)
  = let pairs := key_values fuel stream in
    {| nr_free_pages := first_or (nr_free_pages r) "nr_free_pages" pairs;
       numa_hit := first_or (numa_hit r) "numa_hit" pairs;
       numa_miss := first_or (numa_miss r) "numa_miss" pairs;
       numa_foreign := first_or (numa_foreign r) "numa_foreign" pairs;
       numa_interleave := first_or (numa_interleave r) "numa_interleave" pairs;
       numa_local := first_or (numa_local r) "numa_local" pairs;
       numa_other := first_or (numa_other r) "numa_other" pairs |}.
Proof.
  pose proof (fun flag field name Hf Hv Ht =>
    scan_first_occurrence node_vmstat_step node_found_count 7 scan_node_vmstat
      flag field name (fun _ _ => eq_refl) (fun _ _ _ => eq_refl)
      (fun key val r f => proj1 (node_vmstat_step_spec key val r f))
      Hf Hv Ht fuel stream r node_none) as H.
  change (node_found_count node_none) with 0 in H.
  pose proof (H f_nr_free_pages nr_free_pages "nr_free_pages"
    (fun key val r f => proj1 (proj1 (proj2 (node_vmstat_step_spec key val r f))))
    (fun key val r f => proj2 (proj1 (proj2 (node_vmstat_step_spec key val r f))))
    (fun f Hf => proj1 (node_found_count_full f Hf))) as H1.
  pose proof (H f_numa_hit numa_hit "numa_hit"
    (fun key val r f => proj1 (proj1 (proj2 (proj2 (node_vmstat_step_spec key val r f)))))
    (fun key val r f => proj2 (proj1 (proj2 (proj2 (node_vmstat_step_spec key val r f)))))
    (fun f Hf => proj1 (proj2 (node_found_count_full f Hf)))) as H2.
  pose proof (H f_numa_miss numa_miss "numa_miss"
    (fun key val r f => proj1 (proj1 (proj2 (proj2 (proj2 (node_vmstat_step_spec key val r f))))))
    (fun key val r f => proj2 (proj1 (proj2 (proj2 (proj2 (node_vmstat_step_spec key val r f))))))
    (fun f Hf => proj1 (proj2 (proj2 (node_found_count_full f Hf))))) as H3.
  pose proof (H f_numa_foreign numa_foreign "numa_foreign"
    (fun key val r f => proj1 (proj1 (proj2 (proj2 (proj2 (proj2 (node_vmstat_step_spec key val r f)))))))
    (fun key val r f => proj2 (proj1 (proj2 (proj2 (proj2 (proj2 (node_vmstat_step_spec key val r f)))))))
    (fun f Hf => proj1 (proj2 (proj2 (proj2 (node_found_count_full f Hf)))))) as H4.
  pose proof (H f_numa_interleave numa_interleave "numa_interleave"
    (fun key val r f => proj1 (proj1 (proj2 (proj2 (proj2 (proj2 (proj2 (node_vmstat_step_spec key val r f))))))))
    (fun key val r f => proj2 (proj1 (proj2 (proj2 (proj2 (proj2 (proj2 (node_vmstat_step_spec key val r f))))))))
    (fun f Hf => proj1 (proj2 (proj2 (proj2 (proj2 (node_found_count_full f Hf))))))) as H5.
  pose proof (H f_numa_local numa_local "numa_local"
    (fun key val r f => proj1 (proj1 (proj2 (proj2 (proj2 (proj2 (proj2 (proj2 (node_vmstat_step_spec key val r f)))))))))
    (fun key val r f => proj2 (proj1 (proj2 (proj2 (proj2 (proj2 (proj2 (proj2 (node_vmstat_step_spec key val r f)))))))))
    (fun f Hf => proj1 (proj2 (proj2 (proj2 (proj2 (proj2 (node_found_count_full f Hf)))))))) as H6.
  pose proof (H f_numa_other numa_other "numa_other"
    (fun key val r f => proj1 (proj2 (proj2 (proj2 (proj2 (proj2 (proj2 (proj2 (node_vmstat_step_spec key val r f)))))))))
    (fun key val r f => proj2 (proj2 (proj2 (proj2 (proj2 (proj2 (proj2 (proj2 (node_vmstat_step_spec key val r f)))))))))
    (fun f Hf => proj2 (proj2 (proj2 (proj2 (proj2 (proj2 (node_found_count_full f Hf)))))))) as H7.
  clear H. cbn [node_none f_nr_free_pages f_numa_hit f_numa_miss
    f_numa_foreign f_numa_interleave f_numa_local f_numa_other] in *.
  destruct (scan_node_vmstat fuel stream (r, node_none, 0)).
  cbn [nr_free_pages numa_hit numa_miss numa_foreign numa_interleave numa_local
       numa_other] in *.
  cbv zeta. congruence.
Qed.

(** X4.  [parse_node_vmstat] leaves the record alone when the file cannot
    be opened; otherwise each of its seven counters takes the value of
    the first [<key> <value>] pair read under its name, and keeps its old
    value when no pair has that name. *)
Theorem parse_node_vmstat_first_occurrence (fopen : reader) (r : node_vmstat)
        (path : string) :
  parse_node_vmstat fopen r path
  = match fopen path with
    | None => r
    | Some text =>
        let pairs := key_values (S (String.length text)) text in
        {| nr_free_pages := first_or (nr_free_pages r) "nr_free_pages" pairs;
           numa_hit := first_or (numa_hit r) "numa_hit" pairs;
           numa_miss := first_or (numa_miss r) "numa_miss" pairs;
           numa_foreign := first_or (numa_foreign r) "numa_foreign" pairs;
           numa_interleave := first_or (numa_interleave r) "numa_interleave" pairs;
           numa_local := first_or (numa_local r) "numa_local" pairs;
           numa_other := first_or (numa_other r) "numa_other" pairs |}
    end.
Proof.
  unfold parse_node_vmstat. destruct (fopen path) as [text|]; [|reflexivity].
  apply scan_node_vmstat_fields.
Qed.

End VmstatFacts.
Section SysVmstatFacts.

Import CStr NumaStatLogger Vmstat.

Lemma sys_vmstat_step_spec (key : string) (val : Z) (r : sys_vmstat)
      (f : sys_found) :
  let st' := sys_vmstat_step key val (r, f, sys_found_count f) in
  snd st' = sys_found_count (snd (fst st'))
  /\ (f_numa_pte_updates (snd (fst st')) = f_numa_pte_updates f || String.eqb key "numa_pte_updates"
      /\ numa_pte_updates (fst (fst st'))
         = if negb (f_numa_pte_updates f) && String.eqb key "numa_pte_updates"
           then val else numa_pte_updates r)
  /\ (f_numa_huge_pte_updates (snd (fst st')) = f_numa_huge_pte_updates f || String.eqb key "numa_huge_pte_updates"
      /\ numa_huge_pte_updates (fst (fst st'))
         = if negb (f_numa_huge_pte_updates f) && String.eqb key "numa_huge_pte_updates"
           then val else numa_huge_pte_updates r)
  /\ (f_numa_pages_migrated (snd (fst st')) = f_numa_pages_migrated f || String.eqb key "numa_pages_migrated"
      /\ numa_pages_migrated (fst (fst st'))
         = if negb (f_numa_pages_migrated f) && String.eqb key "numa_pages_migrated"
           then val else numa_pages_migrated r)
  /\ (f_pgmigrate_success (snd (fst st')) = f_pgmigrate_success f || String.eqb key "pgmigrate_success"
      /\ pgmigrate_success (fst (fst st'))
         = if negb (f_pgmigrate_success f) && String.eqb key "pgmigrate_success"
           then val else pgmigrate_success r)
  /\ (f_pgmigrate_fail (snd (fst st')) = f_pgmigrate_fail f || String.eqb key "pgmigrate_fail"
      /\ pgmigrate_fail (fst (fst st'))
         = if negb (f_pgmigrate_fail f) && String.eqb key "pgmigrate_fail"
           then val else pgmigrate_fail r)
  /\ (f_thp_migration_success (snd (fst st')) = f_thp_migration_success f || String.eqb key "thp_migration_success"
      /\ thp_migration_success (fst (fst st'))
         = if negb (f_thp_migration_success f) && String.eqb key "thp_migration_success"
           then val else thp_migration_success r)
  /\ (f_thp_migration_fail (snd (fst st')) = f_thp_migration_fail f || String.eqb key "thp_migration_fail"
      /\ thp_migration_fail (fst (fst st'))
         = if negb (f_thp_migration_fail f) && String.eqb key "thp_migration_fail"
           then val else thp_migration_fail r)
  /\ (f_thp_migration_split (snd (fst st')) = f_thp_migration_split f || String.eqb key "thp_migration_split"
      /\ thp_migration_split (fst (fst st'))
         = if negb (f_thp_migration_split f) && String.eqb key "thp_migration_split"
           then val else thp_migration_split r).
Proof.
  destruct r as [a b c0 d e g h i].
  destruct f as [fa fb fc fd fe fg fh fi].
  unfold sys_found_count, sys_vmstat_step.
  cbn [f_numa_pte_updates f_numa_huge_pte_updates f_numa_pages_migrated f_pgmigrate_success f_pgmigrate_fail f_thp_migration_success f_thp_migration_fail f_thp_migration_split].
  destruct (String.eqb_spec key "numa_pte_updates") as [->|_].
  { cbn [String.eqb Ascii.eqb Bool.eqb].
    rewrite ?andb_false_r, ?andb_true_r, ?orb_false_r.
    destruct fa; cbn; repeat split; try reflexivity; lia. }
  destruct (String.eqb_spec key "numa_huge_pte_updates") as [->|_].
  { cbn [String.eqb Ascii.eqb Bool.eqb].
    rewrite ?andb_false_r, ?andb_true_r, ?orb_false_r.
    destruct fb; cbn; repeat split; try reflexivity; lia. }
  destruct (String.eqb_spec key "numa_pages_migrated") as [->|_].
  { cbn [String.eqb Ascii.eqb Bool.eqb].
    rewrite ?andb_false_r, ?andb_true_r, ?orb_false_r.
    destruct fc; cbn; repeat split; try reflexivity; lia. }
  destruct (String.eqb_spec key "pgmigrate_success") as [->|_].
  { cbn [String.eqb Ascii.eqb Bool.eqb].
    rewrite ?andb_false_r, ?andb_true_r, ?orb_false_r.
    destruct fd; cbn; repeat split; try reflexivity; lia. }
  destruct (String.eqb_spec key "pgmigrate_fail") as [->|_].
  { cbn [String.eqb Ascii.eqb Bool.eqb].
    rewrite ?andb_false_r, ?andb_true_r, ?orb_false_r.
    destruct fe; cbn; repeat split; try reflexivity; lia. }
  destruct (String.eqb_spec key "thp_migration_success") as [->|_].
  { cbn [String.eqb Ascii.eqb Bool.eqb].
    rewrite ?andb_false_r, ?andb_true_r, ?orb_false_r.
    destruct fg; cbn; repeat split; try reflexivity; lia. }
  destruct (String.eqb_spec key "thp_migration_fail") as [->|_].
  { cbn [String.eqb Ascii.eqb Bool.eqb].
    rewrite ?andb_false_r, ?andb_true_r, ?orb_false_r.
    destruct fh; cbn; repeat split; try reflexivity; lia. }
  destruct (String.eqb_spec key "thp_migration_split") as [->|_].
  { cbn [String.eqb Ascii.eqb Bool.eqb].
    rewrite ?andb_false_r, ?andb_true_r, ?orb_false_r.
    destruct fi; cbn; repeat split; try reflexivity; lia. }
  rewrite ?andb_false_r, ?orb_false_r. cbn. repeat split; reflexivity.
Qed.

Lemma sys_found_count_full (f : sys_found) :
  sys_found_count f = 8 ->
  f_numa_pte_updates f = true
  /\ f_numa_huge_pte_updates f = true
  /\ f_numa_pages_migrated f = true
  /\ f_pgmigrate_success f = true
  /\ f_pgmigrate_fail f = true
  /\ f_thp_migration_success f = true
  /\ f_thp_migration_fail f = true
  /\ f_thp_migration_split f = true.
Proof.
  destruct f as [[] [] [] [] [] [] [] []]; cbn; intros H;
    try discriminate H; repeat split; reflexivity.
Qed.

Lemma scan_sys_vmstat_fields (fuel : nat) (stream : string) (r : sys_vmstat) :
  scan_sys_vmstat fuel stream (r, sys_none, 0)
  = let pairs := key_values fuel stream in
    {| numa_pte_updates := first_or (numa_pte_updates r) "numa_pte_updates" pairs;
       numa_huge_pte_updates := first_or (numa_huge_pte_updates r) "numa_huge_pte_updates" pairs;
       numa_pages_migrated := first_or (numa_pages_migrated r) "numa_pages_migrated" pairs;
       pgmigrate_success := first_or (pgmigrate_success r) "pgmigrate_success" pairs;
       pgmigrate_fail := first_or (pgmigrate_fail r) "pgmigrate_fail" pairs;
       thp_migration_success := first_or (thp_migration_success r) "thp_migration_success" pairs;
       thp_migration_fail := first_or (thp_migration_fail r) "thp_migration_fail" pairs;
       thp_migration_split := first_or (thp_migration_split r) "thp_migration_split" pairs |}.
Proof.
  pose proof (fun flag field name Hf Hv Ht =>
    scan_first_occurrence sys_vmstat_step sys_found_count 8 scan_sys_vmstat
      flag field name (fun _ _ => eq_refl) (fun _ _ _ => eq_refl)
      (fun key val r f => proj1 (sys_vmstat_step_spec key val r f))
      Hf Hv Ht fuel stream r sys_none) as H.
  change (sys_found_count sys_none) with 0 in H.
  pose proof (H f_numa_pte_updates numa_pte_updates "numa_pte_updates"
    (fun key val r f => proj1 (proj1 (proj2 (sys_vmstat_step_spec key val r f))))
    (fun key val r f => proj2 (proj1 (proj2 (sys_vmstat_step_spec key val r f))))
    (fun f Hf => proj1 (sys_found_count_full f Hf))) as H1.
  pose proof (H f_numa_huge_pte_updates numa_huge_pte_updates "numa_huge_pte_updates"
    (fun key val r f => proj1 (proj1 (proj2 (proj2 (sys_vmstat_step_spec key val r f)))))
    (fun key val r f => proj2 (proj1 (proj2 (proj2 (sys_vmstat_step_spec key val r f)))))
    (fun f Hf => proj1 (proj2 (sys_found_count_full f Hf)))) as H2.
  pose proof (H f_numa_pages_migrated numa_pages_migrated "numa_pages_migrated"
    (fun key val r f => proj1 (proj1 (proj2 (proj2 (proj2 (sys_vmstat_step_spec key val r f))))))
    (fun key val r f => proj2 (proj1 (proj2 (proj2 (proj2 (sys_vmstat_step_spec key val r f))))))
    (fun f Hf => proj1 (proj2 (proj2 (sys_found_count_full f Hf))))) as H3.
  pose proof (H f_pgmigrate_success pgmigrate_success "pgmigrate_success"
    (fun key val r f => proj1 (proj1 (proj2 (proj2 (proj2 (proj2 (sys_vmstat_step_spec key val r f)))))))
    (fun key val r f => proj2 (proj1 (proj2 (proj2 (proj2 (proj2 (sys_vmstat_step_spec key val r f)))))))
    (fun f Hf => proj1 (proj2 (proj2 (proj2 (sys_found_count_full f Hf)))))) as H4.
  pose proof (H f_pgmigrate_fail pgmigrate_fail "pgmigrate_fail"
    (fun key val r f => proj1 (proj1 (proj2 (proj2 (proj2 (proj2 (proj2 (sys_vmstat_step_spec key val r f))))))))
    (fun key val r f => proj2 (proj1 (proj2 (proj2 (proj2 (proj2 (proj2 (sys_vmstat_step_spec key val r f))))))))
    (fun f Hf => proj1 (proj2 (proj2 (proj2 (proj2 (sys_found_count_full f Hf))))))) as H5.
  pose proof (H f_thp_migration_success thp_migration_success "thp_migration_success"
    (fun key val r f => proj1 (proj1 (proj2 (proj2 (proj2 (proj2 (proj2 (proj2 (sys_vmstat_step_spec key val r f)))))))))
    (fun key val r f => proj2 (proj1 (proj2 (proj2 (proj2 (proj2 (proj2 (proj2 (sys_vmstat_step_spec key val r f)))))))))
    (fun f Hf => proj1 (proj2 (proj2 (proj2 (proj2 (proj2 (sys_found_count_full f Hf)))))))) as H6.
  pose proof (H f_thp_migration_fail thp_migration_fail "thp_migration_fail"
    (fun key val r f => proj1 (proj1 (proj2 (proj2 (proj2 (proj2 (proj2 (proj2 (proj2 (sys_vmstat_step_spec key val r f))))))))))
    (fun key val r f => proj2 (proj1 (proj2 (proj2 (proj2 (proj2 (proj2 (proj2 (proj2 (sys_vmstat_step_spec key val r f))))))))))
    (fun f Hf => proj1 (proj2 (proj2 (proj2 (proj2 (proj2 (proj2 (sys_found_count_full f Hf))))))))) as H7.
  pose proof (H f_thp_migration_split thp_migration_split "thp_migration_split"
    (fun key val r f => proj1 (proj2 (proj2 (proj2 (proj2 (proj2 (proj2 (proj2 (proj2 (sys_vmstat_step_spec key val r f))))))))))
    (fun key val r f => proj2 (proj2 (proj2 (proj2 (proj2 (proj2 (proj2 (proj2 (proj2 (sys_vmstat_step_spec key val r f))))))))))
    (fun f Hf => proj2 (proj2 (proj2 (proj2 (proj2 (proj2 (proj2 (sys_found_count_full f Hf))))))))) as H8.
  clear H. cbn [sys_none f_numa_pte_updates f_numa_huge_pte_updates f_numa_pages_migrated f_pgmigrate_success f_pgmigrate_fail f_thp_migration_success f_thp_migration_fail f_thp_migration_split] in *.
  destruct (scan_sys_vmstat fuel stream (r, sys_none, 0)).
  cbn [numa_pte_updates numa_huge_pte_updates numa_pages_migrated pgmigrate_success pgmigrate_fail thp_migration_success thp_migration_fail thp_migration_split] in *.
  cbv zeta. congruence.
Qed.

(** X5.  [parse_sys_vmstat] leaves the record alone when the file cannot
    be opened; otherwise each of its eight counters takes the value of
    the first [<key> <value>] pair read under its name, and keeps its old
    value when no pair has that name. *)
Theorem parse_sys_vmstat_first_occurrence (fopen : reader) (r : sys_vmstat)
        (path : string) :
  parse_sys_vmstat fopen r path
  = match fopen path with
    | None => r
    | Some text =>
        let pairs := key_values (S (String.length text)) text in
        {| numa_pte_updates := first_or (numa_pte_updates r) "numa_pte_updates" pairs;
       numa_huge_pte_updates := first_or (numa_huge_pte_updates r) "numa_huge_pte_updates" pairs;
       numa_pages_migrated := first_or (numa_pages_migrated r) "numa_pages_migrated" pairs;
       pgmigrate_success := first_or (pgmigrate_success r) "pgmigrate_success" pairs;
       pgmigrate_fail := first_or (pgmigrate_fail r) "pgmigrate_fail" pairs;
       thp_migration_success := first_or (thp_migration_success r) "thp_migration_success" pairs;
       thp_migration_fail := first_or (thp_migration_fail r) "thp_migration_fail" pairs;
       thp_migration_split := first_or (thp_migration_split r) "thp_migration_split" pairs |}
    end.
Proof.
  unfold parse_sys_vmstat. destruct (fopen path) as [text|]; [|reflexivity].
  apply scan_sys_vmstat_fields.
Qed.

End SysVmstatFacts.

Section KernelTextFacts.

Import CStr NumaStatLogger Vmstat.

(** X6.  On a file of [<key> <value>] lines as the kernel writes them,
    values up to [ULONG_MAX], each counter of a node is the value of the
    first line with its name cut to 32 bits, and keeps its old value
    when there is no such line. *)
Theorem parse_node_vmstat_kernel_text (fopen : reader) (r : node_vmstat)
        (path : string) (pairs : list (string * Z)) :
  Forall (fun kv => is_key kv.1 = true /\ is_ulong kv.2 = true) pairs ->
  fopen path = Some (text_of pairs) ->
  parse_node_vmstat fopen r path
  = {| nr_free_pages := first_or (nr_free_pages r) "nr_free_pages" (stored pairs);
       numa_hit := first_or (numa_hit r) "numa_hit" (stored pairs);
       numa_miss := first_or (numa_miss r) "numa_miss" (stored pairs);
       numa_foreign := first_or (numa_foreign r) "numa_foreign" (stored pairs);
       numa_interleave := first_or (numa_interleave r) "numa_interleave" (stored pairs);
       numa_local := first_or (numa_local r) "numa_local" (stored pairs);
       numa_other := first_or (numa_other r) "numa_other" (stored pairs) |}.
Proof.
  intros Hok Hopen. unfold parse_node_vmstat. rewrite Hopen.
  rewrite scan_node_vmstat_fields. cbv zeta.
  destruct (key_values_text_of pairs Hok (S (String.length (text_of pairs)))) as [-> _].
  { pose proof (length_text_of pairs). lia. }
  reflexivity.
Qed.

(** X7.  The same for the system-wide counters of [/proc/vmstat]. *)
Theorem parse_sys_vmstat_kernel_text (fopen : reader) (r : sys_vmstat)
        (path : string) (pairs : list (string * Z)) :
  Forall (fun kv => is_key kv.1 = true /\ is_ulong kv.2 = true) pairs ->
  fopen path = Some (text_of pairs) ->
  parse_sys_vmstat fopen r path
  = {| numa_pte_updates := first_or (numa_pte_updates r) "numa_pte_updates" (stored pairs);
       numa_huge_pte_updates :=
         first_or (numa_huge_pte_updates r) "numa_huge_pte_updates" (stored pairs);
       numa_pages_migrated := first_or (numa_pages_migrated r) "numa_pages_migrated" (stored pairs);
       pgmigrate_success := first_or (pgmigrate_success r) "pgmigrate_success" (stored pairs);
       pgmigrate_fail := first_or (pgmigrate_fail r) "pgmigrate_fail" (stored pairs);
       thp_migration_success :=
         first_or (thp_migration_success r) "thp_migration_success" (stored pairs);
       thp_migration_fail := first_or (thp_migration_fail r) "thp_migration_fail" (stored pairs);
       thp_migration_split :=
         first_or (thp_migration_split r) "thp_migration_split" (stored pairs) |}.
Proof.
  intros Hok Hopen. unfold parse_sys_vmstat. rewrite Hopen.
  rewrite scan_sys_vmstat_fields. cbv zeta.
  destruct (key_values_text_of pairs Hok (S (String.length (text_of pairs)))) as [-> _].
  { pose proof (length_text_of pairs). lia. }
  reflexivity.
Qed.

End KernelTextFacts.

Lemma parse_node_vmstat_kernel_text_witness :
  NumaStatLogger.parse_node_vmstat
    (fun _ => Some (Vmstat.text_of MoreExamples.vmstat_pairs))
    (NumaStatLogger.Build_node_vmstat 1 1 1 1 1 1 1) "vmstat"
  = NumaStatLogger.Build_node_vmstat 250000 81 2 1 1 1 1.
Proof.
  apply (parse_node_vmstat_kernel_text
           (fun _ => Some (Vmstat.text_of MoreExamples.vmstat_pairs))
           (NumaStatLogger.Build_node_vmstat 1 1 1 1 1 1 1) "vmstat"
           MoreExamples.vmstat_pairs).
  - repeat constructor.
  - reflexivity.
Defined.

Lemma parse_sys_vmstat_kernel_text_witness :
  NumaStatLogger.parse_sys_vmstat
    (fun _ => Some (Vmstat.text_of MoreExamples.sys_pairs))
    (NumaStatLogger.Build_sys_vmstat 0 0 0 0 0 0 0 0) "/proc/vmstat"
  = NumaStatLogger.Build_sys_vmstat 7 0 0 3 0 0 0 0.
Proof.
  apply (parse_sys_vmstat_kernel_text
           (fun _ => Some (Vmstat.text_of MoreExamples.sys_pairs))
           (NumaStatLogger.Build_sys_vmstat 0 0 0 0 0 0 0 0) "/proc/vmstat"
           MoreExamples.sys_pairs).
  - repeat constructor.
  - reflexivity.
Defined.

Section MeminfoTextFacts.

Import CStr NumaStatLogger Meminfo.

Lemma take_all (n : nat) (s : string) :
  (String.length s <= n)%nat -> take n s = s.
Proof.
  revert n. induction s as [|c s IH]; intros n H.
  - destruct n; reflexivity.
  - destruct n as [|n]; [cbn [String.length] in H; lia|].
    cbn [take]. rewrite IH by (cbn [String.length] in H; lia). reflexivity.
Qed.

Lemma eqb_ascii_refl (c : ascii) : Ascii.eqb c c = true.
Proof. apply Ascii.eqb_refl. Qed.

Lemma has_prefix_app (p x : string) : has_prefix p (p ++ x) = true.
Proof.
  induction p as [|c p IH]; [reflexivity|].
  cbn [append has_prefix]. rewrite eqb_ascii_refl, IH. reflexivity.
Qed.

Lemma strstr_prefix (p x : string) : strstr (p ++ x) p = true.
Proof.
  pose proof (has_prefix_app p x) as H.
  destruct (p ++ x)%string; cbn [strstr]; rewrite H; reflexivity.
Qed.

Lemma drop_app (p x : string) : drop (String.length p) (p ++ x) = x.
Proof.
  induction p as [|c p IH]; [destruct x; reflexivity|]. exact IH.
Qed.

Lemma count_blanks (c : ascii) (n : nat) :
  c <> " "%char -> count_char c (blanks n) = O.
Proof.
  intros Hc. induction n as [|n IH]; [reflexivity|].
  cbn [blanks count_char].
  destruct (Ascii.eqb_spec " " c) as [E|_]; [congruence|exact IH].
Qed.

Lemma length_blanks (n : nat) : String.length (blanks n) = n.
Proof. induction n as [|n IH]; [reflexivity|]. cbn [blanks String.length]. lia. Qed.

Lemma length_fmt_nat_le (k : nat) (v : Z) :
  0 <= v < 10 ^ Z.of_nat (S k) -> (1 <= String.length (fmt_nat v) <= S k)%nat.
Proof.
  intros Hv. split.
  - destruct (fmt_nat_cons v) as (c & s & ->). cbn [String.length]. lia.
  - unfold fmt_nat.
    pose proof (length_dec_digits (dec_fuel v) k v EmptyString Hv) as H.
    cbn [String.length] in H. lia.
Qed.

(** [fgets] on a line that fits the buffer. *)
Lemma fgets_line (size room : nat) (l x : string) :
  count_char nl l = O ->
  (String.length l < room)%nat ->
  fgets_lines size room (l ++ endl ++ x)
  = (l ++ endl)%string :: fgets_lines size (Nat.pred size) x.
Proof.
  revert room. induction l as [|c l IH]; intros room Hnl Hlen.
  - cbn [append fgets_lines endl]. rewrite eqb_ascii_refl. reflexivity.
  - cbn [count_char] in Hnl. cbn [String.length] in Hlen.
    destruct (Ascii.eqb_spec c nl) as [_|Hc]; [discriminate Hnl|].
    cbn [append fgets_lines].
    destruct (Ascii.eqb_spec c nl) as [E|_]; [contradiction|].
    destruct (Nat.eqb_spec room 1) as [E|_]; [lia|].
    cbn [orb]. rewrite (IH (Nat.pred room) Hnl ltac:(lia)). reflexivity.
Qed.

Lemma scan_meminfo_cons (line : string) (lines : list string) (nodeID : Z)
      (found_total found_free : bool) (r : node_meminfo) :
  scan_meminfo (line :: lines) nodeID found_total found_free r
  = let '(nm1, ft1, ff1) :=
        if (negb found_total && strstr line (memtotal_key nodeID))%bool then
          match scan_u (drop (String.length (memtotal_key nodeID)) line) with
          | Some (val, _) =>
              ({| mem_total := val; mem_used := mem_used r |}, true, found_free)
          | None => (r, found_total, found_free)
          end
        else if (negb found_free && strstr line (memfree_key nodeID))%bool then
          match scan_u (drop (String.length (memfree_key nodeID)) line) with
          | Some (val, _) =>
              ({| mem_total := mem_total r;
                  mem_used := CInt.to_unsigned (mem_total r - val) |},
               found_total, true)
          | None => (r, found_total, found_free)
          end
        else (r, found_total, found_free) in
    if (ft1 && ff1)%bool then nm1
    else scan_meminfo lines nodeID ft1 ff1 nm1.
Proof. reflexivity. Qed.

(** X8.  On a meminfo file that has the node's [MemTotal] line and then
    its [MemFree] line, [parse_node_meminfo] stores the total cut to 32
    bits and, as used memory, total minus free in 32-bit unsigned
    arithmetic; the old contents of the record and the rest of the file
    play no part. *)
Theorem parse_node_meminfo_kernel_text (fopen : reader) (r : node_meminfo)
        (path : string) (nodeID total free : Z) (pad : nat) (rest : string) :
  0 <= nodeID <= CInt.INT_MAX ->
  0 <= total < CInt.ULONG_MOD ->
  0 <= free < CInt.ULONG_MOD ->
  (pad <= 200)%nat ->
  fopen path = Some (meminfo_text nodeID total free pad rest) ->
  parse_node_meminfo fopen r path nodeID
  = {| mem_total := total mod CInt.UINT_MOD;
       mem_used := (total - free) mod CInt.UINT_MOD |}.
Proof.
  unfold CInt.INT_MAX, CInt.ULONG_MOD. intros Hid Ht Hf Hpad Hopen.
  unfold parse_node_meminfo. rewrite Hopen. unfold meminfo_text.
  set (kT := ("Node " ++ fmt_d nodeID ++ " MemTotal:")%string).
  set (kF := ("Node " ++ fmt_d nodeID ++ " MemFree:")%string).
  assert (Hlen_id : (1 <= String.length (fmt_d nodeID) <= 10)%nat).
  { unfold fmt_d. destruct (Z.ltb_spec nodeID 0); [lia|].
    apply (length_fmt_nat_le 9).
    change (10 ^ Z.of_nat 10) with 10000000000. lia. }
  assert (HkT : memtotal_key nodeID = kT).
  { unfold memtotal_key, snprintf. apply take_all. subst kT.
    rewrite !length_append. cbn [String.length Nat.pred]. lia. }
  assert (HkF : memfree_key nodeID = kF).
  { unfold memfree_key, snprintf. apply take_all. subst kF.
    rewrite !length_append. cbn [String.length Nat.pred]. lia. }
  assert (Hnl_id : count_char nl (fmt_d nodeID) = O).
  { apply count_fmt_d; [reflexivity | discriminate]. }
  assert (Hnl_v : forall v, count_char nl (blanks pad ++ fmt_nat v ++ " kB") = O).
  { intros v. rewrite !count_char_app, count_blanks by discriminate.
    rewrite (all_digits_count nl (fmt_nat v) (all_digits_fmt_nat v) eq_refl).
    reflexivity. }
  assert (Hlen_v : forall v, 0 <= v < 18446744073709551616 ->
            (String.length (blanks pad ++ fmt_nat v ++ " kB") <= 223)%nat).
  { intros v Hv. rewrite !length_append, length_blanks.
    pose proof (length_fmt_nat_le 19 v
                  ltac:(change (10 ^ Z.of_nat 20) with 100000000000000000000; lia)).
    cbn [String.length]. lia. }
  (* the first line *)
  rewrite <- (append_assoc kT).
  rewrite fgets_line.
  2:{ rewrite count_char_app, Hnl_v. subst kT.
      rewrite !count_char_app, Hnl_id. reflexivity. }
  2:{ pose proof (Hlen_v total Ht).
      set (vT := (blanks pad ++ fmt_nat total ++ " kB")%string) in *. subst kT.
      rewrite !length_append. cbn [String.length]. lia. }
  (* the second line *)
  rewrite <- (append_assoc kF).
  rewrite fgets_line.
  2:{ rewrite count_char_app, Hnl_v. subst kF.
      rewrite !count_char_app, Hnl_id. reflexivity. }
  2:{ pose proof (Hlen_v free Hf).
      set (vF := (blanks pad ++ fmt_nat free ++ " kB")%string) in *. subst kF.
      rewrite !length_append. cbn [String.length Nat.pred]. lia. }
  rewrite scan_meminfo_cons, HkT, HkF.
  rewrite (append_assoc kT), (strstr_prefix kT), (drop_app kT).
  rewrite !append_assoc.
  rewrite (scan_u_fmt_nat pad total (" kB" ++ endl) Ht eq_refl).
  cbn [negb andb].
  rewrite scan_meminfo_cons, HkT, HkF.
  cbn [negb andb].
  rewrite (strstr_prefix kF), (drop_app kF).
  rewrite (scan_u_fmt_nat pad free (" kB" ++ endl) Hf eq_refl).
  cbn [negb andb mem_total].
  unfold CInt.to_unsigned. rewrite <- Zminus_mod. reflexivity.
Qed.

End MeminfoTextFacts.

Lemma parse_node_meminfo_kernel_text_witness :
  NumaStatLogger.parse_node_meminfo
    (fun _ => Some (Meminfo.meminfo_text 3 1000 4000 7 "Node 3 MemUsed: 5 kB"))
    (NumaStatLogger.Build_node_meminfo 7 8) "meminfo" 3
  = NumaStatLogger.Build_node_meminfo (1000 mod CInt.UINT_MOD)
      ((1000 - 4000) mod CInt.UINT_MOD).
Proof.
  apply (parse_node_meminfo_kernel_text
           (fun _ => Some (Meminfo.meminfo_text 3 1000 4000 7 "Node 3 MemUsed: 5 kB"))
           (NumaStatLogger.Build_node_meminfo 7 8) "meminfo" 3 1000 4000 7
           "Node 3 MemUsed: 5 kB");
    try reflexivity; unfold CInt.INT_MAX, CInt.ULONG_MOD; lia.
Defined.

Section FgetsFacts.

Import CStr NumaStatLogger.

Lemma flatten_fgets_lines (size : nat) (text : string) (room : nat) :
  flatten (fgets_lines size room text) = text.
Proof.
  revert room. induction text as [|c text IH]; intros room; [reflexivity|].
  cbn [fgets_lines].
  destruct (Ascii.eqb c nl || Nat.eqb room 1)%bool.
  - cbn [flatten append]. rewrite IH. reflexivity.
  - specialize (IH (Nat.pred room)).
    destruct (fgets_lines size (Nat.pred room) text) as [|l ls].
    + cbn [flatten] in IH. subst text. reflexivity.
    + cbn [flatten append] in *. rewrite IH. reflexivity.
Qed.

Lemma pieces_fgets_lines (size : nat) (text : string) (room : nat) :
  (2 <= size)%nat -> (1 <= room)%nat ->
  match fgets_lines size room text with
  | [] => True
  | l :: ls => Meminfo.piece room l /\ Forall (Meminfo.piece (Nat.pred size)) ls
  end.
Proof.
  intros Hsize. revert room. induction text as [|c text IH]; intros room Hroom;
    [exact I|].
  cbn [fgets_lines].
  destruct (Ascii.eqb_spec c nl) as [Hc|Hc]; cbn [orb].
  - split.
    + split; [cbn [String.length]; lia|]. exists EmptyString, c. split; reflexivity.
    + specialize (IH (Nat.pred size) ltac:(lia)).
      destruct (fgets_lines size (Nat.pred size) text) as [|l ls]; [constructor|].
      constructor; tauto.
  - destruct (Nat.eqb_spec room 1) as [Hr|Hr].
    + split.
      * split; [cbn [String.length]; lia|]. exists EmptyString, c. split; reflexivity.
      * specialize (IH (Nat.pred size) ltac:(lia)).
        destruct (fgets_lines size (Nat.pred size) text) as [|l ls]; [constructor|].
        constructor; tauto.
    + specialize (IH (Nat.pred room) ltac:(lia)).
      destruct (fgets_lines size (Nat.pred room) text) as [|l ls].
      * split; [|constructor].
        split; [cbn [String.length]; lia|]. exists EmptyString, c. split; reflexivity.
      * destruct IH as [[Hlen (body & c' & -> & Hbody)] Hls].
        split; [|exact Hls]. split.
        -- cbn [String.length]. lia.
        -- exists (String c body), c'. split; [reflexivity|].
           cbn [count_char]. destruct (Ascii.eqb_spec c nl); [contradiction|exact Hbody].
Qed.

(** X9.  Reading a file with [fgets] into a buffer of 256 bytes cuts
    it into pieces of at most 255 characters, each with no newline
    before its last character, and the pieces put together are the file:
    nothing is lost or read twice, also on lines longer than the
    buffer. *)
Theorem fgets_lines_partition (text : string) :
  flatten (fgets_lines 256 255 text) = text
  /\ Forall (Meminfo.piece 255) (fgets_lines 256 255 text).
Proof.
  split; [apply flatten_fgets_lines|].
  pose proof (pieces_fgets_lines 256 text 255 ltac:(lia) ltac:(lia)) as H.
  destruct (fgets_lines 256 255 text) as [|l ls]; [constructor|].
  destruct H as [Hl Hls]. constructor; assumption.
Qed.

End FgetsFacts.

Section CellFacts.

Import CStr NumaStatLogger Csv.

Lemma split_on_none (sep : ascii) (a : string) :
  count_char sep a = O -> split_on sep a = [a].
Proof.
  induction a as [|c a IH]; [reflexivity|].
  cbn [count_char split_on].
  destruct (Ascii.eqb c sep); [discriminate|].
  intros H. rewrite (IH H). reflexivity.
Qed.

Lemma split_on_join (a : string) (fs : list string) :
  count_char "," a = O ->
  Forall (fun f => count_char "," f = O) fs ->
  split_on "," (a ++ join fs) = a :: fs.
Proof.
  intros Ha Hfs. revert a Ha.
  induction Hfs as [|f fs Hf _ IH]; intros a Ha.
  - cbn [join]. rewrite append_nil_r. apply split_on_none, Ha.
  - cbn [join].
    change ("," ++ f ++ join fs)%string with (String "," (f ++ join fs)).
    rewrite (split_on_first "," a _ Ha), (IH f Hf). reflexivity.
Qed.

Lemma join_app (a b : list string) : join (a ++ b)%list = (join a ++ join b)%string.
Proof.
  induction a as [|f a IH]; [reflexivity|].
  cbn [app join]. rewrite IH, ?append_assoc. reflexivity.
Qed.

Lemma header_mem_join (nm : list node_meminfo) (i : Z) :
  header_mem (length nm) i = join (map fst (mem_cells i nm)).
Proof.
  revert i. induction nm as [|r nm IH]; intros i; [reflexivity|].
  cbn [length header_mem mem_cells map fst join]. rewrite IH, ?append_assoc.
  reflexivity.
Qed.

Lemma header_vm_join (nv : list node_vmstat) (i : Z) :
  header_vm (length nv) i = join (map fst (vm_cells i nv)).
Proof.
  revert i. induction nv as [|r nv IH]; intros i; [reflexivity|].
  cbn [length header_vm vm_cells map fst join]. rewrite IH, ?append_assoc.
  reflexivity.
Qed.

Lemma row_mem_join (nm : list node_meminfo) (i : Z) :
  row_mem nm = join (map (fun c => fmt_u c.2) (mem_cells i nm)).
Proof.
  revert i. induction nm as [|r nm IH]; intros i; [reflexivity|].
  cbn [row_mem mem_cells map snd join]. rewrite (IH (i + 1)), ?append_assoc.
  reflexivity.
Qed.

Lemma row_vm_join (nv : list node_vmstat) (i : Z) :
  row_vm nv = join (map (fun c => fmt_u c.2) (vm_cells i nv)).
Proof.
  revert i. induction nv as [|r nv IH]; intros i; [reflexivity|].
  cbn [row_vm vm_cells map snd join]. rewrite (IH (i + 1)), ?append_assoc.
  reflexivity.
Qed.

Lemma row_sys_join (sv : sys_vmstat) :
  row_sys sv = join (map (fun c => fmt_u c.2) (sys_cells sv)).
Proof.
  unfold row_sys, sys_cells. cbn [map snd join].
  rewrite ?append_assoc, ?append_nil_r. reflexivity.
Qed.

Lemma no_comma_mem_names (nm : list node_meminfo) (i : Z) :
  Forall (fun f => count_char "," f = O) (map fst (mem_cells i nm)).
Proof.
  revert i. induction nm as [|r nm IH]; intros i; [constructor|].
  cbn [mem_cells map fst].
  repeat (constructor;
          [rewrite !count_char_app, count_fmt_d by (reflexivity || discriminate);
           reflexivity|]).
  apply IH.
Qed.

Lemma no_comma_vm_names (nv : list node_vmstat) (i : Z) :
  Forall (fun f => count_char "," f = O) (map fst (vm_cells i nv)).
Proof.
  revert i. induction nv as [|r nv IH]; intros i; [constructor|].
  cbn [vm_cells map fst].
  repeat (constructor;
          [rewrite !count_char_app, count_fmt_d by (reflexivity || discriminate);
           reflexivity|]).
  apply IH.
Qed.

Lemma no_comma_values (cs : list (string * Z)) :
  Forall (fun f => count_char "," f = O) (map (fun c => fmt_u c.2) cs).
Proof.
  induction cs as [|c cs IH]; constructor; [|exact IH].
  apply count_fmt_u. reflexivity.
Qed.

Lemma dec_value_values (cs : list (string * Z)) :
  map dec_value (map (fun c => fmt_u c.2) cs) = map (fun c => CInt.to_unsigned c.2) cs.
Proof.
  induction cs as [|c cs IH]; [reflexivity|].
  cbn [map]. rewrite IH. f_equal.
  unfold fmt_u. apply dec_value_fmt_nat.
  unfold CInt.to_unsigned, CInt.UINT_MOD. apply Z.mod_pos_bound. lia.
Qed.

(** X10.  The fields of the header are [timestamp] and then the names of
    the counters; the fields of a row are the time stamp and then the
    counters in the same order, so the k-th field of a row is the value
    of the counter the k-th field of the header names; read back as
    decimal numbers the fields are the counters as [unsigned]. *)
Theorem header_names_row_values (numa_count : Z) (ts : Z * Z)
        (nm : list node_meminfo) (nv : list node_vmstat) (sv : sys_vmstat) :
  length nm = Z.to_nat numa_count ->
  length nv = Z.to_nat numa_count ->
  0 <= snd ts < 1000000000 ->
  fields (header_fields numa_count) = "timestamp" :: map fst (cells nm nv sv)
  /\ fields (row_fields ts nm nv sv)
     = timestamp (fst ts) (snd ts) :: map (fun c => fmt_u c.2) (cells nm nv sv)
  /\ map dec_value (map (fun c => fmt_u c.2) (cells nm nv sv))
     = map (fun c => CInt.to_unsigned c.2) (cells nm nv sv).
Proof.
  intros Hnm Hnv Hts. unfold fields, cells. split; [|split].
  - assert (Hh : header_fields numa_count
                 = ("timestamp" ++ header_mem (length nm) 0 ++ header_vm (length nv) 0
                    ++ header_sys sys_cols)%string).
    { unfold header_fields. rewrite Hnm, Hnv. reflexivity. }
    rewrite Hh, (header_mem_join nm 0), (header_vm_join nv 0).
    change (header_sys sys_cols) with (join (map fst (sys_cells sv))).
    rewrite <- !join_app.
    rewrite <- !map_app.
    apply split_on_join; [reflexivity|].
    rewrite !map_app. repeat apply Forall_app_2.
    + apply no_comma_mem_names.
    + apply no_comma_vm_names.
    + repeat constructor.
  - unfold row_fields.
    rewrite (row_mem_join nm 0), (row_vm_join nv 0), row_sys_join.
    rewrite <- !join_app, <- !map_app.
    apply split_on_join; [apply count_comma_timestamp, Hts|].
    apply no_comma_values.
  - apply dec_value_values.
Qed.

End CellFacts.

Lemma header_names_row_values_witness :
  NumaStatLogger.fields (NumaStatLogger.header_fields 2)
  = "timestamp" :: map fst (Csv.cells MoreExamples.two_nodes_nm MoreExamples.two_nodes_nv
                                      MoreExamples.some_sv)
  /\ NumaStatLogger.fields
       (NumaStatLogger.row_fields (1700000000, 5000) MoreExamples.two_nodes_nm
                                  MoreExamples.two_nodes_nv MoreExamples.some_sv)
     = NumaStatLogger.timestamp 1700000000 5000
       :: map (fun c => CStr.fmt_u c.2)
              (Csv.cells MoreExamples.two_nodes_nm MoreExamples.two_nodes_nv
                         MoreExamples.some_sv)
  /\ map CStr.dec_value
         (map (fun c => CStr.fmt_u c.2)
              (Csv.cells MoreExamples.two_nodes_nm MoreExamples.two_nodes_nv
                         MoreExamples.some_sv))
     = map (fun c => CInt.to_unsigned c.2)
           (Csv.cells MoreExamples.two_nodes_nm MoreExamples.two_nodes_nv
                      MoreExamples.some_sv).
Proof.
  apply (header_names_row_values 2 (1700000000, 5000) MoreExamples.two_nodes_nm
           MoreExamples.two_nodes_nv MoreExamples.some_sv);
    [reflexivity | reflexivity | simpl; lia].
Defined.

Section FlushFacts.

Import CStr NumaStatLogger Csv.

Lemma rows_flushed_start (tr : list event) : rows tr = [] -> rows_flushed tr.
Proof.
  intros Hr pre line post E. subst tr.
  rewrite rows_app in Hr. cbn in Hr.
  destruct (rows pre); discriminate.
Qed.

Lemma rows_flushed_other (tr : list event) (e : event) :
  rows_flushed tr -> rows [e] = [] -> rows_flushed (tr ++ [e]).
Proof.
  intros Htr He pre line post E.
  apply snoc_eq_middle in E as [(_ & _ & <-) | (post' & -> & ->)].
  - discriminate He.
  - destruct (Htr pre line post' eq_refl) as [post'' ->].
    exists (post'' ++ [e])%list. reflexivity.
Qed.

Lemma rows_flushed_round (tr : list event) (line : string) :
  rows_flushed tr -> rows_flushed (tr ++ [Row line; Flush]).
Proof.
  intros Htr pre l post E.
  change [Row line; Flush] with ([Row line] ++ [Flush])%list in E.
  rewrite app_assoc in E.
  apply snoc_eq_middle in E as [(_ & _ & E) | (post' & -> & E)]; [discriminate E|].
  apply snoc_eq_middle in E as [(-> & _ & _) | (post'' & -> & ->)].
  - exists []. reflexivity.
  - destruct (Htr pre l post'' eq_refl) as [p ->].
    exists (p ++ [Row line] ++ [Flush])%list.
    cbn [app]. rewrite <- app_assoc. reflexivity.
Qed.

Lemma sampling_rows_flushed (w : world) (numa_count : Z)
      (interval_sec : Double.double) (use_duration : bool) (iterations : Z)
      (use_run : bool) (fuel t : nat) (st : state) :
  rows_flushed (trace st) ->
  rows_flushed (trace (end_state
     (sampling w numa_count interval_sec use_duration iterations use_run fuel t st))).
Proof.
  apply (sampling_keeps w numa_count interval_sec use_duration iterations use_run
           (fun st => rows_flushed (trace st))).
  - intros t' st' H. destruct (sample_trace w numa_count t' st') as [line ->].
    apply rows_flushed_round, H.
  - intros tv_sec tv_nsec st' H. cbn [log trace].
    apply rows_flushed_other; [exact H | reflexivity].
  - intros ret st' H. cbn [log trace].
    apply rows_flushed_other; [exact H | reflexivity].
Qed.

(** X11.  In every run, whatever its arguments and however it ends,
    each row written is followed at once by a flush of the file: a row
    never waits in the buffer during the sleep. *)
Theorem every_row_is_flushed (fuel : nat) (w : world) (argv : list string) :
  rows_flushed (trace_of (main fuel w argv)).
Proof.
  destruct (main_cases fuel w argv)
    as [(tr & [-> | ->] & Hrows & _) | (ud & it & ur & ra & _ & ->)].
  - apply rows_flushed_start, Hrows.
  - apply rows_flushed_start, Hrows.
  - destruct (run_cases fuel w (atoi (nth 1 argv EmptyString))
                (atof w (nth 2 argv EmptyString)) ud it ur ra)
      as [(c & tr & -> & Hrows) | [-> | (bnm & bnv & text & fresh & _ & ->)]].
    + apply rows_flushed_start, Hrows.
    + apply rows_flushed_start. reflexivity.
    + pose proof (sampling_rows_flushed w (atoi (nth 1 argv EmptyString))
                    (atof w (nth 2 argv EmptyString)) ud it ur fuel 0
                    (entry_state w (atoi (nth 1 argv EmptyString)) ur bnm bnv text fresh))
        as H.
      specialize (H ltac:(apply rows_flushed_start;
                          apply (entry_state_rows w _ ur bnm bnv text fresh))).
      destruct (sampling _ _ _ _ _ _ _ _ _) as [st|st|st];
        cbn [end_state trace_of] in *; try exact H.
      destruct ur; [|rewrite app_nil_r; exact H].
      apply rows_flushed_other; [exact H | reflexivity].
Qed.

End FlushFacts.

Section NodeFacts.

Import CStr NumaStatLogger.

Lemma parse_nodes_each (fopen : reader) (todo : nat) (k : Z) (i : nat)
      (nm : list node_meminfo) (nv : list node_vmstat) :
  0 <= k ->
  let mine := (k <=? Z.of_nat i) && (Z.of_nat i <? k + Z.of_nat todo) in
  fst (parse_nodes fopen todo k nm nv) !! i
  = option_map (fun r => if mine
                         then parse_node_meminfo fopen r (meminfo_path (Z.of_nat i))
                                                 (Z.of_nat i)
                         else r) (nm !! i)
  /\ snd (parse_nodes fopen todo k nm nv) !! i
     = option_map (fun r => if mine
                            then parse_node_vmstat fopen r (vmstat_path (Z.of_nat i))
                            else r) (nv !! i).
Proof.
  revert k nm nv. induction todo as [|todo IH]; intros k nm nv Hk mine; subst mine.
  - cbn [parse_nodes fst snd].
    replace ((k <=? Z.of_nat i) && (Z.of_nat i <? k + Z.of_nat 0)) with false
      by (symmetry; apply andb_false_iff; destruct (Z.leb_spec k (Z.of_nat i));
          [right; apply Z.ltb_ge; lia | left; reflexivity]).
    split; [destruct (nm !! i) | destruct (nv !! i)]; reflexivity.
  - cbn [parse_nodes].
    destruct (IH (k + 1) (alter (fun r => parse_node_meminfo fopen r (meminfo_path k) k)
                                (Z.to_nat k) nm)
                 (alter (fun r => parse_node_vmstat fopen r (vmstat_path k))
                        (Z.to_nat k) nv) ltac:(lia)) as [IHm IHv].
    rewrite IHm, IHv. clear IHm IHv IH.
    destruct (decide (Z.to_nat k = i)) as [<-|Hne].
    + rewrite !list_lookup_alter_eq, Z2Nat.id by lia.
      replace ((k + 1 <=? k) && (k <? k + 1 + Z.of_nat todo)) with false
        by (symmetry; apply andb_false_iff; left; apply Z.leb_gt; lia).
      replace ((k <=? k) && (k <? k + Z.of_nat (S todo))) with true
        by (symmetry; apply andb_true_iff; split; [apply Z.leb_le | apply Z.ltb_lt]; lia).
      split; [destruct (nm !! Z.to_nat k) | destruct (nv !! Z.to_nat k)]; reflexivity.
    + rewrite !list_lookup_alter_ne by assumption.
      replace ((k + 1 <=? Z.of_nat i) && (Z.of_nat i <? k + 1 + Z.of_nat todo))
        with ((k <=? Z.of_nat i) && (Z.of_nat i <? k + Z.of_nat (S todo))).
      { split; reflexivity. }
      destruct (Z.leb_spec k (Z.of_nat i)), (Z.leb_spec (k + 1) (Z.of_nat i)),
               (Z.ltb_spec (Z.of_nat i) (k + Z.of_nat (S todo))),
               (Z.ltb_spec (Z.of_nat i) (k + 1 + Z.of_nat todo));
        try reflexivity; lia.
Qed.

(** X12.  One round of the loop updates the record of node [i] from the
    two files of node [i] and its own former contents only, and the
    system record from [/proc/vmstat]; so a node whose files cannot be
    read shows the values of the round before. *)
Theorem sample_updates_each_node (w : world) (numa_count : Z) (t : nat)
        (st : state) (i : nat) :
  (i < Z.to_nat numa_count)%nat ->
  let st' := sample w numa_count t st in
  nm st' !! i
  = option_map (fun r => parse_node_meminfo (read_file w t) r
                           (meminfo_path (Z.of_nat i)) (Z.of_nat i)) (nm st !! i)
  /\ nv st' !! i
     = option_map (fun r => parse_node_vmstat (read_file w t) r
                              (vmstat_path (Z.of_nat i))) (nv st !! i)
  /\ sv st' = parse_sys_vmstat (read_file w t) (sv st) "/proc/vmstat"
  /\ (read_file w t (meminfo_path (Z.of_nat i)) = None -> nm st' !! i = nm st !! i)
  /\ (read_file w t (vmstat_path (Z.of_nat i)) = None -> nv st' !! i = nv st !! i).
Proof.
  intros Hi st'. subst st'. unfold sample.
  destruct (parse_nodes_each (read_file w t) (Z.to_nat numa_count) 0 i (nm st) (nv st)
              ltac:(lia)) as [Hm Hv].
  replace ((0 <=? Z.of_nat i) && (Z.of_nat i <? 0 + Z.of_nat (Z.to_nat numa_count)))
    with true in Hm, Hv
    by (symmetry; apply andb_true_iff; split; [apply Z.leb_le | apply Z.ltb_lt]; lia).
  destruct (parse_nodes _ _ _ _ _) as [nm' nv']. cbn [fst snd nm nv sv] in *.
  rewrite Hm, Hv. repeat split.
  - intros Hnone. destruct (nm st !! i) as [r|]; [|reflexivity]. cbn [option_map].
    rewrite (parse_node_meminfo_missing _ _ _ _ Hnone). reflexivity.
  - intros Hnone. destruct (nv st !! i) as [r|]; [|reflexivity]. cbn [option_map].
    unfold parse_node_vmstat. rewrite Hnone. reflexivity.
Qed.

End NodeFacts.

Lemma sample_updates_each_node_witness :
  let st' := NumaStatLogger.sample Examples.one_node 1 0 MoreExamples.some_state in
  NumaStatLogger.nm st' !! 0%nat
  = option_map (fun r => NumaStatLogger.parse_node_meminfo
                           (NumaStatLogger.read_file Examples.one_node 0) r
                           (NumaStatLogger.meminfo_path (Z.of_nat 0)) (Z.of_nat 0))
               (NumaStatLogger.nm MoreExamples.some_state !! 0%nat)
  /\ NumaStatLogger.nv st' !! 0%nat
     = option_map (fun r => NumaStatLogger.parse_node_vmstat
                              (NumaStatLogger.read_file Examples.one_node 0) r
                              (NumaStatLogger.vmstat_path (Z.of_nat 0)))
                  (NumaStatLogger.nv MoreExamples.some_state !! 0%nat)
  /\ NumaStatLogger.sv st'
     = NumaStatLogger.parse_sys_vmstat (NumaStatLogger.read_file Examples.one_node 0)
         (NumaStatLogger.sv MoreExamples.some_state) "/proc/vmstat"
  /\ (NumaStatLogger.read_file Examples.one_node 0
        (NumaStatLogger.meminfo_path (Z.of_nat 0)) = None ->
      NumaStatLogger.nm st' !! 0%nat = NumaStatLogger.nm MoreExamples.some_state !! 0%nat)
  /\ (NumaStatLogger.read_file Examples.one_node 0
        (NumaStatLogger.vmstat_path (Z.of_nat 0)) = None ->
      NumaStatLogger.nv st' !! 0%nat = NumaStatLogger.nv MoreExamples.some_state !! 0%nat).
Proof.
  apply (sample_updates_each_node Examples.one_node 1 0 MoreExamples.some_state 0).
  simpl. lia.
Defined.

Section StartFacts.

Import CStr NumaStatLogger Csv.

(** X13.  When the logger ends with status 1 it has written no row, has
    not started a child, and the log file is as it was before -- or, when
    it could not be opened for reading (it was missing, or may not be
    read) and could be opened for writing but not for appending, holds
    the header alone. *)
Theorem exit_1_writes_no_row (fuel : nat) (w : world) (argv : list string)
        (c : option string) (tr : list event) :
  main fuel w argv = Exit 1 c tr ->
  rows tr = [] /\ forks tr = O
  /\ (c = csv_text (output w)
      \/ (fopen_r (output w) = None /\ fopen_a_ok (output w) = false
          /\ c = Some (header_fields (atoi (nth 1 argv EmptyString)) ++ endl)%string)).
Proof.
  assert (Hrun : forall nc iv ud it ur ra,
             run fuel w nc iv ud it ur ra = Exit 1 c tr ->
             rows tr = [] /\ forks tr = O
             /\ (c = csv_text (output w)
                 \/ (fopen_r (output w) = None /\ fopen_a_ok (output w) = false
                     /\ c = Some (header_fields nc ++ endl)%string))).
  { intros nc iv ud it ur ra. unfold run, write_csv_header.
    destruct (malloc_nm w); [|intros [= <- <-]; repeat split; left; reflexivity].
    destruct (malloc_nv w); [|intros [= <- <-]; repeat split; left; reflexivity].
    destruct (fopen_r (output w)) as [text|] eqn:Htext.
    - destruct (fopen_a_ok (output w)); cbn [negb].
      + destruct (ur && (fork w =? 0))%bool; [discriminate|].
        destruct (sampling _ _ _ _ _ _ _ _ _); discriminate.
      + intros [= <- <-]. repeat split. left.
        unfold fopen_r in Htext. destruct (csv_text (output w)); [|discriminate].
        destruct (fopen_r_ok (output w)); [congruence | discriminate].
    - destruct (fopen_w_ok (output w));
        [|intros [= <- <-]; repeat split; left; reflexivity].
      destruct (fopen_a_ok (output w)) eqn:Ha; cbn [negb].
      + destruct (ur && (fork w =? 0))%bool; [discriminate|].
        destruct (sampling _ _ _ _ _ _ _ _ _); discriminate.
      + intros [= <- <-]. repeat split. right. repeat split. }
  unfold main.
  destruct (Z.of_nat (length argv) <? 4);
    [intros [= <- <-]; repeat split; left; reflexivity|].
  destruct (atoi (nth 1 argv EmptyString) <=? 0);
    [intros [= <- <-]; repeat split; left; reflexivity|].
  destruct (Double.le _ _);
    [intros [= <- <-]; repeat split; left; reflexivity|].
  destruct (String.eqb (nth 3 argv EmptyString) "-d").
  - destruct (Z.of_nat (length argv) <? 5);
      [intros [= <- <-]; repeat split; left; reflexivity|].
    destruct (atoi (nth 4 argv EmptyString) <=? 0);
      [intros [= <- <-]; repeat split; left; reflexivity|].
    destruct (Double.to_int _); [apply Hrun | discriminate].
  - destruct (String.eqb (nth 3 argv EmptyString) "-r");
      [|intros [= <- <-]; repeat split; left; reflexivity].
    destruct (Z.of_nat (length argv) <? 5);
      [intros [= <- <-]; repeat split; left; reflexivity | apply Hrun].
Qed.

Lemma forks_app (a b : list event) : forks (a ++ b)%list = (forks a + forks b)%nat.
Proof.
  induction a as [|e a IH]; [reflexivity|].
  destruct e; cbn [app forks]; rewrite IH; reflexivity.
Qed.

Lemma waits_app (a b : list event) : waits (a ++ b)%list = (waits a + waits b)%nat.
Proof.
  induction a as [|e a IH]; [reflexivity|].
  destruct e; cbn [app waits]; rewrite IH; reflexivity.
Qed.

Lemma sampling_no_child (w : world) (numa_count : Z) (interval_sec : Double.double)
      (use_duration : bool) (iterations : Z) (fuel t : nat) (st : state) :
  let st' := end_state (sampling w numa_count interval_sec use_duration iterations
                                 false fuel t st) in
  polls (trace st') = polls (trace st)
  /\ forks (trace st') = forks (trace st)
  /\ waits (trace st') = waits (trace st).
Proof.
  revert t st. induction fuel as [|fuel IH]; intros t st; cbn [sampling];
    [repeat split|].
  destruct (if use_duration then _ else true); [|repeat split].
  destruct (sample_trace w numa_count t st) as [line Hline].
  destruct (Double.to_long _) as [nsec|].
  - destruct (IH (S t) (log (Nanosleep 0 nsec) (sample w numa_count t st)))
      as (Hp & Hf & Hw).
    cbv zeta. rewrite Hp, Hf, Hw. cbn [log trace]. rewrite Hline.
    rewrite !polls_app, !forks_app, !waits_app. cbn.
    rewrite !app_nil_r, !Nat.add_0_r. repeat split.
  - cbn [end_state]. rewrite Hline.
    rewrite !polls_app, !forks_app, !waits_app. cbn.
    rewrite !app_nil_r, !Nat.add_0_r. repeat split.
Qed.

(** X14.  With [-d] the logger never starts a child and never waits for
    one: its trace has no fork, no poll and no wait. *)
Theorem duration_mode_has_no_child (fuel : nat) (w : world) (argv : list string) :
  nth 3 argv EmptyString = "-d" ->
  let tr := trace_of (main fuel w argv) in
  forks tr = O /\ polls tr = [] /\ waits tr = O.
Proof.
  intros Hd. unfold main. rewrite Hd. cbn [String.eqb Ascii.eqb Bool.eqb andb].
  destruct (Z.of_nat (length argv) <? 4); [repeat split|].
  destruct (atoi (nth 1 argv EmptyString) <=? 0); [repeat split|].
  destruct (Double.le _ _); [repeat split|].
  destruct (Z.of_nat (length argv) <? 5); [repeat split|].
  destruct (atoi (nth 4 argv EmptyString) <=? 0); [repeat split|].
  destruct (Double.to_int _) as [it|]; [|repeat split].
  unfold run.
  destruct (malloc_nm w) as [bnm|]; [|repeat split].
  destruct (malloc_nv w) as [bnv|]; [|repeat split].
  destruct (write_csv_header _ _ _) as [[text fresh]|]; [|repeat split].
  destruct (negb (fopen_a_ok (output w))); [destruct fresh; repeat split|].
  cbn [andb].
  match goal with
  | |- context [sampling ?w ?nc ?iv ?ud ?it false ?fuel ?t ?st] =>
      destruct (sampling_no_child w nc iv ud it fuel t st) as (Hp & Hf & Hw);
      destruct (sampling w nc iv ud it false fuel t st) as [st'|st'|st']
  end; cbn [end_state trace_of trace] in *;
    rewrite ?app_nil_r, Hp, Hf, Hw; destruct fresh; repeat split.
Qed.

Lemma sampling_while_child_runs (w : world) (numa_count : Z)
      (interval_sec : Double.double) (iterations nsec : Z) :
  Double.to_long (Double.mul interval_sec Double.d_1e9) = Some nsec ->
  (forall t, waitpid_nohang w t = 0) ->
  forall (fuel t : nat) (st : state),
  exists st',
    sampling w numa_count interval_sec false iterations true fuel t st = NoFuel st'
    /\ length (rows (trace st')) = (length (rows (trace st)) + fuel)%nat
    /\ polls (trace st') = (polls (trace st) ++ replicate fuel 0)%list
    /\ waits (trace st') = waits (trace st).
Proof.
  intros Hnsec Hrun. induction fuel as [|fuel IH]; intros t st; cbn [sampling].
  - exists st. rewrite Nat.add_0_r, app_nil_r. repeat split.
  - rewrite Hnsec, Hrun. cbn [Z.eqb negb].
    destruct (IH (S t) (log (Poll 0) (log (Nanosleep 0 nsec) (sample w numa_count t st))))
      as (st' & -> & Hr & Hp & Hw).
    exists st'. split; [reflexivity|].
    destruct (sample_trace w numa_count t st) as [line Hline].
    cbn [log trace] in Hr, Hp, Hw. rewrite Hline in Hr, Hp, Hw.
    rewrite !rows_app, !length_app in Hr. rewrite !polls_app in Hp.
    rewrite !waits_app in Hw. cbn in Hr, Hp, Hw.
    rewrite ?app_nil_r in Hp. rewrite ?Nat.add_0_r in Hw.
    split; [lia|]. split; [|exact Hw].
    rewrite Hp, <- app_assoc. reflexivity.
Qed.

(** X15.  In run mode nothing but the end of the child stops the
    sampling: as long as every poll reports the child running, the
    logger goes on, one row and one poll a round, and has not reached
    its final wait. *)
Theorem run_mode_samples_while_child_runs (fuel : nat) (w : world)
        (argv : list string) (nsec : Z) :
  run_mode_args w argv ->
  resources_ok w = true ->
  fork w <> 0 ->
  Double.to_long (Double.mul (atof w (nth 2 argv EmptyString)) Double.d_1e9) = Some nsec ->
  (forall t, waitpid_nohang w t = 0) ->
  exists csv tr,
    main fuel w argv = Sampling csv tr
    /\ length (rows tr) = fuel
    /\ polls tr = replicate fuel 0
    /\ waits tr = O.
Proof.
  intros Hargs Hres Hfork Hnsec Hrun.
  rewrite (main_run_mode fuel w argv Hargs).
  destruct (run_enters_loop fuel w (atoi (nth 1 argv EmptyString))
              (atof w (nth 2 argv EmptyString)) false 0 true (skipn 4 argv)
              Hres (fun _ => Hfork))
    as (bnm & bnv & text & fresh & _ & _ & _ & ->).
  destruct (sampling_while_child_runs w (atoi (nth 1 argv EmptyString))
              (atof w (nth 2 argv EmptyString)) 0 nsec Hnsec Hrun fuel 0
              (entry_state w (atoi (nth 1 argv EmptyString)) true bnm bnv text fresh))
    as (st' & -> & Hr & Hp & Hw).
  exists (Some (csv st')), (trace st'). split; [reflexivity|].
  rewrite Hr, Hp, Hw. destruct fresh; repeat split.
Qed.

End StartFacts.

Lemma exit_1_writes_no_row_witness :
  NumaStatLogger.rows [NumaStatLogger.Diag (NumaStatLogger.InvalidNumaCount 0)] = []
  /\ Csv.forks [NumaStatLogger.Diag (NumaStatLogger.InvalidNumaCount 0)] = O
  /\ (None = NumaStatLogger.csv_text (NumaStatLogger.output Examples.one_node)
      \/ (NumaStatLogger.fopen_r (NumaStatLogger.output Examples.one_node) = None
          /\ NumaStatLogger.fopen_a_ok (NumaStatLogger.output Examples.one_node) = false
          /\ None = Some (NumaStatLogger.header_fields
                            (CStr.atoi (nth 1 MoreExamples.argv_zero_nodes EmptyString))
                          ++ NumaStatLogger.endl)%string)).
Proof.
  apply (exit_1_writes_no_row 5 Examples.one_node MoreExamples.argv_zero_nodes None
           [NumaStatLogger.Diag (NumaStatLogger.InvalidNumaCount 0)]).
  reflexivity.
Defined.

Lemma duration_mode_has_no_child_witness :
  let tr := NumaStatLogger.trace_of
              (NumaStatLogger.main 20 Examples.one_node Examples.argv_d_2_01_1) in
  Csv.forks tr = O /\ NumaStatLogger.polls tr = [] /\ Csv.waits tr = O.
Proof.
  apply (duration_mode_has_no_child 20 Examples.one_node Examples.argv_d_2_01_1).
  reflexivity.
Defined.

Lemma run_mode_samples_while_child_runs_witness :
  exists csv tr,
    NumaStatLogger.main 7 MoreExamples.child_runs Examples.argv_r
    = NumaStatLogger.Sampling csv tr
    /\ length (NumaStatLogger.rows tr) = 7%nat
    /\ NumaStatLogger.polls tr = replicate 7 0
    /\ Csv.waits tr = O.
Proof.
  apply (run_mode_samples_while_child_runs 7 MoreExamples.child_runs Examples.argv_r
           250000000).
  - repeat split; try reflexivity; simpl; lia.
  - reflexivity.
  - discriminate.
  - vm_compute. reflexivity.
  - intros t. reflexivity.
Defined.

Section LaunchFacts.

Import CStr NumaStatLogger.

Lemma sampling_duration_sleeps (w : world) (numa_count : Z)
      (interval_sec : Double.double) (iterations nsec : Z) (rem : nat) :
  Double.to_long (Double.mul interval_sec Double.d_1e9) = Some nsec ->
  forall (fuel t : nat) (st : state),
    Z.to_nat (iterations - Z.of_nat t) = rem ->
    (rem < fuel)%nat ->
    exists st',
      sampling w numa_count interval_sec true iterations false fuel t st = Done st'
      /\ length (rows (trace st')) = (length (rows (trace st)) + rem)%nat
      /\ sleeps (trace st') = (sleeps (trace st) ++ replicate rem (0, nsec))%list.
Proof.
  intros Hnsec. induction rem as [|rem IH]; intros fuel t st Hrem Hfuel;
    (destruct fuel as [|fuel]; [lia|]); cbn [sampling].
  - destruct (Z.ltb_spec (Z.of_nat t) iterations) as [Hlt|_]; [lia|].
    exists st. rewrite app_nil_r. repeat split. lia.
  - destruct (Z.ltb_spec (Z.of_nat t) iterations) as [_|Hge]; [|lia].
    rewrite Hnsec.
    destruct (sample_trace w numa_count t st) as [line Hline].
    destruct (IH fuel (S t) (log (Nanosleep 0 nsec) (sample w numa_count t st)))
      as (st' & Hrun & Hrows & Hsleeps); [lia | lia |].
    exists st'. split; [exact Hrun|].
    cbn [log trace] in Hrows, Hsleeps.
    rewrite Hline, !rows_app, !length_app in Hrows.
    rewrite Hline, !sleeps_app in Hsleeps.
    cbn in Hrows, Hsleeps. rewrite app_nil_r in Hsleeps.
    split; [lia|]. rewrite Hsleeps, <- app_assoc. reflexivity.
Qed.

(** X16.  Started without arguments, the launch script runs the logger
    for ten seconds at an interval of 0.1 s: on a machine where the
    logger gets its arrays and its file, it writes exactly 100 rows, asks
    for a sleep of 100 ms after each, and ends with status 0. *)
Theorem launch_default_logs_100_rows (fuel : nat) (w : world) (NUMA_COUNT : string) :
  0 < atoi NUMA_COUNT ->
  atof w "0.1" = Double.d_0_1 ->
  resources_ok w = true ->
  (100 < fuel)%nat ->
  exists csv tr,
    main fuel w (LaunchScript.script NUMA_COUNT []) = Exit 0 csv tr
    /\ length (rows tr) = 100%nat
    /\ sleeps tr = replicate 100 (0, 100000000).
Proof.
  intros Hnc Hatof Hres Hfuel.
  change (LaunchScript.script NUMA_COUNT [])
    with ["./numa_stat_logger"; NUMA_COUNT; "0.1"; "-d"; "10"].
  rewrite main_duration_mode.
  2:{ unfold duration_mode_args. cbn [nth length]. rewrite Hatof.
      repeat split; solve [reflexivity | assumption | lia]. }
  cbn [nth]. rewrite Hatof.
  replace (Double.to_int (Double.div (Double.of_int (atoi "10")) Double.d_0_1))
    with (Some 100) by (vm_compute; reflexivity).
  destruct (run_enters_loop fuel w (atoi NUMA_COUNT) Double.d_0_1 true 100 false []
              Hres ltac:(discriminate))
    as (bnm & bnv & text & fresh & _ & _ & _ & ->).
  destruct (sampling_duration_sleeps w (atoi NUMA_COUNT) Double.d_0_1 100 100000000 100
              ltac:(vm_compute; reflexivity) fuel 0
              (entry_state w (atoi NUMA_COUNT) false bnm bnv text fresh)
              ltac:(reflexivity) Hfuel)
    as (st' & -> & Hrows & Hsleeps).
  exists (Some (csv st')), (trace st' ++ [])%list. split; [reflexivity|].
  rewrite app_nil_r, Hrows, Hsleeps.
  destruct fresh; split; reflexivity.
Qed.

(** X17.  Started with a command, the launch script runs the logger in
    run mode around it: the child of the logger executes exactly the
    words given to the script, also when the first of them looks like an
    option of the logger. *)
Theorem launch_runs_given_command (fuel : nat) (w : world) (NUMA_COUNT : string)
        (cmd : string) (args : list string) :
  0 < atoi NUMA_COUNT ->
  Double.le (atof w "0.1") Double.zero = false ->
  resources_ok w = true ->
  fork w = 0 ->
  main fuel w (LaunchScript.script NUMA_COUNT (cmd :: args)) = Exec (cmd :: args).
Proof.
  intros Hnc Hle Hres Hfork.
  assert (Hscript : LaunchScript.script NUMA_COUNT (cmd :: args)
                    = "./numa_stat_logger" :: NUMA_COUNT :: "0.1" :: "-r" :: cmd :: args).
  { unfold LaunchScript.script. cbn [length].
    destruct (Z.leb_spec 1 (Z.of_nat (S (length args)))); [reflexivity | lia]. }
  rewrite Hscript, main_run_mode.
  2:{ unfold run_mode_args. cbn [nth length].
      repeat split; solve [reflexivity | assumption | lia]. }
  cbn [nth skipn].
  unfold run. unfold resources_ok in Hres.
  destruct (malloc_nm w); [|discriminate].
  destruct (malloc_nv w); [|discriminate].
  unfold write_csv_header.
  destruct (fopen_r (output w)).
  - cbn [andb] in Hres. rewrite Hres, Hfork. reflexivity.
  - apply andb_prop in Hres as [-> ->]. rewrite Hfork. reflexivity.
Qed.

End LaunchFacts.

Lemma launch_default_logs_100_rows_witness :
  exists csv tr,
    NumaStatLogger.main 101 Examples.one_node (LaunchScript.script "1" [])
    = NumaStatLogger.Exit 0 csv tr
    /\ length (NumaStatLogger.rows tr) = 100%nat
    /\ NumaStatLogger.sleeps tr = replicate 100 (0, 100000000).
Proof.
  apply (launch_default_logs_100_rows 101 Examples.one_node "1").
  - reflexivity.
  - reflexivity.
  - reflexivity.
  - lia.
Defined.

Lemma launch_runs_given_command_witness :
  NumaStatLogger.main 5 MoreExamples.in_child (LaunchScript.script "1" ["-d"; "3"])
  = NumaStatLogger.Exec ["-d"; "3"].
Proof.
  apply (launch_runs_given_command 5 MoreExamples.in_child "1" "-d" ["3"]);
    reflexivity.
Defined.

Section InferenceFacts.

Import CStr InferenceScript.

Lemma policy_loop_runs (sh : shell) (pid nc : string) (k : nat) :
  forall (turns t : nat),
    (forall j, (j < k)%nat -> kill_0 sh (t + j) = true) ->
    kill_0 sh (t + k) = false ->
    (k < turns)%nat ->
    exists loop,
      policy_loop sh pid nc turns t = Some loop
      /\ invocations loop
         = map (fun j => ["./change_policy"; pid; dummy_model sh j; nc]) (seq t k)
      /\ pauses loop = replicate k "0.5"
      /\ loop = flat_map (fun j => [ChangePolicy ["./change_policy"; pid;
                                                  dummy_model sh j; nc];
                                    Sleep "0.5"]) (seq t k).
Proof.
  induction k as [|k IH]; intros turns t Hlive Hdead Hturns;
    (destruct turns as [|turns]; [lia|]); cbn [policy_loop].
  - rewrite Nat.add_0_r in Hdead. rewrite Hdead. exists []. repeat split.
  - pose proof (Hlive O ltac:(lia)) as H0. rewrite Nat.add_0_r in H0. rewrite H0.
    destruct (IH turns (S t)) as (loop & -> & Hinv & Hp & Hloop).
    + intros j Hj. replace (S t + j)%nat with (t + S j)%nat by lia. apply Hlive. lia.
    + replace (S t + k)%nat with (t + S k)%nat by lia. exact Hdead.
    + lia.
    + eexists. split; [reflexivity|].
      cbn [invocations pauses seq map replicate flat_map app]. rewrite Hinv, Hp.
      split; [reflexivity|]. split; [reflexivity|]. rewrite <- Hloop. reflexivity.
Qed.

Lemma invocations_app (a b : list step) :
  invocations (a ++ b)%list = (invocations a ++ invocations b)%list.
Proof.
  induction a as [|s a IH]; [reflexivity|].
  destruct s; cbn [app invocations]; rewrite IH; reflexivity.
Qed.

Lemma pauses_app (a b : list step) :
  pauses (a ++ b)%list = (pauses a ++ pauses b)%list.
Proof.
  induction a as [|s a IH]; [reflexivity|].
  destruct s; cbn [app pauses]; rewrite IH; reflexivity.
Qed.

(** X18.  When the workload is seen alive at the first [k] tests of the
    loop and gone at the next, the inference script calls the policy tool
    exactly [k] times, each time with the pid of the workload, the mode
    the model printed in that turn and the node count, pausing 0.5 s
    after each call.  Every call has its three arguments, so the tool
    never stops at its usage message: once its mask is allocated it makes
    the request for that pid and node count and exits with 0. *)
Theorem inference_loop_calls_policy_tool (sh : shell) (NUMA_COUNT DUMMY_PID : string)
        (k turns : nat) :
  (forall t, (t < k)%nat -> kill_0 sh t = true) ->
  kill_0 sh k = false ->
  (k < turns)%nat ->
  exists steps,
    script sh NUMA_COUNT DUMMY_PID turns = Some steps
    /\ invocations steps
       = map (fun t => ["./change_policy"; DUMMY_PID; dummy_model sh t; NUMA_COUNT])
             (seq 0 k)
    /\ pauses steps = replicate k "0.5"
    /\ steps
       = ([Background "./dummy_executable_benchmark.sh";
           Echo ("Started dummy_executable_benchmark.sh with PID " ++ DUMMY_PID);
           Echo ("NUMA nodes: " ++ NUMA_COUNT)]
            ++ flat_map (fun t => [ChangePolicy ["./change_policy"; DUMMY_PID;
                                                 dummy_model sh t; NUMA_COUNT];
                                   Sleep "0.5"]) (seq 0 k)
            ++ [Echo "dummy_executable_benchmark.sh has finished. Exiting."])%list
    /\ forall argv word_bits o,
         In argv (invocations steps) ->
         ChangePolicy.calloc_ok o
           (ChangePolicy.mask_words word_bits (atoi NUMA_COUNT)) = true ->
         ChangePolicy.exit_code (ChangePolicy.main word_bits o argv) = 0
         /\ exists mode nmask report,
              ChangePolicy.trace (ChangePolicy.main word_bits o argv)
              = [ChangePolicy.Syscall 470 (atoi DUMMY_PID) mode nmask (atoi NUMA_COUNT);
                 report; ChangePolicy.Free].
Proof.
  intros Hlive Hdead Hturns.
  destruct (policy_loop_runs sh DUMMY_PID NUMA_COUNT k turns 0 Hlive Hdead Hturns)
    as (loop & Hloop & Hinv & Hp & Hsteps).
  unfold script. rewrite Hloop. eexists. split; [reflexivity|].
  rewrite !invocations_app, !pauses_app. cbn [invocations pauses app].
  rewrite !app_nil_r, Hinv, Hp.
  split; [reflexivity|]. split; [reflexivity|].
  split; [rewrite Hsteps; reflexivity|].
  intros argv word_bits o Hin Hok.
  apply in_map_iff in Hin as (t & <- & _).
  unfold ChangePolicy.main. cbn [length nth].
  change (Z.of_nat 4 <? 4) with false. cbv iota.
  unfold ChangePolicy.calloc. rewrite Hok.
  split; [reflexivity|]. do 3 eexists. reflexivity.
Qed.

End InferenceFacts.

Lemma inference_loop_calls_policy_tool_witness :
  exists steps,
    InferenceScript.script MoreExamples.three_turns "2" "4242" 10 = Some steps
    /\ InferenceScript.invocations steps
       = map (fun t => ["./change_policy"; "4242";
                        InferenceScript.dummy_model MoreExamples.three_turns t; "2"])
             (seq 0 3)
    /\ InferenceScript.pauses steps = replicate 3 "0.5"
    /\ steps
       = ([InferenceScript.Background "./dummy_executable_benchmark.sh";
           InferenceScript.Echo "Started dummy_executable_benchmark.sh with PID 4242";
           InferenceScript.Echo "NUMA nodes: 2"]
            ++ flat_map (fun t => [InferenceScript.ChangePolicy
                                     ["./change_policy"; "4242";
                                      InferenceScript.dummy_model MoreExamples.three_turns t;
                                      "2"];
                                   InferenceScript.Sleep "0.5"]) (seq 0 3)
            ++ [InferenceScript.Echo
                  "dummy_executable_benchmark.sh has finished. Exiting."])%list
    /\ forall argv word_bits o,
         In argv (InferenceScript.invocations steps) ->
         ChangePolicy.calloc_ok o
           (ChangePolicy.mask_words word_bits (CStr.atoi "2")) = true ->
         ChangePolicy.exit_code (ChangePolicy.main word_bits o argv) = 0
         /\ exists mode nmask report,
              ChangePolicy.trace (ChangePolicy.main word_bits o argv)
              = [ChangePolicy.Syscall 470 (CStr.atoi "4242") mode nmask (CStr.atoi "2");
                 report; ChangePolicy.Free].
Proof.
  apply (inference_loop_calls_policy_tool MoreExamples.three_turns "2" "4242" 3 10).
  - intros t Ht. apply Nat.ltb_lt. exact Ht.
  - reflexivity.
  - lia.
Defined.


Lemma nodemask_words_closed_form_witness :
  [18446744073709551615; 63]
  = map (fun j => Z.ones (Z.min 64 (70 - Z.of_nat j * 64)))
        (seq 0 (length [18446744073709551615; 63]))
  /\ Forall (fun w => 0 < w < 2 ^ 64) [18446744073709551615; 63].
Proof.
  apply (nodemask_words_closed_form 64 ltac:(lia) Examples.os_enosys
           Examples.change_policy_argv 470 4242 2).
  - simpl. left. reflexivity.
  - lia.
Defined.

Lemma nonpositive_nodecount_empty_mask_witness :
  exists report,
    ChangePolicy.trace (ChangePolicy.main 64 Examples.os_enosys MoreExamples.argv_no_count)
    = [ChangePolicy.Syscall 470 4242 2 [] 0; report; ChangePolicy.Free]
    /\ ChangePolicy.exit_code
         (ChangePolicy.main 64 Examples.os_enosys MoreExamples.argv_no_count) = 0
    /\ (0 = 0 -> ChangePolicy.mask_words 64 0 = 0).
Proof.
  apply (nonpositive_nodecount_empty_mask 64 ltac:(lia) Examples.os_enosys
           MoreExamples.argv_no_count).
  - simpl. lia.
  - vm_compute. discriminate.
  - reflexivity.
Defined.

Section SleepAccounting.

Import CStr NumaStatLogger.

Lemma sampling_sleeps_rows (w : world) (numa_count : Z) (interval_sec : Double.double)
      (use_duration : bool) (iterations : Z) (use_run : bool) (nsec : Z) :
  Double.to_long (Double.mul interval_sec Double.d_1e9) = Some nsec ->
  forall (fuel t : nat) (st : state),
    let st' := end_state (sampling w numa_count interval_sec use_duration iterations
                                   use_run fuel t st) in
    exists k,
      length (rows (trace st')) = (length (rows (trace st)) + k)%nat
      /\ sleeps (trace st') = (sleeps (trace st) ++ replicate k (0, nsec))%list.
Proof.
  intros Hnsec. induction fuel as [|fuel IH]; intros t st; cbn [sampling].
  - exists O. cbn [end_state replicate]. rewrite app_nil_r. split; [lia | reflexivity].
  - destruct (if use_duration then _ else true).
    2:{ exists O. cbn [end_state replicate]. rewrite app_nil_r. split; [lia | reflexivity]. }
    rewrite Hnsec.
    destruct (sample_trace w numa_count t st) as [line Hline].
    assert (Hround : forall e more,
               rows [e] = [] -> sleeps [e] = [] ->
               length (rows (((trace (sample w numa_count t st)
                                ++ [Nanosleep 0 nsec]) ++ more)))
               = (length (rows (trace st)) + S (length (rows more)))%nat
               /\ sleeps ((trace (sample w numa_count t st) ++ [Nanosleep 0 nsec]) ++ more)
                  = (sleeps (trace st) ++ (0, nsec) :: sleeps more)%list).
    { intros e more _ _. rewrite Hline, !rows_app, !sleeps_app, !length_app. cbn.
      rewrite app_nil_r. split; [lia | rewrite <- app_assoc; reflexivity]. }
    destruct use_run.
    + destruct (negb _).
      * exists 1%nat. cbn [end_state log trace].
        destruct (Hround Flush [Poll (waitpid_nohang w t)] eq_refl eq_refl) as [Hr Hs].
        rewrite Hr, Hs. split; reflexivity.
      * destruct (IH (S t) (log (Poll (waitpid_nohang w t))
                                (log (Nanosleep 0 nsec) (sample w numa_count t st))))
          as (k & Hr & Hs).
        exists (S k). cbv zeta in *. rewrite Hr, Hs. cbn [log trace].
        destruct (Hround Flush [Poll (waitpid_nohang w t)] eq_refl eq_refl) as [Hr' Hs'].
        rewrite Hr', Hs'. cbn [rows length sleeps replicate].
        split; [lia | rewrite <- app_assoc; reflexivity].
    + destruct (IH (S t) (log (Nanosleep 0 nsec) (sample w numa_count t st)))
        as (k & Hr & Hs).
      exists (S k). cbv zeta in *. rewrite Hr, Hs. cbn [log trace].
      destruct (Hround Flush [] eq_refl eq_refl) as [Hr' Hs'].
      rewrite app_nil_r in Hr', Hs'.
      rewrite Hr', Hs'. cbn [rows length sleeps replicate].
      split; [lia | rewrite <- app_assoc; reflexivity].
Qed.

Lemma total_slept_replicate (tr : list event) (nsec : Z) :
  forall k,
    sleeps tr = replicate k (0, nsec) ->
    total_slept tr = (if nanosleep_ok 0 nsec then nsec else 0) * Z.of_nat k.
Proof.
  induction tr as [|e tr IH]; intros k Hk.
  - destruct k; [cbn [total_slept]; lia | discriminate Hk].
  - destruct e; cbn [sleeps total_slept slept] in *;
      try (rewrite (IH k Hk); lia).
    destruct k as [|k]; [discriminate Hk|].
    cbn [replicate] in Hk. injection Hk as -> -> Hk.
    rewrite (IH k Hk). destruct (nanosleep_ok 0 nsec); lia.
Qed.

Lemma run_sleeps_rows (fuel : nat) (w : world) (numa_count : Z)
      (interval_sec : Double.double) (use_duration : bool) (iterations : Z)
      (use_run : bool) (run_argv : list string) (nsec : Z) :
  Double.to_long (Double.mul interval_sec Double.d_1e9) = Some nsec ->
  let tr := trace_of (run fuel w numa_count interval_sec use_duration iterations
                          use_run run_argv) in
  sleeps tr = replicate (length (rows tr)) (0, nsec).
Proof.
  intros Hnsec. unfold run.
  destruct (malloc_nm w) as [bnm|]; [|reflexivity].
  destruct (malloc_nv w) as [bnv|]; [|reflexivity].
  destruct (write_csv_header _ _ _) as [[text fresh]|]; [|reflexivity].
  destruct (negb (fopen_a_ok (output w))); [destruct fresh; reflexivity|].
  destruct (use_run && (fork w =? 0))%bool; [reflexivity|].
  match goal with
  | |- context [sampling ?w ?nc ?iv ?ud ?it ?ur ?fuel ?t ?st] =>
      destruct (sampling_sleeps_rows w nc iv ud it ur nsec Hnsec fuel t st)
        as (k & Hr & Hs);
      assert (Hr0 : rows (trace st) = []) by (cbn [trace]; destruct fresh, ur; reflexivity);
      assert (Hs0 : sleeps (trace st) = []) by (cbn [trace]; destruct fresh, ur; reflexivity);
      rewrite Hr0 in Hr; rewrite Hs0 in Hs;
      destruct (sampling w nc iv ud it ur fuel t st) as [st'|st'|st']
  end; cbn [end_state trace_of length app] in *.
  - rewrite rows_app, sleeps_app, length_app, Hr, Hs.
    destruct use_run; cbn; rewrite app_nil_r, Nat.add_0_r; reflexivity.
  - rewrite Hr, Hs. reflexivity.
  - rewrite Hr, Hs. reflexivity.
Qed.

(** X20.  When [interval_sec * 1e9] converts to [nsec], every run asks
    for one sleep of 0 s and [nsec] ns after each row, so the time slept
    is [nsec] a row when [nsec] is a valid nanosecond field and zero when
    the interval is a second or more. *)
Theorem one_sleep_request_per_row (fuel : nat) (w : world) (argv : list string)
        (nsec : Z) :
  Double.to_long (Double.mul (atof w (nth 2 argv EmptyString)) Double.d_1e9) = Some nsec ->
  let tr := trace_of (main fuel w argv) in
  sleeps tr = replicate (length (rows tr)) (0, nsec)
  /\ total_slept tr
     = (if nanosleep_ok 0 nsec then nsec else 0) * Z.of_nat (length (rows tr)).
Proof.
  intros Hnsec tr.
  assert (Hs : sleeps tr = replicate (length (rows tr)) (0, nsec)).
  { subst tr. unfold main.
    destruct (Z.of_nat (length argv) <? 4); [reflexivity|].
    destruct (atoi (nth 1 argv EmptyString) <=? 0); [reflexivity|].
    destruct (Double.le _ _); [reflexivity|].
    destruct (String.eqb (nth 3 argv EmptyString) "-d").
    - destruct (Z.of_nat (length argv) <? 5); [reflexivity|].
      destruct (atoi (nth 4 argv EmptyString) <=? 0); [reflexivity|].
      destruct (Double.to_int _); [|reflexivity].
      apply run_sleeps_rows, Hnsec.
    - destruct (String.eqb (nth 3 argv EmptyString) "-r"); [|reflexivity].
      destruct (Z.of_nat (length argv) <? 5); [reflexivity|].
      apply run_sleeps_rows, Hnsec. }
  split; [exact Hs | apply total_slept_replicate, Hs].
Qed.

End SleepAccounting.

Lemma one_sleep_request_per_row_witness :
  let tr := NumaStatLogger.trace_of
              (NumaStatLogger.main 10 Examples.one_node MoreExamples.argv_d_2_2_7) in
  NumaStatLogger.sleeps tr = replicate (length (NumaStatLogger.rows tr)) (0, 2000000000)
  /\ NumaStatLogger.total_slept tr
     = (if NumaStatLogger.nanosleep_ok 0 2000000000 then 2000000000 else 0)
       * Z.of_nat (length (NumaStatLogger.rows tr)).
Proof.
  apply (one_sleep_request_per_row 10 Examples.one_node MoreExamples.argv_d_2_2_7
           2000000000).
  vm_compute. reflexivity.
Defined.

Section ClockFacts.

Import CStr NumaStatLogger Csv.

Variable w : world.
Hypothesis clock_ok :
  forall t, 0 <= fst (clock_gettime w t) /\ 0 <= snd (clock_gettime w t) < 1000000000.

Local Abbreviation in_time tr :=
  (Forall2 (fun t line => stamped (clock_gettime w t) line)
           (seq 0 (length (rows tr))) (rows tr)).

Lemma row_stamped (t : nat) (nm : list node_meminfo) (nv : list node_vmstat)
      (sv : sys_vmstat) :
  stamped (clock_gettime w t) (row_fields (clock_gettime w t) nm nv sv ++ endl).
Proof.
  destruct (clock_ok t) as [Hs Hn].
  destruct (row_tail_comma nm nv sv) as [rest Hrest].
  destruct (fmt_09_nanoseconds _ Hn) as [Hlen Hdigits].
  exists (fmt_d (fst (clock_gettime w t))), (fmt_0d 9 (snd (clock_gettime w t))),
         (rest ++ endl)%string.
  split.
  { unfold row_fields, timestamp. rewrite Hrest, !append_assoc. reflexivity. }
  unfold fmt_d. destruct (Z.ltb_spec (fst (clock_gettime w t)) 0); [lia|].
  split; [apply all_digits_fmt_nat|].
  split; [apply dec_value_fmt_nat; lia|].
  split; [exact Hlen|]. split; [exact Hdigits|].
  unfold fmt_0d. destruct (Z.ltb_spec (snd (clock_gettime w t)) 0); [lia|].
  rewrite dec_value_zeros. apply dec_value_fmt_nat. lia.
Qed.

Lemma in_time_round (t : nat) (st : state) (numa_count : Z) :
  length (rows (trace st)) = t ->
  in_time (trace st) ->
  length (rows (trace (sample w numa_count t st))) = S t
  /\ in_time (trace (sample w numa_count t st)).
Proof.
  intros Hlen Hst.
  destruct (sample_fields w numa_count t st) as (nm' & nv' & sv' & _ & _ & ->).
  cbn [trace]. rewrite rows_app. cbn [rows]. rewrite length_app. cbn [length].
  split; [lia|].
  replace (length (rows (trace st)) + 1)%nat with (S (length (rows (trace st)))) by lia.
  rewrite seq_S. apply Forall2_app; [exact Hst|].
  constructor; [|constructor].
  cbn [Nat.add]. rewrite Hlen. apply row_stamped.
Qed.

Lemma sampling_in_time (numa_count : Z) (interval_sec : Double.double)
      (use_duration : bool) (iterations : Z) (use_run : bool) :
  forall (fuel t : nat) (st : state),
    length (rows (trace st)) = t ->
    in_time (trace st) ->
    in_time (trace (end_state (sampling w numa_count interval_sec use_duration
                                        iterations use_run fuel t st))).
Proof.
  induction fuel as [|fuel IH]; intros t st Hlen Hst; cbn [sampling]; [exact Hst|].
  destruct (if use_duration then _ else true); [|exact Hst].
  destruct (in_time_round t st numa_count Hlen Hst) as [Hlen' Hst'].
  destruct (Double.to_long _) as [nsec|]; [|exact Hst'].
  assert (Hlog : forall e st1, rows [e] = [] ->
            rows (trace (log e st1)) = rows (trace st1)).
  { intros e st1 He. cbn [log trace]. rewrite rows_app, He, app_nil_r. reflexivity. }
  destruct use_run.
  - destruct (negb _).
    + cbn [end_state]. rewrite !Hlog by reflexivity. exact Hst'.
    + apply IH; rewrite !Hlog by reflexivity; assumption.
  - apply IH; rewrite !Hlog by reflexivity; assumption.
Qed.

(** X21.  With a clock that gives non-negative seconds and nanoseconds
    below 10^9, the k-th row of every run starts with the reading of the
    clock in round k, as seconds, a dot and nine digits of nanoseconds
    that read back as the two numbers, followed by a comma. *)
Theorem rows_carry_clock_of_their_round (fuel : nat) (argv : list string) :
  in_time (trace_of (main fuel w argv)).
Proof.
  destruct (main_cases fuel w argv)
    as [(tr & [-> | ->] & Hrows & _) | (ud & it & ur & ra & _ & ->)].
  - cbn [trace_of]. rewrite Hrows. constructor.
  - cbn [trace_of]. rewrite Hrows. constructor.
  - destruct (run_cases fuel w (atoi (nth 1 argv EmptyString))
                (atof w (nth 2 argv EmptyString)) ud it ur ra)
      as [(c & tr & -> & Hrows) | [-> | (bnm & bnv & text & fresh & _ & ->)]].
    + cbn [trace_of]. rewrite Hrows. constructor.
    + constructor.
    + destruct (entry_state_rows w (atoi (nth 1 argv EmptyString)) ur bnm bnv text fresh)
        as (Hr & _).
      pose proof (sampling_in_time (atoi (nth 1 argv EmptyString))
                    (atof w (nth 2 argv EmptyString)) ud it ur fuel 0
                    (entry_state w (atoi (nth 1 argv EmptyString)) ur bnm bnv text fresh))
        as H.
      rewrite Hr in H. specialize (H eq_refl ltac:(constructor)).
      destruct (sampling _ _ _ _ _ _ _ _ _) as [st|st|st];
        cbn [end_state trace_of] in *; try exact H.
      rewrite rows_app. destruct ur; cbn [rows]; rewrite app_nil_r; exact H.
Qed.

End ClockFacts.

Lemma rows_carry_clock_of_their_round_witness :
  Forall2 (fun t line => Csv.stamped (NumaStatLogger.clock_gettime Examples.one_node t) line)
    (seq 0 (length (NumaStatLogger.rows
                      (NumaStatLogger.trace_of
                         (NumaStatLogger.main 10 Examples.one_node Examples.argv_r)))))
    (NumaStatLogger.rows
       (NumaStatLogger.trace_of
          (NumaStatLogger.main 10 Examples.one_node Examples.argv_r))).
Proof.
  apply (rows_carry_clock_of_their_round Examples.one_node).
  intros t. simpl. lia.
Defined.

Section BufferFacts.

Import CStr NumaStatLogger.

Lemma length_fmt_d_int (i : Z) :
  CInt.INT_MIN <= i <= CInt.INT_MAX -> (String.length (fmt_d i) <= 11)%nat.
Proof.
  unfold CInt.INT_MIN, CInt.INT_MAX. intros Hi. unfold fmt_d.
  destruct (Z.ltb_spec i 0).
  - pose proof (length_fmt_nat_le 9 (- i)
                  ltac:(change (10 ^ Z.of_nat 10) with 10000000000; lia)).
    cbn [String.length]. lia.
  - pose proof (length_fmt_nat_le 9 i
                  ltac:(change (10 ^ Z.of_nat 10) with 10000000000; lia)).
    lia.
Qed.

(** X22.  The buffers for the keys (32 bytes) and for the paths (128
    bytes) are large enough for every node number an [int] can hold:
    [snprintf] never cuts a key or a path short. *)
Theorem keys_and_paths_fit_their_buffers (i : Z) :
  CInt.INT_MIN <= i <= CInt.INT_MAX ->
  memtotal_key i = ("Node " ++ fmt_d i ++ " MemTotal:")%string
  /\ memfree_key i = ("Node " ++ fmt_d i ++ " MemFree:")%string
  /\ meminfo_path i = ("/sys/devices/system/node/node" ++ fmt_d i ++ "/meminfo")%string
  /\ vmstat_path i = ("/sys/devices/system/node/node" ++ fmt_d i ++ "/vmstat")%string.
Proof.
  intros Hi. pose proof (length_fmt_d_int i Hi) as Hlen.
  unfold memtotal_key, memfree_key, meminfo_path, vmstat_path, snprintf.
  repeat split; apply take_all; rewrite !length_append;
    cbn [String.length Nat.pred]; lia.
Qed.

End BufferFacts.

Lemma keys_and_paths_fit_their_buffers_witness :
  NumaStatLogger.memtotal_key (-2147483648)
  = ("Node " ++ CStr.fmt_d (-2147483648) ++ " MemTotal:")%string
  /\ NumaStatLogger.memfree_key (-2147483648)
     = ("Node " ++ CStr.fmt_d (-2147483648) ++ " MemFree:")%string
  /\ NumaStatLogger.meminfo_path (-2147483648)
     = ("/sys/devices/system/node/node" ++ CStr.fmt_d (-2147483648) ++ "/meminfo")%string
  /\ NumaStatLogger.vmstat_path (-2147483648)
     = ("/sys/devices/system/node/node" ++ CStr.fmt_d (-2147483648) ++ "/vmstat")%string.
Proof.
  apply (keys_and_paths_fit_their_buffers (-2147483648)).
  unfold CInt.INT_MIN, CInt.INT_MAX. lia.
Defined.
Section BenchmarkFacts.

Import CStr NumaStatLogger BenchmarkScript.

Lemma has_pattern_app (a b : string) :
  has_pattern (a ++ b) = (has_pattern a || has_pattern b)%bool.
Proof.
  induction a as [|c a IH]; [reflexivity|].
  cbn [append has_pattern]. rewrite IH, orb_assoc. reflexivity.
Qed.

Lemma no_ifs_app (a b : string) : no_ifs (a ++ b) = (no_ifs a && no_ifs b)%bool.
Proof.
  induction a as [|c a IH]; [reflexivity|].
  cbn [append no_ifs]. rewrite IH, andb_assoc. reflexivity.
Qed.

Lemma split_ifs_no_ifs (s : string) : no_ifs s = true -> split_ifs s = [s].
Proof.
  induction s as [|c s IH]; [reflexivity|].
  cbn [no_ifs split_ifs]. intros H. apply andb_prop in H as [Hc Hs].
  apply negb_true_iff in Hc. rewrite Hc, (IH Hs). reflexivity.
Qed.

(** The command name when the home directory is a plain text. *)
Lemma unquoted_plain (home : string) :
  plain home = true -> unquoted (DB_BENCH_EXEC home) = Some [DB_BENCH_EXEC home].
Proof.
  unfold plain, unquoted, DB_BENCH_EXEC. intros H.
  apply andb_prop in H as [Hifs Hpat]. apply negb_true_iff in Hpat.
  rewrite has_pattern_app, Hpat. cbn [orb].
  change (has_pattern "/rocksdb/db_bench") with false. cbv iota.
  rewrite split_ifs_no_ifs by (rewrite no_ifs_app, Hifs; reflexivity).
  destruct home; reflexivity.
Qed.

Lemma skip_space_fmt_nat (v : Z) (tail : string) :
  skip_space (fmt_nat v ++ tail) = (fmt_nat v ++ tail)%string
  /\ read_sign (fmt_nat v ++ tail) = (false, (fmt_nat v ++ tail)%string).
Proof.
  pose proof (all_digits_fmt_nat v) as Hall.
  destruct (fmt_nat_cons v) as (c & s & E). rewrite E in *.
  cbn [all_digits] in Hall. apply andb_prop in Hall as [Hc _].
  cbn [append skip_space]. rewrite (is_digit_not_space c Hc).
  split; [reflexivity | apply read_sign_digit, Hc].
Qed.

(** What the shell makes of a decimal number followed by [tail]. *)
Lemma shell_int_fmt_d (n : Z) (tail : string) :
  CInt.in_long n = true ->
  match tail with EmptyString => true | String c _ => negb (is_digit c) end = true ->
  shell_int (fmt_d n ++ tail)
  = match skip_blank tail with
    | EmptyString => Some n
    | String _ _ => None
    end.
Proof.
  intros Hn Htail. unfold shell_int, fmt_d.
  destruct (Z.ltb_spec n 0) as [Hneg|Hpos].
  - cbn [append skip_space].
    change (is_space "-") with false. cbv iota. cbn [read_sign].
    rewrite (read_digits_app _ _ 0 0 (all_digits_fmt_nat (- n)) Htail).
    rewrite dec_value_fmt_nat by lia.
    destruct (fmt_nat_cons (- n)) as (c & s & E). rewrite E.
    cbn [String.length Nat.add].
    rewrite Z.mul_0_l, Z.add_0_l, Z.opp_involutive, Hn.
    destruct (skip_blank tail); reflexivity.
  - destruct (skip_space_fmt_nat n tail) as [-> ->].
    rewrite (read_digits_app _ _ 0 0 (all_digits_fmt_nat n) Htail).
    rewrite dec_value_fmt_nat by lia.
    destruct (fmt_nat_cons n) as (c & s & E). rewrite E.
    cbn [String.length Nat.add].
    rewrite Z.mul_0_l, Z.add_0_l, Hn.
    destruct (skip_blank tail); reflexivity.
Qed.

Lemma fmt_d_max_1 (n : Z) :
  (if n <? 1 then "1" else fmt_d n) = fmt_d (Z.max n 1).
Proof.
  destruct (Z.ltb_spec n 1).
  - replace (Z.max n 1) with 1 by lia. reflexivity.
  - replace (Z.max n 1) with n by lia. reflexivity.
Qed.

Lemma param_or_given (args : list string) (k : nat) (word given : string) :
  nth_error args (Nat.pred k) = Some given -> not_empty given = true ->
  param_or args k word = given.
Proof.
  unfold param_or. intros -> H. destruct given; [discriminate H | reflexivity].
Qed.

Lemma option_values (NUM THREADS : string) :
  option_value "num" (options NUM THREADS) = Some NUM
  /\ option_value "threads" (options NUM THREADS) = Some THREADS.
Proof. split; reflexivity. Qed.

Lemma not_empty_fmt_d (n : Z) (tail : string) : not_empty (fmt_d n ++ tail) = true.
Proof.
  unfold fmt_d. destruct (n <? 0); [reflexivity|].
  destruct (fmt_nat_cons n) as (c & s & ->). reflexivity.
Qed.

(** X19.  With an operation count and a thread count [n] given in
    decimal, the benchmark is started with the operation count as it
    stands, unchecked, and with [max n 1] threads, whatever [nproc]
    prints.  A thread count with a carriage return after it is no
    integer for the test: it goes through as it stands, also when it is
    below 1. *)
Theorem explicit_parameters_pass_through (home nproc num : string) (n : Z)
        (more : list string) :
  plain home = true ->
  not_empty num = true ->
  CInt.in_long n = true ->
  let r := script home nproc (num :: fmt_d n :: more) in
  let r' := script home nproc (num :: (fmt_d n ++ String "013" EmptyString) :: more) in
  command r = Some (DB_BENCH_EXEC home :: options num (fmt_d (Z.max n 1)))
  /\ command r'
     = Some (DB_BENCH_EXEC home :: options num (fmt_d n ++ String "013" EmptyString))
  /\ option_value "num" (options num (fmt_d (Z.max n 1))) = Some num
  /\ option_value "threads" (options num (fmt_d (Z.max n 1))) = Some (fmt_d (Z.max n 1))
  /\ forall nproc', script home nproc' (num :: fmt_d n :: more) = r.
Proof.
  intros Hhome Hnum Hn r r'. subst r r'.
  assert (Hd : not_empty (fmt_d n) = true).
  { rewrite <- (append_nil_r (fmt_d n)). apply not_empty_fmt_d. }
  assert (Hs : shell_int (fmt_d n) = Some n).
  { rewrite <- (append_nil_r (fmt_d n)).
    apply (shell_int_fmt_d n EmptyString Hn eq_refl). }
  assert (Hplain : forall np,
             script home np (num :: fmt_d n :: more)
             = {| stdout := ["--- Running RocksDB Benchmarks ---";
                             "NUM Operations (--num): " ++ num;
                             "Threads (--threads): " ++ fmt_d (Z.max n 1);
                             "----------------------------------"];
                  command := Some (DB_BENCH_EXEC home
                                     :: options num (fmt_d (Z.max n 1))) |}).
  { intros np. unfold script, test_lt.
    rewrite (unquoted_plain home Hhome).
    rewrite (param_or_given (num :: fmt_d n :: more) 1 "1000" num eq_refl Hnum).
    rewrite (param_or_given (num :: fmt_d n :: more) 2 np (fmt_d n) eq_refl Hd).
    rewrite Hs. cbn [option_map app]. rewrite fmt_d_max_1. reflexivity. }
  rewrite !Hplain. cbn [command].
  destruct (option_values num (fmt_d (Z.max n 1))) as [Hv1 Hv2].
  split; [reflexivity|]. split; [|repeat split; assumption].
  unfold script, test_lt.
  rewrite (unquoted_plain home Hhome).
  rewrite (param_or_given (num :: (fmt_d n ++ String "013" EmptyString) :: more)
             1 "1000" num eq_refl Hnum).
  rewrite (param_or_given (num :: (fmt_d n ++ String "013" EmptyString) :: more)
             2 nproc (fmt_d n ++ String "013" EmptyString) eq_refl
             (not_empty_fmt_d n _)).
  rewrite (shell_int_fmt_d n (String "013" EmptyString) Hn eq_refl).
  reflexivity.
Qed.

(** X24.  Without arguments, where [nproc] prints the number [n] in
    decimal, the benchmark is started with 1000 operations and [max n 1]
    threads. *)
Theorem detected_core_count_is_floored (home : string) (n : Z) :
  plain home = true ->
  CInt.in_long n = true ->
  let r := script home (fmt_d n) [] in
  command r = Some (DB_BENCH_EXEC home :: options "1000" (fmt_d (Z.max n 1)))
  /\ option_value "num" (options "1000" (fmt_d (Z.max n 1))) = Some "1000"
  /\ option_value "threads" (options "1000" (fmt_d (Z.max n 1)))
     = Some (fmt_d (Z.max n 1))
  /\ stdout r
     = ["--- Running RocksDB Benchmarks ---";
        "NUM Operations (--num): 1000";
        "Threads (--threads): " ++ fmt_d (Z.max n 1);
        "----------------------------------"].
Proof.
  intros Hhome Hn r. subst r. unfold script, test_lt.
  rewrite (unquoted_plain home Hhome).
  change (param_or [] 1 "1000") with "1000".
  change (param_or [] 2 (fmt_d n)) with (fmt_d n).
  assert (Hs : shell_int (fmt_d n) = Some n).
  { rewrite <- (append_nil_r (fmt_d n)).
    apply (shell_int_fmt_d n EmptyString Hn eq_refl). }
  rewrite Hs. cbn [option_map app stdout command]. rewrite fmt_d_max_1.
  destruct (option_values "1000" (fmt_d (Z.max n 1))) as [Hv1 Hv2].
  repeat split; assumption.
Qed.

End BenchmarkFacts.

Lemma explicit_parameters_pass_through_witness :
  let r := BenchmarkScript.script "/home/user" "8" ["5000"; CStr.fmt_d 0] in
  let r' := BenchmarkScript.script "/home/user" "8"
              ["5000"; (CStr.fmt_d 0 ++ String "013" EmptyString)%string] in
  BenchmarkScript.command r
  = Some (BenchmarkScript.DB_BENCH_EXEC "/home/user"
            :: BenchmarkScript.options "5000" (CStr.fmt_d (Z.max 0 1)))
  /\ BenchmarkScript.command r'
     = Some (BenchmarkScript.DB_BENCH_EXEC "/home/user"
               :: BenchmarkScript.options "5000"
                    (CStr.fmt_d 0 ++ String "013" EmptyString))
  /\ BenchmarkScript.option_value "num"
       (BenchmarkScript.options "5000" (CStr.fmt_d (Z.max 0 1))) = Some "5000"
  /\ BenchmarkScript.option_value "threads"
       (BenchmarkScript.options "5000" (CStr.fmt_d (Z.max 0 1)))
     = Some (CStr.fmt_d (Z.max 0 1))
  /\ forall nproc',
       BenchmarkScript.script "/home/user" nproc' ["5000"; CStr.fmt_d 0] = r.
Proof.
  apply (explicit_parameters_pass_through "/home/user" "8" "5000" 0 []);
    reflexivity.
Defined.

Lemma detected_core_count_is_floored_witness :
  let r := BenchmarkScript.script "/home/user" (CStr.fmt_d 0) [] in
  BenchmarkScript.command r
  = Some (BenchmarkScript.DB_BENCH_EXEC "/home/user"
            :: BenchmarkScript.options "1000" (CStr.fmt_d (Z.max 0 1)))
  /\ BenchmarkScript.option_value "num"
       (BenchmarkScript.options "1000" (CStr.fmt_d (Z.max 0 1))) = Some "1000"
  /\ BenchmarkScript.option_value "threads"
       (BenchmarkScript.options "1000" (CStr.fmt_d (Z.max 0 1)))
     = Some (CStr.fmt_d (Z.max 0 1))
  /\ BenchmarkScript.stdout r
     = ["--- Running RocksDB Benchmarks ---";
        "NUM Operations (--num): 1000";
        ("Threads (--threads): " ++ CStr.fmt_d (Z.max 0 1))%string;
        "----------------------------------"].
Proof.
  apply (detected_core_count_is_floored "/home/user" 0); reflexivity.
Defined.
